(** * bluepy/microbit.py: service wrappers, payload decoding and the
      command-line driver, embedded over a scripted BLE transport.

    The BLE library ([bluepy.btle]) is an external collaborator.  It is
    modelled as a [Device]: for every library call, a function from the
    history of calls issued so far to what the call does (return a value or
    raise).  Every library call and every printed line is appended to a
    trace, so that the number and the order of the calls can be stated. *)

From Stdlib Require Import ZArith List Bool Lia QArith.
From Stdlib.Strings Require Import String Ascii Byte.
From Stdlib Require Import DecimalString Hexadecimal.
Import ListNotations.
Open Scope string_scope.
Open Scope list_scope.
Open Scope Z_scope.

(** ** Values *)

Definition bytes := list byte.

Inductive UUID := mkUUID (s : string).

(** Handles of remote objects, as the library hands them out. *)
Definition SvcRef := Z.
Definition ChrRef := Z.

Inductive AddrType := ADDR_TYPE_PUBLIC | ADDR_TYPE_RANDOM.

(** The argument of [sys.exit]: an integer status or a message. *)
Inductive ExitArg :=
| ExitCode (n : Z)
| ExitMsg (s : string).

(** Python exceptions the program can meet.  [BTLEException] carries the
    attributes the program inspects ([code], [estat]); its class is declared
    in the BLE library. *)
Inductive exn :=
| AttributeError                 (* attribute access on [None] *)
| TypeError                      (* [ord] of a string whose length is not 1 *)
| StructError                    (* [struct.error]: wrong payload size *)
| IndexError                     (* [[0]] of an empty list *)
| BTLEException (code : Z) (msg : string) (estat : option Z)
| SystemExit (arg : ExitArg)
| OtherError (name : string).    (* any other exception of the library *)

(** ** Calls, trace and device *)

Inductive Event :=
| EConnect (addr : string) (addrType : AddrType) (iface : option Z)
| EGetServiceByUUID (u : UUID)
| EGetCharacteristics (s : SvcRef) (u : UUID)
| ERead (c : ChrRef)
| ESetSecurityLevel (level : string)
| EUnpair
| EPair
| EDisconnect
| EWaitForNotifications (timeout : Q)
| EDebugging
| EPrint (line : string).

Definition Trace := list Event.

(** What a library call does. *)
Inductive reply (A : Type) :=
| Returns (a : A)
| Raises (e : exn).
Arguments Returns {A} a.
Arguments Raises {A} e.

(** The transport and the remote device: each call answers from the trace
    of what happened before it.  [DISCONNECTED] is the library's constant
    [BTLEException.DISCONNECTED]. *)
Record Device := {
  DISCONNECTED : Z;
  on_connect : Trace -> string -> AddrType -> option Z -> reply unit;
  on_getServiceByUUID : Trace -> UUID -> reply SvcRef;
  on_getCharacteristics : Trace -> SvcRef -> UUID -> reply (list ChrRef);
  on_read : Trace -> ChrRef -> reply bytes;
  on_setSecurityLevel : Trace -> string -> reply unit;
  on_unpair : Trace -> reply unit;
  on_pair : Trace -> reply unit;
  on_disconnect : Trace -> reply unit;
  on_waitForNotifications : Trace -> Q -> reply bool
}.

(** ** The effect monad: device, object state, trace *)

Inductive outcome (A : Type) :=
| Ok (a : A)
| Raise (e : exn)
| OutOfFuel.                     (* the loop budget of the model ran out *)
Arguments Ok {A} a.
Arguments Raise {A} e.
Arguments OutOfFuel {A}.

Definition M (S A : Type) := Device -> S -> Trace -> outcome A * S * Trace.

Definition ret {S A} (a : A) : M S A := fun _ s tr => (Ok a, s, tr).

Definition raise {S A} (e : exn) : M S A := fun _ s tr => (Raise e, s, tr).

Definition bind {S A B} (m : M S A) (k : A -> M S B) : M S B :=
  fun dev s tr =>
    match m dev s tr with
    | (Ok a, s', tr') => k a dev s' tr'
    | (Raise e, s', tr') => (Raise e, s', tr')
    | (OutOfFuel, s', tr') => (OutOfFuel, s', tr')
    end.

Notation "x <- m ;; k" := (bind m (fun x => k))
  (at level 61, m at next level, right associativity).
Notation "m ;;; k" := (bind m (fun _ => k))
  (at level 61, right associativity).

Definition get {S} : M S S := fun _ s tr => (Ok s, s, tr).

Definition modify {S} (f : S -> S) : M S unit := fun _ s tr => (Ok tt, f s, tr).

(** [if c: body] *)
Definition when {S} (c : bool) (body : M S unit) : M S unit :=
  if c then body else ret tt.

(** Run a method of a sub-object ([microbit.temperature.enable()]). *)
Definition zoom {S T A} (proj : S -> T) (upd : S -> T -> S) (m : M T A) : M S A :=
  fun dev s tr =>
    match m dev (proj s) tr with
    | (o, t', tr') => (o, upd s t', tr')
    end.

(** Run a block on a freshly constructed object. *)
Definition with_object {S T A} (init : T) (m : M T A) : M S A :=
  fun dev s tr =>
    match m dev init tr with
    | (o, _, tr') => (o, s, tr')
    end.

(** [try: body finally: fin].  The finaliser runs whether the body returned
    or raised; an exception of the finaliser replaces the body's. *)
Definition try_finally {S A} (body : M S A) (fin : M S unit) : M S A :=
  fun dev s tr =>
    match body dev s tr with
    | (OutOfFuel, s', tr') => (OutOfFuel, s', tr')
    | (o, s', tr') =>
        match fin dev s' tr' with
        | (Ok _, s'', tr'') => (o, s'', tr'')
        | (Raise e, s'', tr'') => (Raise e, s'', tr'')
        | (OutOfFuel, s'', tr'') => (OutOfFuel, s'', tr'')
        end
    end.

(** [try: body except btle.BTLEException as e: handler]. *)
Definition try_except_BTLE {S A} (body : M S A)
    (handler : Z -> string -> option Z -> M S A) : M S A :=
  fun dev s tr =>
    match body dev s tr with
    | (Raise (BTLEException code msg estat), s', tr') => handler code msg estat dev s' tr'
    | r => r
    end.

(** A library call: logged, then answered by the device from the trace
    before the call. *)
Definition call {S A} (ev : Event) (answer : Device -> Trace -> reply A) : M S A :=
  fun dev s tr =>
    match answer dev tr with
    | Returns a => (Ok a, s, tr ++ [ev])
    | Raises e => (Raise e, s, tr ++ [ev])
    end.

Definition print {S} (line : string) : M S unit :=
  fun _ s tr => (Ok tt, s, tr ++ [EPrint line]).

Definition Peripheral_init {S} (addr : string) (addrType : AddrType) (iface : option Z) : M S unit :=
  call (EConnect addr addrType iface) (fun dev tr => on_connect dev tr addr addrType iface).

Definition getServiceByUUID {S} (u : UUID) : M S SvcRef :=
  call (EGetServiceByUUID u) (fun dev tr => on_getServiceByUUID dev tr u).

Definition getCharacteristics {S} (svc : SvcRef) (u : UUID) : M S (list ChrRef) :=
  call (EGetCharacteristics svc u) (fun dev tr => on_getCharacteristics dev tr svc u).

Definition Characteristic_read {S} (c : ChrRef) : M S bytes :=
  call (ERead c) (fun dev tr => on_read dev tr c).

Definition setSecurityLevel {S} (level : string) : M S unit :=
  call (ESetSecurityLevel level) (fun dev tr => on_setSecurityLevel dev tr level).

Definition unpair {S} : M S unit := call EUnpair on_unpair.

Definition pair {S} : M S unit := call EPair on_pair.

Definition disconnect {S} : M S unit := call EDisconnect on_disconnect.

Definition waitForNotifications {S} (timeout : Q) : M S bool :=
  call (EWaitForNotifications timeout) (fun dev tr => on_waitForNotifications dev tr timeout).

(** ** Python built-ins the program uses *)

(** Attribute access or method call through a reference that may be [None]. *)
Definition deref {S A} (r : option A) : M S A :=
  match r with
  | Some a => ret a
  | None => raise AttributeError
  end.

Definition is_None {A} (r : option A) : bool :=
  match r with
  | None => true
  | Some _ => false
  end.

(** [l[0]] *)
Definition index0 {S A} (l : list A) : M S A :=
  match l with
  | a :: _ => ret a
  | [] => raise IndexError
  end.

(** [ord(s)] on a byte string. *)
Definition ord {S} (s : bytes) : M S Z :=
  match s with
  | [b] => ret (Z.of_N (Byte.to_N b))
  | _ => raise TypeError
  end.

(** One [h] field of [struct.unpack("<hhh", ...)]: little-endian, signed. *)
Definition int16_le (lo hi : byte) : Z :=
  let u := Z.lor (Z.of_N (Byte.to_N lo)) (Z.shiftl (Z.of_N (Byte.to_N hi)) 8) in
  if u <? 32768 then u else u - 65536.

(** [struct.unpack("<hhh", s)]: requires exactly six bytes. *)
Definition unpack_hhh {S} (s : bytes) : M S (Z * Z * Z) :=
  match s with
  | [x0; x1; y0; y1; z0; z1] => ret (int16_le x0 x1, int16_le y0 y1, int16_le z0 z1)
  | _ => raise StructError
  end.

Definition decimal_digits (n : Z) : string :=
  NilZero.string_of_uint (N.to_uint (Z.to_N (Z.abs n))).

Fixpoint zeros (n : nat) : string :=
  match n with
  | O => ""
  | S k => String "0" (zeros k)
  end.

(** Zero padding to a minimal width, the sign first. *)
Definition zero_pad (width : nat) (negative : bool) (digits : string) : string :=
  let sign := if negative then "-" else "" in
  (sign ++ zeros (width - String.length sign - String.length digits) ++ digits)%string.

(** ["%d" % n] *)
Definition fmt_d (n : Z) : string := zero_pad 0 (n <? 0) (decimal_digits n).

(** ["{:05d}".format(n)] *)
Definition fmt_05d (n : Z) : string := zero_pad 5 (n <? 0) (decimal_digits n).

Fixpoint upper_hex_uint (u : Hexadecimal.uint) : string :=
  match u with
  | Nil => ""
  | D0 r => String "0" (upper_hex_uint r)
  | D1 r => String "1" (upper_hex_uint r)
  | D2 r => String "2" (upper_hex_uint r)
  | D3 r => String "3" (upper_hex_uint r)
  | D4 r => String "4" (upper_hex_uint r)
  | D5 r => String "5" (upper_hex_uint r)
  | D6 r => String "6" (upper_hex_uint r)
  | D7 r => String "7" (upper_hex_uint r)
  | D8 r => String "8" (upper_hex_uint r)
  | D9 r => String "9" (upper_hex_uint r)
  | Da r => String "A" (upper_hex_uint r)
  | Db r => String "B" (upper_hex_uint r)
  | Dc r => String "C" (upper_hex_uint r)
  | Dd r => String "D" (upper_hex_uint r)
  | De r => String "E" (upper_hex_uint r)
  | Df r => String "F" (upper_hex_uint r)
  end.

(** ["%04X" % n] *)
Definition fmt_04X (n : Z) : string :=
  zero_pad 4 (n <? 0) (upper_hex_uint (N.to_hex_uint (Z.to_N (Z.abs n)))).

(** ** UUIDs *)

Definition Nordic_UUID (val : Z) : UUID :=
  mkUUID ("EF68" ++ fmt_04X val ++ "-9B35-4933-9B10-52FFA9740042")%string.

Definition Microbit_UUID (val : Z) : UUID :=
  mkUUID ("E95D" ++ fmt_04X val ++ "-251D-470A-A062-FA1922DFA9A8")%string.

Definition ACCEL_SERVICE : Z := 0x0753.
Definition ACCEL_DATA : Z := 0xCA4B.
Definition BTN_SERVICE : Z := 0x9882.
Definition BTN_A_STATE : Z := 0xDA90.
Definition BTN_B_STATE : Z := 0xDA91.
Definition TEMP_SERVICE : Z := 0x6100.
Definition TEMP_DATA : Z := 0x9250.

(** ** Service wrappers *)

Module TemperatureService.

Record t := { service : option SvcRef; data : option ChrRef }.

Definition svcUUID : UUID := Microbit_UUID TEMP_SERVICE.
Definition dataUUID : UUID := Microbit_UUID TEMP_DATA.

(** [__init__]: both references start as [None]. *)
Definition init : t := {| service := None; data := None |}.

Definition set_service (v : SvcRef) (self : t) : t :=
  {| service := Some v; data := data self |}.

Definition set_data (v : ChrRef) (self : t) : t :=
  {| service := service self; data := Some v |}.

Definition enable : M t unit :=
  self <- get ;;
  when (is_None (service self))
    (s <- getServiceByUUID svcUUID ;;
     modify (set_service s)) ;;;
  self <- get ;;
  when (is_None (data self))
    (svc <- deref (service self) ;;
     chars <- getCharacteristics svc dataUUID ;;
     c <- index0 chars ;;
     modify (set_data c)).

Definition read : M t Z :=
  self <- get ;;
  d <- deref (data self) ;;
  payload <- Characteristic_read d ;;
  val <- ord payload ;;
  ret val.

End TemperatureService.

Module AcceleratorService.

Record t := { service : option SvcRef; data : option ChrRef }.

Definition svcUUID : UUID := Microbit_UUID ACCEL_SERVICE.
Definition dataUUID : UUID := Microbit_UUID ACCEL_DATA.

Definition init : t := {| service := None; data := None |}.

Definition set_service (v : SvcRef) (self : t) : t :=
  {| service := Some v; data := data self |}.

Definition set_data (v : ChrRef) (self : t) : t :=
  {| service := service self; data := Some v |}.

Definition enable : M t unit :=
  self <- get ;;
  when (is_None (service self))
    (s <- getServiceByUUID svcUUID ;;
     modify (set_service s)) ;;;
  self <- get ;;
  when (is_None (data self))
    (svc <- deref (service self) ;;
     chars <- getCharacteristics svc dataUUID ;;
     c <- index0 chars ;;
     modify (set_data c)).

Definition read : M t (Z * Z * Z) :=
  self <- get ;;
  d <- deref (data self) ;;
  accel_data <- Characteristic_read d ;;
  xyz <- unpack_hhh accel_data ;;
  ret xyz.

End AcceleratorService.

Module ButtonsService.

Record t := { service : option SvcRef; dataA : option ChrRef; dataB : option ChrRef }.

Definition svcUUID : UUID := Microbit_UUID BTN_SERVICE.
Definition dataUUID_btnA : UUID := Microbit_UUID BTN_A_STATE.
Definition dataUUID_btnB : UUID := Microbit_UUID BTN_B_STATE.

Definition init : t := {| service := None; dataA := None; dataB := None |}.

Definition set_service (v : SvcRef) (self : t) : t :=
  {| service := Some v; dataA := dataA self; dataB := dataB self |}.

Definition set_dataA (v : ChrRef) (self : t) : t :=
  {| service := service self; dataA := Some v; dataB := dataB self |}.

Definition set_dataB (v : ChrRef) (self : t) : t :=
  {| service := service self; dataA := dataA self; dataB := Some v |}.

Definition enable : M t unit :=
  self <- get ;;
  when (is_None (service self))
    (s <- getServiceByUUID svcUUID ;;
     modify (set_service s)) ;;;
  self <- get ;;
  when (is_None (dataA self))
    (svc <- deref (service self) ;;
     chars <- getCharacteristics svc dataUUID_btnA ;;
     c <- index0 chars ;;
     modify (set_dataA c)) ;;;
  self <- get ;;
  when (is_None (dataB self))
    (svc <- deref (service self) ;;
     chars <- getCharacteristics svc dataUUID_btnB ;;
     c <- index0 chars ;;
     modify (set_dataB c)).

Definition read_btnA : M t Z :=
  self <- get ;;
  d <- deref (dataA self) ;;
  payload <- Characteristic_read d ;;
  ord payload.

Definition read_btnB : M t Z :=
  self <- get ;;
  d <- deref (dataB self) ;;
  payload <- Characteristic_read d ;;
  ord payload.

Definition read : M t (Z * Z) :=
  a <- read_btnA ;;
  b <- read_btnB ;;
  ret (a, b).

End ButtonsService.

(** ** The device handle *)

Module Microbit.

Record t := {
  temperature : TemperatureService.t;
  accelerator : AcceleratorService.t;
  buttons : ButtonsService.t
}.

(** The three wrappers [__init__] creates, none of them enabled. *)
Definition init : t :=
  {| temperature := TemperatureService.init;
     accelerator := AcceleratorService.init;
     buttons := ButtonsService.init |}.

Definition upd_temperature (self : t) (w : TemperatureService.t) : t :=
  {| temperature := w; accelerator := accelerator self; buttons := buttons self |}.

Definition upd_accelerator (self : t) (w : AcceleratorService.t) : t :=
  {| temperature := temperature self; accelerator := w; buttons := buttons self |}.

Definition upd_buttons (self : t) (w : ButtonsService.t) : t :=
  {| temperature := temperature self; accelerator := accelerator self; buttons := w |}.

(** [microbit.temperature.<method>()] and its siblings. *)
Definition on_temperature {A} (m : M TemperatureService.t A) : M t A :=
  zoom temperature upd_temperature m.

Definition on_accelerator {A} (m : M AcceleratorService.t A) : M t A :=
  zoom accelerator upd_accelerator m.

Definition on_buttons {A} (m : M ButtonsService.t A) : M t A :=
  zoom buttons upd_buttons m.

End Microbit.

(** ** The command-line driver *)

(** The namespace [parser.parse_args()] returns. *)
Record Args := {
  mac_address : string;
  count : Z;
  t : Q;
  temperature : bool;
  accelerator : bool;
  buttons : bool;
  security : string;
  pair_flag : bool;
  interface : Z;
  debug : bool
}.

(** The [choices] of [--security]. *)
Definition security_choices : list string :=
  ["no-pairing"; "just-works"; "passkey"; "low"; "medium"; "high"].

(** [x in l] on strings. *)
Definition str_in (x : string) (l : list string) : bool :=
  existsb (String.eqb x) l.

(** The library constant [btle.BTLEException.DISCONNECTED]. *)
Definition BTLEException_DISCONNECTED {S} : M S Z :=
  fun dev s tr => (Ok (DISCONNECTED dev), s, tr).

(** [attr == n] for an attribute that may be [None]. *)
Definition opt_eqb (attr : option Z) (n : Z) : bool :=
  match attr with
  | Some v => v =? n
  | None => false
  end.

(** [btle.Debugging = True] *)
Definition set_Debugging {S} : M S unit :=
  fun _ s tr => (Ok tt, s, tr ++ [EDebugging]).

Definition sys_exit {S A} (arg : ExitArg) : M S A := raise (SystemExit arg).

Definition msg_pair_conflict : string :=
  "error: --pair can not be combined with other services (e.g --buttons)".

Definition msg_no_action : string :=
  "no action requested (e.g --pair or --temperature/--accelerator/--buttons), aborting.".

Definition msg_passkey : string :=
  "error: microbit with Passkey security mode is not currently supported in this program".

Definition msg_not_paired : string := "unpair failed: not-paired (which is OK)".

(** One round of the [while True] body up to the exit test. *)
Definition poll_round (args : Args) : M Microbit.t unit :=
  when (temperature args)
    (v <- Microbit.on_temperature TemperatureService.read ;;
     print ("Temperature: " ++ fmt_d v ++ "C")%string) ;;;
  when (accelerator args)
    (xyz <- Microbit.on_accelerator AcceleratorService.read ;;
     let '(x, y, z) := xyz in
     print ("Accelerator: x: " ++ fmt_05d x ++ "   y: " ++ fmt_05d y
            ++ "   z: " ++ fmt_05d z)%string) ;;;
  when (buttons args)
    (ab <- Microbit.on_buttons ButtonsService.read ;;
     let '(a, b) := ab in
     print ("buttons: A: " ++ fmt_d a ++ "   B: " ++ fmt_d b)%string).

(** The [while True] loop, entered with the current [counter]. *)
Fixpoint poll_loop (fuel : nat) (args : Args) (counter : Z) : M Microbit.t unit :=
  match fuel with
  | O => fun _ s tr => (OutOfFuel, s, tr)
  | S fuel' =>
      poll_round args ;;;
      if counter >=? count args then ret tt
      else
        let counter := counter + 1 in
        waitForNotifications (t args) ;;;
        poll_loop fuel' args counter
  end.

(** The [try: p.unpair() except btle.BTLEException as e: ...] statement. *)
Definition try_unpair : M unit unit :=
  try_except_BTLE unpair
    (fun code msg estat =>
       disconnected <- BTLEException_DISCONNECTED ;;
       if (code =? disconnected) && opt_eqb estat 6
       then print msg_not_paired
       else raise (BTLEException code msg estat)).

Definition pair_flow (args : Args) : M unit unit :=
  Peripheral_init (mac_address args) ADDR_TYPE_RANDOM (Some (interface args)) ;;;
  try_unpair ;;;
  disconnect ;;;
  Peripheral_init (mac_address args) ADDR_TYPE_RANDOM (Some (interface args)) ;;;
  pair ;;;
  print "Paired." ;;;
  sys_exit (ExitCode 0).

(** The security step: [setSecurityLevel] or the rejection. *)
Definition set_security (args : Args) : M Microbit.t unit :=
  if str_in (security args) ["low"; "no-pairing"] then
    setSecurityLevel "low"
  else if str_in (security args) ["just-works"; "medium"] then
    setSecurityLevel "medium"
  else
    sys_exit (ExitMsg msg_passkey).

(** The body of the [try] statement. *)
Definition try_body (fuel : nat) (args : Args) : M Microbit.t unit :=
  print "Enabling selected sensors..." ;;;
  when (temperature args) (Microbit.on_temperature TemperatureService.enable) ;;;
  when (accelerator args) (Microbit.on_accelerator AcceleratorService.enable) ;;;
  when (buttons args) (Microbit.on_buttons ButtonsService.enable) ;;;
  poll_loop fuel args 1.

Definition poll_flow (fuel : nat) (args : Args) : M unit unit :=
  print ("Connecting to " ++ mac_address args)%string ;;;
  Peripheral_init (mac_address args) ADDR_TYPE_RANDOM None ;;;
  with_object Microbit.init
    (print "Setting security" ;;;
     set_security args ;;;
     try_finally (try_body fuel args) disconnect).

Definition services_requested (args : Args) : bool :=
  temperature args || accelerator args || buttons args.

Definition main (fuel : nat) (args : Args) : M unit unit :=
  when (pair_flag args && services_requested args)
    (sys_exit (ExitMsg msg_pair_conflict)) ;;;
  when (negb (pair_flag args) && negb (services_requested args))
    (sys_exit (ExitMsg msg_no_action)) ;;;
  when (debug args) set_Debugging ;;;
  if pair_flag args then pair_flow args else poll_flow fuel args.

(** ** The process: what it did and how it ended *)

(** The program started on an empty trace. *)
Definition run_main (fuel : nat) (args : Args) (dev : Device) : outcome unit * Trace :=
  match main fuel args dev tt [] with
  | (o, _, tr) => (o, tr)
  end.

(** Exit status of the interpreter: 0 after a normal return or [sys.exit(0)],
    the low byte of an integer argument, 1 after [sys.exit(message)] or an
    uncaught exception. *)
Definition exit_status (o : outcome unit) : option Z :=
  match o with
  | Ok _ => Some 0
  | Raise (SystemExit (ExitCode n)) => Some (Z.land n 255)
  | Raise _ => Some 1
  | OutOfFuel => None
  end.

(** What the interpreter writes to standard error for [sys.exit(message)]. *)
Definition exit_message (o : outcome unit) : option string :=
  match o with
  | Raise (SystemExit (ExitMsg s)) => Some s
  | _ => None
  end.

(** Lines written to standard output, oldest first. *)
Fixpoint stdout (tr : Trace) : list string :=
  match tr with
  | [] => []
  | EPrint line :: r => line :: stdout r
  | _ :: r => stdout r
  end.

Definition is_disconnect (e : Event) : bool :=
  match e with EDisconnect => true | _ => false end.

Definition is_connect (e : Event) : bool :=
  match e with EConnect _ _ _ => true | _ => false end.

Definition is_read (e : Event) : bool :=
  match e with ERead _ => true | _ => false end.

Definition is_wait (e : Event) : bool :=
  match e with EWaitForNotifications _ => true | _ => false end.

(** A resolution call: service or characteristic lookup. *)
Definition is_lookup (e : Event) : bool :=
  match e with
  | EGetServiceByUUID _ | EGetCharacteristics _ _ => true
  | _ => false
  end.

Definition is_setSecurity (e : Event) : bool :=
  match e with ESetSecurityLevel _ => true | _ => false end.

(** How many events of a kind the trace holds. *)
Definition count_ev (p : Event -> bool) (tr : Trace) : nat :=
  List.length (filter p tr).

(** ** Scripted devices *)

(** The handle the scripted device gives to a characteristic. *)
Definition mock_handle (u : UUID) : ChrRef :=
  match u with
  | mkUUID s =>
      if String.eqb s "E95D9250-251D-470A-A062-FA1922DFA9A8" then 10
      else if String.eqb s "E95DCA4B-251D-470A-A062-FA1922DFA9A8" then 20
      else if String.eqb s "E95DDA90-251D-470A-A062-FA1922DFA9A8" then 30
      else if String.eqb s "E95DDA91-251D-470A-A062-FA1922DFA9A8" then 31
      else 0
  end.

(** A device on which every call succeeds; a characteristic read returns
    [payload] of the handle. *)
Definition mock (payload : ChrRef -> bytes) : Device :=
  {| DISCONNECTED := 1;
     on_connect := fun _ _ _ _ => Returns tt;
     on_getServiceByUUID := fun _ _ => Returns 1;
     on_getCharacteristics := fun _ _ u => Returns [mock_handle u];
     on_read := fun _ c => Returns (payload c);
     on_setSecurityLevel := fun _ _ => Returns tt;
     on_unpair := fun _ => Returns tt;
     on_pair := fun _ => Returns tt;
     on_disconnect := fun _ => Returns tt;
     on_waitForNotifications := fun _ _ => Returns false |}.

(** Payloads of a device at 20 degrees, at rest, button A pressed. *)
Definition payload20 (c : ChrRef) : bytes :=
  if c =? 10 then [x14]
  else if c =? 20 then [x01; x00; xfe; xff; x00; x80]
  else if c =? 30 then [x01]
  else [x00].

Definition mock20 : Device := mock payload20.

(** The same device without the button B characteristic. *)
Definition mock_no_btnB : Device :=
  {| DISCONNECTED := 1;
     on_connect := fun _ _ _ _ => Returns tt;
     on_getServiceByUUID := fun _ _ => Returns 1;
     on_getCharacteristics := fun _ _ u =>
       if mock_handle u =? 31 then Returns [] else Returns [mock_handle u];
     on_read := fun _ c => Returns (payload20 c);
     on_setSecurityLevel := fun _ _ => Returns tt;
     on_unpair := fun _ => Returns tt;
     on_pair := fun _ => Returns tt;
     on_disconnect := fun _ => Returns tt;
     on_waitForNotifications := fun _ _ => Returns false |}.

(** A device on which [unpair] raises [e]. *)
Definition mock_unpair_raises (e : exn) : Device :=
  {| DISCONNECTED := 1;
     on_connect := fun _ _ _ _ => Returns tt;
     on_getServiceByUUID := fun _ _ => Returns 1;
     on_getCharacteristics := fun _ _ u => Returns [mock_handle u];
     on_read := fun _ c => Returns (payload20 c);
     on_setSecurityLevel := fun _ _ => Returns tt;
     on_unpair := fun _ => Raises e;
     on_pair := fun _ => Returns tt;
     on_disconnect := fun _ => Returns tt;
     on_waitForNotifications := fun _ _ => Returns false |}.

(** A device whose characteristic reads fail from the [k]-th read on. *)
Definition mock_read_fails_after (k : nat) : Device :=
  {| DISCONNECTED := 1;
     on_connect := fun _ _ _ _ => Returns tt;
     on_getServiceByUUID := fun _ _ => Returns 1;
     on_getCharacteristics := fun _ _ u => Returns [mock_handle u];
     on_read := fun tr c =>
       if (count_ev is_read tr <? k)%nat then Returns (payload20 c)
       else Raises (BTLEException 1 "Device disconnected" None);
     on_setSecurityLevel := fun _ _ => Returns tt;
     on_unpair := fun _ => Returns tt;
     on_pair := fun _ => Returns tt;
     on_disconnect := fun _ => Returns tt;
     on_waitForNotifications := fun _ _ => Returns false |}.

Definition default_args (mac : string) : Args :=
  {| mac_address := mac; count := 1; t := 1; temperature := false;
     accelerator := false; buttons := false; security := "no-pairing";
     pair_flag := false; interface := 0; debug := false |}.

Definition with_sensors (tmp acc btn : bool) (a : Args) : Args :=
  {| mac_address := mac_address a; count := count a; t := t a; temperature := tmp;
     accelerator := acc; buttons := btn; security := security a;
     pair_flag := pair_flag a; interface := interface a; debug := debug a |}.

Definition with_count (n : Z) (timeout : Q) (a : Args) : Args :=
  {| mac_address := mac_address a; count := n; t := timeout;
     temperature := temperature a; accelerator := accelerator a;
     buttons := buttons a; security := security a;
     pair_flag := pair_flag a; interface := interface a; debug := debug a |}.

Definition with_security (sec : string) (a : Args) : Args :=
  {| mac_address := mac_address a; count := count a; t := t a;
     temperature := temperature a; accelerator := accelerator a;
     buttons := buttons a; security := sec;
     pair_flag := pair_flag a; interface := interface a; debug := debug a |}.

Definition with_pair (a : Args) : Args :=
  {| mac_address := mac_address a; count := count a; t := t a;
     temperature := temperature a; accelerator := accelerator a;
     buttons := buttons a; security := security a;
     pair_flag := true; interface := interface a; debug := debug a |}.

Definition mac0 : string := "C0:FF:EE:00:00:01".

(** The accelerometer decoding in the spec's words: the 16-bit value
    [lo + 256 * hi] read as a two's complement number. *)
Definition le_int16_spec (lo hi : byte) : Z :=
  (Z.of_N (Byte.to_N lo) + 256 * Z.of_N (Byte.to_N hi) + 32768) mod 65536 - 32768.

(** The byte holding [n], for [n] in 0..255. *)
Definition byte_of_Z (n : Z) : byte :=
  match Byte.of_N (Z.to_N n) with
  | Some b => b
  | None => x00
  end.

(** The three wrapper classes behind one interface. *)
Inductive Sensor := Temperature | Accelerometer | Buttons.

Definition wrapper (k : Sensor) : Type :=
  match k with
  | Temperature => TemperatureService.t
  | Accelerometer => AcceleratorService.t
  | Buttons => ButtonsService.t
  end.

Definition wrapper_init (k : Sensor) : wrapper k :=
  match k with
  | Temperature => TemperatureService.init
  | Accelerometer => AcceleratorService.init
  | Buttons => ButtonsService.init
  end.

Definition wrapper_enable (k : Sensor) : M (wrapper k) unit :=
  match k with
  | Temperature => TemperatureService.enable
  | Accelerometer => AcceleratorService.enable
  | Buttons => ButtonsService.enable
  end.

(** A wrapper on which no [enable()] has succeeded yet: fresh from
    [__init__], or left behind by an [enable()] that raised. *)
Inductive unenabled (k : Sensor) : wrapper k -> Prop :=
| unenabled_init : unenabled k (wrapper_init k)
| unenabled_failed dev self tr e self' tr' :
    unenabled k self ->
    wrapper_enable k dev self tr = (Raise e, self', tr') ->
    unenabled k self'.

(** The wrapper an [enable()] leaves on [mock_no_btnB]. *)
Definition half_enabled_buttons : ButtonsService.t :=
  {| ButtonsService.service := Some 1;
     ButtonsService.dataA := Some 30;
     ButtonsService.dataB := None |}.

(** Fuel that covers the [max(1, count)] rounds of the loop. *)
Definition enough_fuel (fuel : nat) (args : Args) : Prop :=
  (Z.to_nat (Z.max 1 (count args)) <= fuel)%nat.

(** [m] only appends events that satisfy [Q], and never exhausts the loop
    budget. *)
Definition emits {S A} (Q : Event -> bool) (m : M S A) : Prop :=
  forall dev s tr, exists o s' ext,
    m dev s tr = (o, s', tr ++ ext) /\ forallb Q ext = true /\ o <> OutOfFuel.

Definition is_poll_event (e : Event) : bool :=
  match e with
  | ERead _ | EPrint _ | EWaitForNotifications _ => true
  | _ => false
  end.

(** Events of the guarded block of the polling flow: everything it can do
    before the finaliser. *)
Definition is_try_event (e : Event) : bool := is_lookup e || is_poll_event e.

(** What [btle.Debugging = True] leaves in the trace. *)
Definition debug_prefix (args : Args) : Trace :=
  if debug args then [EDebugging] else [].

(** The trace of a polling run up to the established connection. *)
Definition connected_prefix (args : Args) : Trace :=
  debug_prefix args
  ++ [EPrint ("Connecting to " ++ mac_address args)%string;
      EConnect (mac_address args) ADDR_TYPE_RANDOM None].

(** A polling invocation: sensors and no [--pair]. *)
Definition polling (args : Args) : Prop :=
  pair_flag args = false /\ services_requested args = true.

(** The connection attempt of a polling run succeeds. *)
Definition connects (dev : Device) (args : Args) : Prop :=
  on_connect dev
    (debug_prefix args ++ [EPrint ("Connecting to " ++ mac_address args)%string])
    (mac_address args) ADDR_TYPE_RANDOM None = Returns tt.

(** A device whose [setSecurityLevel] fails. *)
Definition mock_security_raises : Device :=
  {| DISCONNECTED := 1;
     on_connect := fun _ _ _ _ => Returns tt;
     on_getServiceByUUID := fun _ _ => Returns 1;
     on_getCharacteristics := fun _ _ u => Returns [mock_handle u];
     on_read := fun _ c => Returns (payload20 c);
     on_setSecurityLevel := fun _ _ =>
       Raises (BTLEException 1 "Device disconnected" None);
     on_unpair := fun _ => Returns tt;
     on_pair := fun _ => Returns tt;
     on_disconnect := fun _ => Returns tt;
     on_waitForNotifications := fun _ _ => Returns false |}.

(** The "not currently paired" signature in the spec's words: a transport
    exception whose code is DISCONNECTED and whose status is 6. *)
Definition not_paired_signature (dev : Device) (e : exn) : bool :=
  match e with
  | BTLEException code _ (Some status) =>
      Z.eqb code (DISCONNECTED dev) && Z.eqb status 6
  | _ => false
  end.

(** A pairing invocation: [--pair] and no sensor flag. *)
Definition pairing (args : Args) : Prop :=
  pair_flag args = true /\ services_requested args = false.

(** The trace of a pairing run up to the first established connection. *)
Definition pair_connected (args : Args) : Trace :=
  debug_prefix args
  ++ [EConnect (mac_address args) ADDR_TYPE_RANDOM (Some (interface args))].

(** What the pairing flow does after the unpair step when every call
    succeeds. *)
Definition pair_tail (args : Args) : Trace :=
  [EDisconnect;
   EConnect (mac_address args) ADDR_TYPE_RANDOM (Some (interface args));
   EPair;
   EPrint "Paired."].

(** The calls after the unpair step all succeed, from trace [tr] on. *)
Definition tail_succeeds (dev : Device) (args : Args) (tr : Trace) : Prop :=
  on_disconnect dev tr = Returns tt
  /\ on_connect dev (tr ++ [EDisconnect]) (mac_address args) ADDR_TYPE_RANDOM
       (Some (interface args)) = Returns tt
  /\ on_pair dev (tr ++ [EDisconnect;
                         EConnect (mac_address args) ADDR_TYPE_RANDOM (Some (interface args))])
     = Returns tt.

(** The loop in the spec's words: one round of reads, then [extra] times
    a wait followed by a round; no wait after the last round. *)
Fixpoint poll_rounds (args : Args) (extra : nat) : M Microbit.t unit :=
  match extra with
  | O => poll_round args
  | S e =>
      poll_round args ;;;
      waitForNotifications (t args) ;;;
      poll_rounds args e
  end.

(** Characteristic reads of one round: one per sensor, two for the buttons. *)
Definition reads_per_round (args : Args) : nat :=
  (if temperature args then 1 else 0)
  + (if accelerator args then 1 else 0)
  + (if buttons args then 2 else 0).

(** The reference is set and every read through it returns [len] bytes. *)
Definition readable (dev : Device) (ref : option ChrRef) (len : nat) : Prop :=
  exists c, ref = Some c
            /\ forall tr, exists p, on_read dev tr c = Returns p /\ List.length p = len.

(** All reads of the requested sensors succeed. *)
Definition reads_succeed (dev : Device) (args : Args) (mb : Microbit.t) : Prop :=
  (temperature args = true ->
   readable dev (TemperatureService.data (Microbit.temperature mb)) 1)
  /\ (accelerator args = true ->
      readable dev (AcceleratorService.data (Microbit.accelerator mb)) 6)
  /\ (buttons args = true ->
      readable dev (ButtonsService.dataA (Microbit.buttons mb)) 1
      /\ readable dev (ButtonsService.dataB (Microbit.buttons mb)) 1).

Definition waits_succeed (dev : Device) (args : Args) : Prop :=
  forall tr, exists b, on_waitForNotifications dev tr (t args) = Returns b.

(** The device handle with all three wrappers enabled on the scripted
    device. *)
Definition enabled_microbit : Microbit.t :=
  {| Microbit.temperature :=
       {| TemperatureService.service := Some 1; TemperatureService.data := Some 10 |};
     Microbit.accelerator :=
       {| AcceleratorService.service := Some 1; AcceleratorService.data := Some 20 |};
     Microbit.buttons :=
       {| ButtonsService.service := Some 1; ButtonsService.dataA := Some 30;
          ButtonsService.dataB := Some 31 |} |}.

(** The invocation [-n 2 -t 0 --temperature], other options at their
    defaults. *)
Definition args_n2_temperature (mac : string) : Args :=
  with_count 2 0 (with_sensors true false false (default_args mac)).

(** A device on which every call succeeds and every characteristic read
    returns the single byte 20. *)
Definition returns_20 (dev : Device) : Prop :=
  (forall tr level, on_setSecurityLevel dev tr level = Returns tt)
  /\ (forall tr u, exists s, on_getServiceByUUID dev tr u = Returns s)
  /\ (forall tr s u, exists c r, on_getCharacteristics dev tr s u = Returns (c :: r))
  /\ (forall tr c, on_read dev tr c = Returns [x14])
  /\ (forall tr q, exists b, on_waitForNotifications dev tr q = Returns b)
  /\ (forall tr, on_disconnect dev tr = Returns tt).

(** How many lines equal to [line] the run printed. *)
Definition count_lines (line : string) (tr : Trace) : nat :=
  List.length (filter (String.eqb line) (stdout tr)).

(** ** Reading a UUID back *)

Definition uuid_text (u : UUID) : string :=
  match u with mkUUID s => s end.

(** Value of an uppercase hexadecimal digit. *)
Definition hex_digit_value (c : ascii) : option Z :=
  let n := Z.of_N (N_of_ascii c) in
  if (48 <=? n) && (n <=? 57) then Some (n - 48)
  else if (65 <=? n) && (n <=? 70) then Some (n - 55)
  else None.

Fixpoint hex_value_from (acc : Z) (s : string) : option Z :=
  match s with
  | EmptyString => Some acc
  | String c r =>
      match hex_digit_value c with
      | Some d => hex_value_from (16 * acc + d) r
      | None => None
      end
  end.

(** The 16-bit code field of a vendor UUID: the four characters after the
    four characters of the vendor prefix. *)
Definition code_field (u : UUID) : option Z :=
  hex_value_from 0 (substring 4 4 (uuid_text u)).

(** The canonical shape of a vendor UUID built from [prefix] and [suffix]
    around a code [v]. *)
Definition vendor_uuid_ok (prefix suffix : string) (u : UUID) (v : Z) : bool :=
  Nat.eqb (String.length (uuid_text u)) 36
  && String.eqb (substring 0 4 (uuid_text u)) prefix
  && String.eqb (substring 8 28 (uuid_text u)) suffix
  && match code_field u with
     | Some w => Z.eqb w v
     | None => false
     end.

(** All 16-bit codes. *)
(** The [n] integers from [start] on. *)
Fixpoint zrange (n : nat) (start : Z) : list Z :=
  match n with
  | O => []
  | S k => start :: zrange k (start + 1)
  end.

Definition codes16 : list Z := zrange (Z.to_nat 65536) 0.

(** All signed 16-bit values. *)
Definition int16_values : list Z := zrange (Z.to_nat 65536) (-32768).

(** ** Reading a printed number back *)

Definition decimal_digit_value (c : ascii) : option Z :=
  let n := Z.of_N (N_of_ascii c) in
  if (48 <=? n) && (n <=? 57) then Some (n - 48) else None.

Fixpoint decimal_value_from (acc : Z) (s : string) : option Z :=
  match s with
  | EmptyString => Some acc
  | String c r =>
      match decimal_digit_value c with
      | Some d => decimal_value_from (10 * acc + d) r
      | None => None
      end
  end.

(** An optional minus sign, then at least one decimal digit. *)
Definition decimal_value (s : string) : option Z :=
  match s with
  | EmptyString => None
  | String "-" EmptyString => None
  | String "-" r => option_map Z.opp (decimal_value_from 0 r)
  | _ => decimal_value_from 0 s
  end.

(** The accelerometer field of a signed 16-bit value reads back to the
    value and is five characters wide, six below -9999. *)
Definition field_05d_ok (x : Z) : bool :=
  match decimal_value (fmt_05d x) with
  | Some y => Z.eqb y x
  | None => false
  end
  && Nat.eqb (String.length (fmt_05d x)) (if (x <? -9999)%Z then 6%nat else 5%nat).

(** The [%d] field of a byte value reads back to the value and has no
    padding. *)
Definition field_d_ok (x : Z) : bool :=
  match decimal_value (fmt_d x) with
  | Some y => Z.eqb y x
  | None => false
  end
  && Nat.eqb (String.length (fmt_d x))
       (if (x <? 10)%Z then 1%nat else if (x <? 100)%Z then 2%nat else 3%nat).

Definition byte_values : list Z := zrange (Z.to_nat 256) 0.

(** ** Views of the three wrappers *)

Definition wrapper_service (k : Sensor) : wrapper k -> option SvcRef :=
  match k with
  | Temperature => TemperatureService.service
  | Accelerometer => AcceleratorService.service
  | Buttons => ButtonsService.service
  end.

Definition wrapper_svcUUID (k : Sensor) : UUID :=
  match k with
  | Temperature => TemperatureService.svcUUID
  | Accelerometer => AcceleratorService.svcUUID
  | Buttons => ButtonsService.svcUUID
  end.

(** Lookups of a complete resolution: the service and each characteristic. *)
Definition wrapper_lookups (k : Sensor) : nat :=
  match k with
  | Temperature | Accelerometer => 2
  | Buttons => 3
  end.

(** A characteristic lookup on the service [s]. *)
Definition is_char_lookup_on (s : SvcRef) (e : Event) : bool :=
  match e with
  | EGetCharacteristics s' _ => Z.eqb s' s
  | _ => false
  end.

(** A device without the services the wrappers look for. *)
Definition mock_no_service : Device :=
  {| DISCONNECTED := 1;
     on_connect := fun _ _ _ _ => Returns tt;
     on_getServiceByUUID := fun _ _ =>
       Raises (BTLEException 4 "Service not found" None);
     on_getCharacteristics := fun _ _ u => Returns [mock_handle u];
     on_read := fun _ c => Returns (payload20 c);
     on_setSecurityLevel := fun _ _ => Returns tt;
     on_unpair := fun _ => Returns tt;
     on_pair := fun _ => Returns tt;
     on_disconnect := fun _ => Returns tt;
     on_waitForNotifications := fun _ _ => Returns false |}.

(** A device that lists two characteristics for every UUID. *)
Definition mock_two_matches : Device :=
  {| DISCONNECTED := 1;
     on_connect := fun _ _ _ _ => Returns tt;
     on_getServiceByUUID := fun _ _ => Returns 1;
     on_getCharacteristics := fun _ _ u => Returns [mock_handle u; 99];
     on_read := fun _ c => Returns (payload20 c);
     on_setSecurityLevel := fun _ _ => Returns tt;
     on_unpair := fun _ => Returns tt;
     on_pair := fun _ => Returns tt;
     on_disconnect := fun _ => Returns tt;
     on_waitForNotifications := fun _ _ => Returns false |}.

(** ** The lines of a round *)

Definition temperature_line (v : Z) : string :=
  ("Temperature: " ++ fmt_d v ++ "C")%string.

Definition accelerator_line (x y z : Z) : string :=
  ("Accelerator: x: " ++ fmt_05d x ++ "   y: " ++ fmt_05d y
   ++ "   z: " ++ fmt_05d z)%string.

Definition buttons_line (a b : Z) : string :=
  ("buttons: A: " ++ fmt_d a ++ "   B: " ++ fmt_d b)%string.

Definition with_interface (i : Z) (a : Args) : Args :=
  {| mac_address := mac_address a; count := count a; t := t a;
     temperature := temperature a; accelerator := accelerator a;
     buttons := buttons a; security := security a;
     pair_flag := pair_flag a; interface := i; debug := debug a |}.

(** The security tiers the polling flow applies. *)
Definition supported_security (args : Args) : bool :=
  str_in (security args) ["low"; "no-pairing"; "just-works"; "medium"].

(** A device on which [disconnect] fails. *)
Definition mock_disconnect_raises : Device :=
  {| DISCONNECTED := 1;
     on_connect := fun _ _ _ _ => Returns tt;
     on_getServiceByUUID := fun _ _ => Returns 1;
     on_getCharacteristics := fun _ _ u => Returns [mock_handle u];
     on_read := fun _ c => Returns (payload20 c);
     on_setSecurityLevel := fun _ _ => Returns tt;
     on_unpair := fun _ => Returns tt;
     on_pair := fun _ => Returns tt;
     on_disconnect := fun _ => Raises (BTLEException 2 "Helper exited" None);
     on_waitForNotifications := fun _ _ => Returns false |}.

(** ** What a run may do *)

Definition uuid_eqb (u v : UUID) : bool := String.eqb (uuid_text u) (uuid_text v).

Definition uuid_in (u : UUID) (l : list UUID) : bool := existsb (uuid_eqb u) l.

(** Service UUIDs of the sensors the arguments request. *)
Definition requested_services (args : Args) : list UUID :=
  (if temperature args then [TemperatureService.svcUUID] else [])
  ++ (if accelerator args then [AcceleratorService.svcUUID] else [])
  ++ (if buttons args then [ButtonsService.svcUUID] else []).

(** Characteristic UUIDs of the sensors the arguments request. *)
Definition requested_characteristics (args : Args) : list UUID :=
  (if temperature args then [TemperatureService.dataUUID] else [])
  ++ (if accelerator args then [AcceleratorService.dataUUID] else [])
  ++ (if buttons args
      then [ButtonsService.dataUUID_btnA; ButtonsService.dataUUID_btnB] else []).

(** The calls and lines a polling run can produce after the debug switch. *)
Definition polling_event (args : Args) (e : Event) : bool :=
  match e with
  | EConnect addr ADDR_TYPE_RANDOM None => String.eqb addr (mac_address args)
  | EGetServiceByUUID u => uuid_in u (requested_services args)
  | EGetCharacteristics _ u => uuid_in u (requested_characteristics args)
  | ESetSecurityLevel level => str_in level ["low"; "medium"]
  | ERead _ | EPrint _ | EWaitForNotifications _ | EDisconnect => true
  | _ => false
  end.

(** The calls and lines a pairing run can produce after the debug switch. *)
Definition pairing_event (args : Args) (e : Event) : bool :=
  match e with
  | EConnect addr ADDR_TYPE_RANDOM (Some i) =>
      String.eqb addr (mac_address args) && Z.eqb i (interface args)
  | EUnpair | EPair | EDisconnect | EPrint _ => true
  | _ => false
  end.

(** ** Failing reads *)

(** The exception an outcome carries, if any. *)
Definition raised {A} (o : outcome A) : option exn :=
  match o with
  | Raise e => Some e
  | _ => None
  end.

(** In the events [ext] appended after [tr], a read on which the device
    raised is the last event, and its exception is the outcome. *)
Definition read_failfast {A} (dev : Device) (tr ext : Trace) (o : outcome A) : Prop :=
  forall pre c post e,
    ext = pre ++ ERead c :: post ->
    on_read dev (tr ++ pre) c = Raises e ->
    post = [] /\ raised o = Some e.

(** [m] stops at the first read that fails. *)
Definition steady {S A} (m : M S A) : Prop :=
  forall dev s tr, exists o s' ext,
    m dev s tr = (o, s', tr ++ ext) /\ o <> OutOfFuel /\ read_failfast dev tr ext o.

Definition no_read (e : Event) : bool := negb (is_read e).

(** * Properties *)

(** ** Running the monad *)

Lemma run_bind {S A B} (m : M S A) (k : A -> M S B) dev s tr :
  bind m k dev s tr =
  match m dev s tr with
  | (Ok a, s', tr') => k a dev s' tr'
  | (Raise e, s', tr') => (Raise e, s', tr')
  | (OutOfFuel, s', tr') => (OutOfFuel, s', tr')
  end.
Proof. reflexivity. Qed.

Lemma bind_ok {S A B} (m : M S A) (k : A -> M S B) dev s tr a s' tr' :
  m dev s tr = (Ok a, s', tr') -> bind m k dev s tr = k a dev s' tr'.
Proof. intros H. rewrite run_bind, H. reflexivity. Qed.

Lemma bind_raise {S A B} (m : M S A) (k : A -> M S B) dev s tr e s' tr' :
  m dev s tr = (Raise e, s', tr') -> bind m k dev s tr = (Raise e, s', tr').
Proof. intros H. rewrite run_bind, H. reflexivity. Qed.

Lemma call_returns {S A} ev (answer : Device -> Trace -> reply A) dev (s : S) tr a :
  answer dev tr = Returns a -> call ev answer dev s tr = (Ok a, s, tr ++ [ev]).
Proof. intros H. unfold call. rewrite H. reflexivity. Qed.

Lemma call_raises {S A} ev (answer : Device -> Trace -> reply A) dev (s : S) tr e :
  answer dev tr = Raises e -> call ev answer dev s tr = (Raise e, s, tr ++ [ev]).
Proof. intros H. unfold call. rewrite H. reflexivity. Qed.

(** ** Bytes and 16-bit decoding *)

Lemma byte_range (b : byte) : 0 <= Z.of_N (Byte.to_N b) < 256.
Proof. pose proof (Byte.to_N_bounded b). lia. Qed.

Lemma byte_of_Z_to_Z (n : Z) :
  0 <= n <= 255 -> Z.of_N (Byte.to_N (byte_of_Z n)) = n.
Proof.
  intros Hn. unfold byte_of_Z.
  destruct (Byte.of_N (Z.to_N n)) as [b|] eqn:E.
  - apply Byte.to_of_N in E. rewrite E. lia.
  - apply Byte.of_N_None_iff in E. lia.
Qed.

Lemma lor_shiftl_8 (a b : Z) :
  0 <= a < 256 -> 0 <= b -> Z.lor a (Z.shiftl b 8) = a + 256 * b.
Proof.
  intros Ha Hb.
  assert (Hland : Z.land a (Z.shiftl b 8) = 0).
  { apply Z.bits_inj'. intros n Hn.
    rewrite Z.land_spec, Z.bits_0.
    destruct (Z.ltb_spec n 8) as [Hlt|Hge].
    - rewrite (Z.shiftl_spec_low b 8 n) by lia. apply andb_false_r.
    - replace (Z.testbit a n) with false; [reflexivity|].
      symmetry. destruct (Z.eq_dec a 0) as [->|Hne]; [apply Z.bits_0|].
      apply Z.bits_above_log2; [lia|].
      apply Z.lt_le_trans with 8; [|lia].
      apply Z.log2_lt_pow2; [lia|]. change (2 ^ 8) with 256. lia. }
  rewrite <- Z.lxor_lor by exact Hland.
  rewrite <- Z.add_nocarry_lxor by exact Hland.
  rewrite Z.shiftl_mul_pow2 by lia. change (2 ^ 8) with 256. lia.
Qed.

Lemma int16_le_refines (lo hi : byte) : int16_le lo hi = le_int16_spec lo hi.
Proof.
  unfold int16_le, le_int16_spec.
  pose proof (byte_range lo) as Hlo. pose proof (byte_range hi) as Hhi.
  rewrite lor_shiftl_8 by lia.
  set (u := Z.of_N (Byte.to_N lo) + 256 * Z.of_N (Byte.to_N hi)).
  assert (Hu : 0 <= u < 65536) by (unfold u; lia).
  destruct (Z.ltb_spec u 32768) as [Hlt|Hge].
  - rewrite Z.mod_small by lia. lia.
  - replace (u + 32768) with (u - 32768 + 1 * 65536) by lia.
    rewrite Z.mod_add by lia. rewrite Z.mod_small by lia. lia.
Qed.

Lemma le_int16_spec_range (lo hi : byte) : -32768 <= le_int16_spec lo hi < 32768.
Proof.
  unfold le_int16_spec.
  pose proof (Z.mod_pos_bound (Z.of_N (Byte.to_N lo) + 256 * Z.of_N (Byte.to_N hi) + 32768) 65536).
  lia.
Qed.

(** ** Sensor reads *)

(** C1.  Accelerometer: on an enabled wrapper, [read()] issues exactly one
    characteristic read (the trace grows by that one call and the wrapper is
    unchanged); a 6-byte payload is decoded as three little-endian signed
    16-bit integers, each in the signed 16-bit range; a payload of any other
    length makes the read fail with [struct.error], the program's
    malformed-payload failure; and 01 00 FE FF 00 80 decodes to
    (1, -2, -32768). *)
Theorem accelerator_read_decodes :
  forall (dev : Device) (self : AcceleratorService.t) (tr : Trace) (c : ChrRef) (payload : bytes),
    AcceleratorService.data self = Some c ->
    on_read dev tr c = Returns payload ->
    (forall x0 x1 y0 y1 z0 z1,
        payload = [x0; x1; y0; y1; z0; z1] ->
        AcceleratorService.read dev self tr =
          (Ok (le_int16_spec x0 x1, le_int16_spec y0 y1, le_int16_spec z0 z1),
           self, tr ++ [ERead c])
        /\ -32768 <= le_int16_spec x0 x1 < 32768
        /\ -32768 <= le_int16_spec y0 y1 < 32768
        /\ -32768 <= le_int16_spec z0 z1 < 32768)
    /\ (List.length payload <> 6%nat ->
        AcceleratorService.read dev self tr = (Raise StructError, self, tr ++ [ERead c]))
    /\ (payload = [x01; x00; xfe; xff; x00; x80] ->
        AcceleratorService.read dev self tr = (Ok (1, -2, -32768), self, tr ++ [ERead c])).
Proof.
  intros dev self tr c payload Hdata Hread.
  assert (Hrun : AcceleratorService.read dev self tr =
                 (xyz <- unpack_hhh payload ;; ret xyz) dev self (tr ++ [ERead c])).
  { unfold AcceleratorService.read. rewrite run_bind. cbn [get].
    rewrite Hdata. cbn [deref]. rewrite run_bind. cbn [ret].
    rewrite run_bind. unfold Characteristic_read.
    rewrite (call_returns _ _ _ _ _ payload) by exact Hread.
    reflexivity. }
  rewrite Hrun. clear Hrun.
  split; [|split].
  - intros x0 x1 y0 y1 z0 z1 ->. cbn.
    rewrite !int16_le_refines.
    repeat split; try apply le_int16_spec_range.
  - intros Hlen.
    destruct payload as [|x0 [|x1 [|y0 [|y1 [|z0 [|z1 [|w r]]]]]]]; try reflexivity.
    exfalso. apply Hlen. reflexivity.
  - intros ->. reflexivity.
Qed.

Lemma accelerator_read_decodes_witness :
  AcceleratorService.read mock20 (AcceleratorService.set_data 20 AcceleratorService.init) [] =
    (Ok (1, -2, -32768), AcceleratorService.set_data 20 AcceleratorService.init, [ERead 20]).
Proof.
  apply (accelerator_read_decodes mock20 (AcceleratorService.set_data 20 AcceleratorService.init)
           [] 20 [x01; x00; xfe; xff; x00; x80]); reflexivity.
Defined.

(** C2.  Temperature: on an enabled wrapper, [read()] issues exactly one
    characteristic read and returns the single payload byte as an unsigned
    8-bit integer: the reading is the byte's value, between 0 and 255; for
    every [n] in 0..255 the byte holding [n] reads as [n]; 0x17 reads as 23,
    0x00 as 0 and 0xFF as 255. *)
Theorem temperature_read_unsigned_byte :
  forall (dev : Device) (self : TemperatureService.t) (tr : Trace) (c : ChrRef) (b : byte),
    TemperatureService.data self = Some c ->
    on_read dev tr c = Returns [b] ->
    TemperatureService.read dev self tr = (Ok (Z.of_N (Byte.to_N b)), self, tr ++ [ERead c])
    /\ 0 <= Z.of_N (Byte.to_N b) <= 255
    /\ (forall n, 0 <= n <= 255 -> b = byte_of_Z n ->
        TemperatureService.read dev self tr = (Ok n, self, tr ++ [ERead c]))
    /\ (b = x17 -> TemperatureService.read dev self tr = (Ok 23, self, tr ++ [ERead c]))
    /\ (b = x00 -> TemperatureService.read dev self tr = (Ok 0, self, tr ++ [ERead c]))
    /\ (b = xff -> TemperatureService.read dev self tr = (Ok 255, self, tr ++ [ERead c])).
Proof.
  intros dev self tr c b Hdata Hread.
  assert (Hrun : TemperatureService.read dev self tr =
                 (Ok (Z.of_N (Byte.to_N b)), self, tr ++ [ERead c])).
  { unfold TemperatureService.read. rewrite run_bind. cbn [get].
    rewrite Hdata. cbn [deref]. rewrite run_bind. cbn [ret].
    rewrite run_bind. unfold Characteristic_read.
    rewrite (call_returns _ _ _ _ _ [b]) by exact Hread.
    reflexivity. }
  rewrite Hrun.
  split; [reflexivity|].
  split; [pose proof (byte_range b); lia|].
  split; [|repeat split; intros ->; reflexivity].
  intros n Hn ->. rewrite byte_of_Z_to_Z by exact Hn. reflexivity.
Qed.

Lemma temperature_read_unsigned_byte_witness :
  TemperatureService.read mock20 (TemperatureService.set_data 10 TemperatureService.init) [] =
    (Ok 20, TemperatureService.set_data 10 TemperatureService.init, [ERead 10]).
Proof.
  exact (proj1 (temperature_read_unsigned_byte mock20
                  (TemperatureService.set_data 10 TemperatureService.init) [] 10 x14
                  eq_refl eq_refl)).
Defined.

(** ** Enabling a wrapper *)

Ltac run_cases :=
  repeat (cbn in *;
          match goal with
          | H : (_, _, _) = (_, _, _) |- _ => inversion H; subst; clear H
          | H : context [match ?x with _ => _ end] |- _ =>
              destruct x eqn:?; try discriminate
          | |- context [match ?x with _ => _ end] =>
              destruct x eqn:?; try discriminate
          end).

Ltac unfold_enable :=
  unfold TemperatureService.enable, AcceleratorService.enable, ButtonsService.enable,
    bind, when, get, modify, getServiceByUUID, getCharacteristics, call,
    deref, index0, ret, raise, is_None in *.

Lemma temperature_enable_ok dev self tr self' tr' :
  TemperatureService.enable dev self tr = (Ok tt, self', tr') ->
  TemperatureService.service self' <> None /\ TemperatureService.data self' <> None.
Proof.
  destruct self as [sv d]. unfold_enable. intros H.
  destruct sv, d; run_cases; split; discriminate.
Qed.

Lemma temperature_enable_resolved dev self tr :
  TemperatureService.service self <> None -> TemperatureService.data self <> None ->
  TemperatureService.enable dev self tr = (Ok tt, self, tr).
Proof.
  destruct self as [[sv|] [d|]]; cbn; intros Hs Hd; try congruence. reflexivity.
Qed.

Lemma accelerator_enable_ok dev self tr self' tr' :
  AcceleratorService.enable dev self tr = (Ok tt, self', tr') ->
  AcceleratorService.service self' <> None /\ AcceleratorService.data self' <> None.
Proof.
  destruct self as [sv d]. unfold_enable. intros H.
  destruct sv, d; run_cases; split; discriminate.
Qed.

Lemma accelerator_enable_resolved dev self tr :
  AcceleratorService.service self <> None -> AcceleratorService.data self <> None ->
  AcceleratorService.enable dev self tr = (Ok tt, self, tr).
Proof.
  destruct self as [[sv|] [d|]]; cbn; intros Hs Hd; try congruence. reflexivity.
Qed.

Lemma buttons_enable_ok dev self tr self' tr' :
  ButtonsService.enable dev self tr = (Ok tt, self', tr') ->
  ButtonsService.service self' <> None /\ ButtonsService.dataA self' <> None
  /\ ButtonsService.dataB self' <> None.
Proof.
  destruct self as [sv a b]. unfold_enable. intros H.
  destruct sv, a, b; run_cases; repeat split; discriminate.
Qed.

Lemma buttons_enable_resolved dev self tr :
  ButtonsService.service self <> None -> ButtonsService.dataA self <> None ->
  ButtonsService.dataB self <> None ->
  ButtonsService.enable dev self tr = (Ok tt, self, tr).
Proof.
  destruct self as [[sv|] [a|] [b|]]; cbn; intros Hs Ha Hb; try congruence. reflexivity.
Qed.

(** C3.  [enable()] is idempotent for each of the three wrappers and whatever
    the device answers: after a first call that returned, a second call (at
    any later point, against any device state) returns, leaves every
    resolved reference as it was and issues no call at all, so the number of
    service and characteristic lookups is unchanged. *)
Theorem enable_idempotent :
  forall (k : Sensor) (dev : Device) (self self' : wrapper k) (tr tr' : Trace),
    wrapper_enable k dev self tr = (Ok tt, self', tr') ->
    forall (dev2 : Device) (tr2 : Trace),
      wrapper_enable k dev2 self' tr2 = (Ok tt, self', tr2)
      /\ count_ev is_lookup (snd (wrapper_enable k dev2 self' tr2)) = count_ev is_lookup tr2.
Proof.
  intros k dev self self' tr tr' H dev2 tr2.
  assert (E : wrapper_enable k dev2 self' tr2 = (Ok tt, self', tr2)).
  { destruct k; cbn in *.
    - apply temperature_enable_ok in H. destruct H.
      now apply temperature_enable_resolved.
    - apply accelerator_enable_ok in H. destruct H.
      now apply accelerator_enable_resolved.
    - apply buttons_enable_ok in H. destruct H as (? & ? & ?).
      now apply buttons_enable_resolved. }
  rewrite E. split; reflexivity.
Qed.

Lemma enable_idempotent_witness :
  wrapper_enable Buttons mock20 ButtonsService.init [] =
    (Ok tt, {| ButtonsService.service := Some 1; ButtonsService.dataA := Some 30;
               ButtonsService.dataB := Some 31 |},
     [EGetServiceByUUID ButtonsService.svcUUID;
      EGetCharacteristics 1 ButtonsService.dataUUID_btnA;
      EGetCharacteristics 1 ButtonsService.dataUUID_btnB])
  /\ wrapper_enable Buttons mock20
       {| ButtonsService.service := Some 1; ButtonsService.dataA := Some 30;
          ButtonsService.dataB := Some 31 |}
       [EGetServiceByUUID ButtonsService.svcUUID;
        EGetCharacteristics 1 ButtonsService.dataUUID_btnA;
        EGetCharacteristics 1 ButtonsService.dataUUID_btnB] =
     (Ok tt, {| ButtonsService.service := Some 1; ButtonsService.dataA := Some 30;
                ButtonsService.dataB := Some 31 |},
      [EGetServiceByUUID ButtonsService.svcUUID;
       EGetCharacteristics 1 ButtonsService.dataUUID_btnA;
       EGetCharacteristics 1 ButtonsService.dataUUID_btnB]).
Proof.
  split; [reflexivity|].
  refine (proj1 (enable_idempotent Buttons mock20 ButtonsService.init _ [] _ _ mock20 _)).
  reflexivity.
Defined.

(** ** Reading before the wrapper is enabled *)

Lemma temperature_enable_raise dev self tr e self' tr' :
  TemperatureService.data self = None ->
  TemperatureService.enable dev self tr = (Raise e, self', tr') ->
  TemperatureService.data self' = None.
Proof.
  destruct self as [sv d]. cbn. intros ->. unfold_enable. intros H.
  destruct sv; run_cases; reflexivity.
Qed.

Lemma accelerator_enable_raise dev self tr e self' tr' :
  AcceleratorService.data self = None ->
  AcceleratorService.enable dev self tr = (Raise e, self', tr') ->
  AcceleratorService.data self' = None.
Proof.
  destruct self as [sv d]. cbn. intros ->. unfold_enable. intros H.
  destruct sv; run_cases; reflexivity.
Qed.

Lemma buttons_enable_raise dev self tr e self' tr' :
  ButtonsService.dataB self = None ->
  ButtonsService.enable dev self tr = (Raise e, self', tr') ->
  ButtonsService.dataB self' = None.
Proof.
  destruct self as [sv a b]. cbn. intros ->. unfold_enable. intros H.
  destruct sv, a; run_cases; reflexivity.
Qed.

Lemma unenabled_temperature self :
  unenabled Temperature self -> TemperatureService.data self = None.
Proof.
  induction 1 as [|dev self tr e self' tr' _ IH H]; [reflexivity|].
  exact (temperature_enable_raise _ _ _ _ _ _ IH H).
Qed.

Lemma unenabled_accelerator self :
  unenabled Accelerometer self -> AcceleratorService.data self = None.
Proof.
  induction 1 as [|dev self tr e self' tr' _ IH H]; [reflexivity|].
  exact (accelerator_enable_raise _ _ _ _ _ _ IH H).
Qed.

Lemma unenabled_buttons self :
  unenabled Buttons self -> ButtonsService.dataB self = None.
Proof.
  induction 1 as [|dev self tr e self' tr' _ IH H]; [reflexivity|].
  exact (buttons_enable_raise _ _ _ _ _ _ IH H).
Qed.

Lemma read_btnA_unset dev self tr :
  ButtonsService.dataA self = None ->
  ButtonsService.read_btnA dev self tr = (Raise AttributeError, self, tr).
Proof.
  intros H. unfold ButtonsService.read_btnA. rewrite run_bind. cbn [get].
  rewrite H. reflexivity.
Qed.

Lemma read_btnB_unset dev self tr :
  ButtonsService.dataB self = None ->
  ButtonsService.read_btnB dev self tr = (Raise AttributeError, self, tr).
Proof.
  intros H. unfold ButtonsService.read_btnB. rewrite run_bind. cbn [get].
  rewrite H. reflexivity.
Qed.

Lemma read_btnA_keeps_self dev self tr o self' tr' :
  ButtonsService.read_btnA dev self tr = (o, self', tr') ->
  self' = self /\ o <> OutOfFuel.
Proof.
  unfold ButtonsService.read_btnA, bind, get, deref, Characteristic_read, call, ord, ret, raise.
  intros H. run_cases; split; (reflexivity || discriminate).
Qed.

(** C5, as the code has it.  A read through a characteristic reference that
    is not set raises [AttributeError] (the missing-reference failure, the
    spec's NotEnabledError): the wrapper is unchanged, the device is not
    asked and no reading is returned.  On a wrapper on which no [enable()]
    has succeeded (fresh, or after any number of failed [enable()] calls)
    this holds for [TemperatureService.read], [AcceleratorService.read] and
    [ButtonsService.read_btnB]; [ButtonsService.read] never returns a
    reading there; [read_btnA] (and [read] with it) raises [AttributeError]
    as long as the button A reference is unset, which is the case on every
    fresh wrapper. *)
Theorem read_through_unset_reference_fails :
  (forall self, unenabled Temperature self -> forall dev tr,
      TemperatureService.read dev self tr = (Raise AttributeError, self, tr))
  /\ (forall self, unenabled Accelerometer self -> forall dev tr,
      AcceleratorService.read dev self tr = (Raise AttributeError, self, tr))
  /\ (forall self, unenabled Buttons self -> forall dev tr,
      ButtonsService.read_btnB dev self tr = (Raise AttributeError, self, tr)
      /\ (exists e tr', ButtonsService.read dev self tr = (Raise e, self, tr'))
      /\ (ButtonsService.dataA self = None ->
          ButtonsService.read_btnA dev self tr = (Raise AttributeError, self, tr)
          /\ ButtonsService.read dev self tr = (Raise AttributeError, self, tr)))
  /\ (forall dev tr,
      ButtonsService.read_btnA dev ButtonsService.init tr =
        (Raise AttributeError, ButtonsService.init, tr)).
Proof.
  split; [|split; [|split]].
  - intros self H dev tr. apply unenabled_temperature in H.
    unfold TemperatureService.read. rewrite run_bind. cbn [get].
    change (wrapper Temperature) with TemperatureService.t in self.
    rewrite H. reflexivity.
  - intros self H dev tr. apply unenabled_accelerator in H.
    unfold AcceleratorService.read. rewrite run_bind. cbn [get].
    change (wrapper Accelerometer) with AcceleratorService.t in self.
    rewrite H. reflexivity.
  - intros self H dev tr. apply unenabled_buttons in H.
    change (wrapper Buttons) with ButtonsService.t in self.
    split; [exact (read_btnB_unset dev self tr H)|]. split.
    + unfold ButtonsService.read. rewrite run_bind.
      destruct (ButtonsService.read_btnA dev self tr) as [[o s1] tr1] eqn:EA.
      destruct (read_btnA_keeps_self _ _ _ _ _ _ EA) as [-> Hfuel].
      destruct o as [a|e|]; [|eauto|congruence].
      rewrite run_bind, (read_btnB_unset dev self tr1 H). eauto.
    + intros HA. split; [exact (read_btnA_unset dev self tr HA)|].
      unfold ButtonsService.read. rewrite run_bind.
      rewrite (read_btnA_unset dev self tr HA). reflexivity.
  - intros dev tr. apply read_btnA_unset. reflexivity.
Qed.

Lemma read_through_unset_reference_fails_witness :
  unenabled Buttons half_enabled_buttons
  /\ ButtonsService.read_btnB mock20 half_enabled_buttons [] =
       (Raise AttributeError, half_enabled_buttons, []).
Proof.
  assert (H : unenabled Buttons half_enabled_buttons).
  { apply (unenabled_failed Buttons mock_no_btnB ButtonsService.init [] IndexError
             half_enabled_buttons
             [EGetServiceByUUID ButtonsService.svcUUID;
              EGetCharacteristics 1 ButtonsService.dataUUID_btnA;
              EGetCharacteristics 1 ButtonsService.dataUUID_btnB]).
    - apply unenabled_init.
    - reflexivity. }
  split; [exact H|].
  exact (proj1 (proj1 (proj2 (proj2 read_through_unset_reference_fails))
                  half_enabled_buttons H mock20 [])).
Defined.

(** C5 as stated fails: on a device without the button B characteristic,
    [enable()] raises [IndexError] after it has resolved button A, and
    [read_btnA()] on the wrapper it leaves returns a reading. *)
Lemma read_btnA_after_failed_enable :
  ButtonsService.enable mock_no_btnB ButtonsService.init [] =
    (Raise IndexError, half_enabled_buttons,
     [EGetServiceByUUID ButtonsService.svcUUID;
      EGetCharacteristics 1 ButtonsService.dataUUID_btnA;
      EGetCharacteristics 1 ButtonsService.dataUUID_btnB])
  /\ unenabled Buttons half_enabled_buttons
  /\ ButtonsService.read_btnA mock_no_btnB half_enabled_buttons
       [EGetServiceByUUID ButtonsService.svcUUID;
        EGetCharacteristics 1 ButtonsService.dataUUID_btnA;
        EGetCharacteristics 1 ButtonsService.dataUUID_btnB] =
     (Ok 1, half_enabled_buttons,
      [EGetServiceByUUID ButtonsService.svcUUID;
       EGetCharacteristics 1 ButtonsService.dataUUID_btnA;
       EGetCharacteristics 1 ButtonsService.dataUUID_btnB;
       ERead 30]).
Proof.
  split; [reflexivity|]. split; [|reflexivity].
  apply (unenabled_failed Buttons mock_no_btnB ButtonsService.init [] IndexError
           half_enabled_buttons
           [EGetServiceByUUID ButtonsService.svcUUID;
            EGetCharacteristics 1 ButtonsService.dataUUID_btnA;
            EGetCharacteristics 1 ButtonsService.dataUUID_btnB]).
  - apply unenabled_init.
  - reflexivity.
Qed.

(** ** What a computation can append to the trace *)

Lemma emits_weaken {S A} (Q Q' : Event -> bool) (m : M S A) :
  (forall e, Q e = true -> Q' e = true) -> emits Q m -> emits Q' m.
Proof.
  intros HQ Hm dev s tr. destruct (Hm dev s tr) as (o & s' & ext & E & HF & Ho).
  exists o, s', ext. repeat split; try assumption.
  rewrite forallb_forall in *. auto.
Qed.

Lemma emits_ret {S A} Q (a : A) : emits Q (@ret S A a).
Proof. intros dev s tr. exists (Ok a), s, []. rewrite app_nil_r. repeat split. discriminate. Qed.

Lemma emits_raise {S A} Q e : emits Q (@raise S A e).
Proof. intros dev s tr. exists (Raise e), s, []. rewrite app_nil_r. repeat split. discriminate. Qed.

Lemma emits_get {S} Q : emits Q (@get S).
Proof. intros dev s tr. exists (Ok s), s, []. rewrite app_nil_r. repeat split. discriminate. Qed.

Lemma emits_modify {S} Q (f : S -> S) : emits Q (modify f).
Proof. intros dev s tr. exists (Ok tt), (f s), []. rewrite app_nil_r. repeat split. discriminate. Qed.

Lemma emits_bind {S A B} Q (m : M S A) (k : A -> M S B) :
  emits Q m -> (forall a, emits Q (k a)) -> emits Q (bind m k).
Proof.
  intros Hm Hk dev s tr. rewrite run_bind.
  destruct (Hm dev s tr) as (o & s' & ext & E & HF & Ho). rewrite E.
  destruct o as [a|e|]; [|exists (Raise e), s', ext; repeat split; auto; discriminate|congruence].
  destruct (Hk a dev s' (tr ++ ext)) as (o2 & s2 & ext2 & E2 & HF2 & Ho2).
  exists o2, s2, (ext ++ ext2). rewrite E2, app_assoc, forallb_app, HF, HF2. auto.
Qed.

Lemma emits_when {S} Q (c : bool) (body : M S unit) :
  emits Q body -> emits Q (when c body).
Proof. intros H. destruct c; [exact H|apply emits_ret]. Qed.

Lemma emits_if {S A} Q (c : bool) (m1 m2 : M S A) :
  emits Q m1 -> emits Q m2 -> emits Q (if c then m1 else m2).
Proof. destruct c; auto. Qed.

Lemma emits_zoom {S T A} Q (proj : S -> T) upd (m : M T A) :
  emits Q m -> emits Q (zoom proj upd m).
Proof.
  intros Hm dev s tr. unfold zoom.
  destruct (Hm dev (proj s) tr) as (o & t' & ext & E & HF & Ho). rewrite E.
  exists o, (upd s t'), ext. auto.
Qed.

Lemma emits_call {S A} Q ev (answer : Device -> Trace -> reply A) :
  Q ev = true -> emits Q (@call S A ev answer).
Proof.
  intros HQ dev s tr. unfold call.
  destruct (answer dev tr) as [a|e];
    [exists (Ok a), s, [ev]|exists (Raise e), s, [ev]];
    cbn; rewrite HQ; repeat split; discriminate.
Qed.

Lemma emits_print {S} Q line : Q (EPrint line) = true -> emits Q (@print S line).
Proof.
  intros HQ dev s tr. exists (Ok tt), s, [EPrint line].
  cbn. rewrite HQ. repeat split. discriminate.
Qed.

Lemma emits_deref {S A} Q (r : option A) : emits Q (@deref S A r).
Proof. destruct r; [apply emits_ret|apply emits_raise]. Qed.

Lemma emits_index0 {S A} Q (l : list A) : emits Q (@index0 S A l).
Proof. destruct l; [apply emits_raise|apply emits_ret]. Qed.

Lemma emits_ord {S} Q (p : bytes) : emits Q (@ord S p).
Proof. destruct p as [|b [|c r]]; first [apply emits_ret|apply emits_raise]. Qed.

Lemma emits_unpack_hhh {S} Q (p : bytes) : emits Q (@unpack_hhh S p).
Proof.
  destruct p as [|x0 [|x1 [|y0 [|y1 [|z0 [|z1 [|w r]]]]]]];
    first [apply emits_ret|apply emits_raise].
Qed.

Ltac emits_steps :=
  repeat first
    [ apply emits_ret | apply emits_raise | apply emits_get | apply emits_modify
    | apply emits_deref | apply emits_index0 | apply emits_ord | apply emits_unpack_hhh
    | apply emits_when | apply emits_zoom
    | apply emits_call; reflexivity
    | apply emits_print; reflexivity
    | apply emits_bind; [|intros ?] ].

Lemma temperature_enable_emits : emits is_lookup TemperatureService.enable.
Proof.
  unfold TemperatureService.enable, getServiceByUUID, getCharacteristics. emits_steps.
Qed.

Lemma accelerator_enable_emits : emits is_lookup AcceleratorService.enable.
Proof.
  unfold AcceleratorService.enable, getServiceByUUID, getCharacteristics. emits_steps.
Qed.

Lemma buttons_enable_emits : emits is_lookup ButtonsService.enable.
Proof.
  unfold ButtonsService.enable, getServiceByUUID, getCharacteristics. emits_steps.
Qed.

Lemma poll_round_emits args : emits is_poll_event (poll_round args).
Proof.
  unfold poll_round, Microbit.on_temperature, Microbit.on_accelerator, Microbit.on_buttons,
    TemperatureService.read, AcceleratorService.read, ButtonsService.read,
    ButtonsService.read_btnA, ButtonsService.read_btnB, Characteristic_read.
  emits_steps.
  all: repeat match goal with p : (_ * _)%type |- _ => destruct p end.
  all: emits_steps.
Qed.

Lemma poll_loop_emits args fuel :
  forall counter, (Z.to_nat (count args - counter) < fuel)%nat ->
    emits is_poll_event (poll_loop fuel args counter).
Proof.
  induction fuel as [|fuel IH]; intros counter Hfuel; [lia|].
  cbn [poll_loop]. apply emits_bind; [apply poll_round_emits|intros _].
  rewrite Z.geb_leb. destruct (Z.leb_spec (count args) counter) as [Hle|Hlt].
  - apply emits_ret.
  - apply emits_bind; [apply emits_call; reflexivity|intros _].
    apply IH. lia.
Qed.

Lemma try_body_emits fuel args :
  enough_fuel fuel args -> emits is_try_event (try_body fuel args).
Proof.
  intros Hfuel. unfold try_body, Microbit.on_temperature, Microbit.on_accelerator,
    Microbit.on_buttons.
  apply emits_bind; [apply emits_print; reflexivity|intros _].
  apply emits_bind; [|intros _].
  { apply emits_when, emits_zoom.
    apply (emits_weaken is_lookup); [|apply temperature_enable_emits].
    intros e He. unfold is_try_event. rewrite He. reflexivity. }
  apply emits_bind; [|intros _].
  { apply emits_when, emits_zoom.
    apply (emits_weaken is_lookup); [|apply accelerator_enable_emits].
    intros e He. unfold is_try_event. rewrite He. reflexivity. }
  apply emits_bind; [|intros _].
  { apply emits_when, emits_zoom.
    apply (emits_weaken is_lookup); [|apply buttons_enable_emits].
    intros e He. unfold is_try_event. rewrite He. reflexivity. }
  apply (emits_weaken is_poll_event).
  - intros e He. unfold is_try_event. rewrite He. apply orb_true_r.
  - apply poll_loop_emits. unfold enough_fuel in Hfuel. lia.
Qed.

(** The [try ... finally] of the polling flow: whatever the guarded block
    does, [disconnect] is called exactly once, as the last call. *)
Lemma guarded_block_disconnects_once fuel args dev s tr :
  enough_fuel fuel args ->
  exists o s' ext,
    try_finally (try_body fuel args) disconnect dev s tr = (o, s', tr ++ ext ++ [EDisconnect])
    /\ forallb is_try_event ext = true
    /\ o <> OutOfFuel.
Proof.
  intros Hfuel.
  destruct (try_body_emits fuel args Hfuel dev s tr) as (o & s' & ext & E & HF & Ho).
  unfold try_finally. rewrite E. unfold disconnect, call.
  rewrite <- app_assoc.
  destruct o as [[]|e|]; [| |congruence];
    destruct (on_disconnect dev (tr ++ ext)) as [[]|e'];
    eexists _, s', ext; (split; [reflexivity|split; [exact HF|discriminate]]).
Qed.

Lemma count_ev_app p (tr1 tr2 : Trace) :
  count_ev p (tr1 ++ tr2) = (count_ev p tr1 + count_ev p tr2)%nat.
Proof. unfold count_ev. rewrite filter_app, length_app. reflexivity. Qed.

Lemma count_ev_none p q (tr : Trace) :
  (forall e, q e = true -> p e = false) -> forallb q tr = true -> count_ev p tr = 0%nat.
Proof.
  intros Hpq. induction tr as [|e tr IH]; [reflexivity|].
  cbn. intros H. apply andb_prop in H. destruct H as [He Htr].
  unfold count_ev in *. cbn. rewrite (Hpq e He). auto.
Qed.

(** ** The driver up to the established connection *)

Lemma when_false {S} (m : M S unit) : when false m = ret tt.
Proof. reflexivity. Qed.

Lemma main_rejects_conflict fuel args dev :
  pair_flag args = true -> services_requested args = true ->
  run_main fuel args dev = (Raise (SystemExit (ExitMsg msg_pair_conflict)), []).
Proof.
  intros Hp Hs. unfold run_main, main. rewrite Hp, Hs. reflexivity.
Qed.

Lemma main_rejects_no_action fuel args dev :
  pair_flag args = false -> services_requested args = false ->
  run_main fuel args dev = (Raise (SystemExit (ExitMsg msg_no_action)), []).
Proof.
  intros Hp Hs. unfold run_main, main. rewrite Hp, Hs. reflexivity.
Qed.

Lemma main_enters_flow fuel args dev :
  pair_flag args && services_requested args = false ->
  negb (pair_flag args) && negb (services_requested args) = false ->
  main fuel args dev tt [] =
    (if pair_flag args then pair_flow args else poll_flow fuel args)
      dev tt (debug_prefix args).
Proof.
  intros H1 H2. unfold main. rewrite H1, H2, !when_false.
  rewrite (bind_ok _ _ _ _ _ tt tt []) by reflexivity.
  rewrite (bind_ok _ _ _ _ _ tt tt []) by reflexivity.
  rewrite (bind_ok _ _ _ _ _ tt tt (debug_prefix args))
    by (unfold debug_prefix; destruct (debug args); reflexivity).
  reflexivity.
Qed.

Lemma main_polling fuel args dev :
  polling args -> connects dev args ->
  run_main fuel args dev =
    match (print "Setting security" ;;; set_security args ;;;
           try_finally (try_body fuel args) disconnect)
            dev Microbit.init (connected_prefix args) with
    | (o, _, tr) => (o, tr)
    end.
Proof.
  intros [Hp Hs] Hc. unfold run_main, connects, connected_prefix in *.
  rewrite main_enters_flow by (rewrite Hp, Hs; reflexivity).
  rewrite Hp. unfold poll_flow.
  rewrite (bind_ok _ _ _ _ _ tt tt
             (debug_prefix args ++ [EPrint ("Connecting to " ++ mac_address args)%string]))
    by reflexivity.
  unfold Peripheral_init.
  rewrite (bind_ok _ _ _ _ _ tt tt
             ((debug_prefix args ++ [EPrint ("Connecting to " ++ mac_address args)%string])
              ++ [EConnect (mac_address args) ADDR_TYPE_RANDOM None]))
    by (apply call_returns; exact Hc).
  unfold with_object. rewrite <- app_assoc.
  change ([EPrint ("Connecting to " ++ mac_address args)%string]
          ++ [EConnect (mac_address args) ADDR_TYPE_RANDOM None])
    with [EPrint ("Connecting to " ++ mac_address args)%string;
          EConnect (mac_address args) ADDR_TYPE_RANDOM None].
  match goal with |- context [bind ?m ?k dev ?s ?tr] =>
    destruct (bind m k dev s tr) as [[o s'] tr'] end.
  reflexivity.
Qed.

Lemma main_polling_unreachable fuel args dev e :
  polling args ->
  on_connect dev
    (debug_prefix args ++ [EPrint ("Connecting to " ++ mac_address args)%string])
    (mac_address args) ADDR_TYPE_RANDOM None = Raises e ->
  run_main fuel args dev = (Raise e, connected_prefix args).
Proof.
  intros [Hp Hs] Hc. unfold run_main, connected_prefix in *.
  rewrite main_enters_flow by (rewrite Hp, Hs; reflexivity).
  rewrite Hp. unfold poll_flow.
  rewrite (bind_ok _ _ _ _ _ tt tt
             (debug_prefix args ++ [EPrint ("Connecting to " ++ mac_address args)%string]))
    by reflexivity.
  unfold Peripheral_init.
  rewrite (bind_raise _ _ _ _ _ e tt
             ((debug_prefix args ++ [EPrint ("Connecting to " ++ mac_address args)%string])
              ++ [EConnect (mac_address args) ADDR_TYPE_RANDOM None]))
    by (apply call_raises; exact Hc).
  rewrite <- app_assoc. reflexivity.
Qed.

(** ** Argument and security validation *)

(** C6.  Whatever the other arguments and the device: [--pair] together
    with a sensor flag exits with status 1 and the conflict message, and no
    [--pair] with no sensor flag exits with status 1 and the no-action
    message; in both cases the trace is empty, so nothing was attempted,
    in particular no connection. *)
Theorem argument_validation_before_connect :
  forall (fuel : nat) (args : Args) (dev : Device),
    (pair_flag args = true ->
     temperature args = true \/ accelerator args = true \/ buttons args = true ->
     run_main fuel args dev = (Raise (SystemExit (ExitMsg msg_pair_conflict)), [])
     /\ exit_status (fst (run_main fuel args dev)) = Some 1
     /\ exit_message (fst (run_main fuel args dev)) = Some msg_pair_conflict
     /\ count_ev is_connect (snd (run_main fuel args dev)) = 0%nat)
    /\ (pair_flag args = false ->
        temperature args = false -> accelerator args = false -> buttons args = false ->
        run_main fuel args dev = (Raise (SystemExit (ExitMsg msg_no_action)), [])
        /\ exit_status (fst (run_main fuel args dev)) = Some 1
        /\ exit_message (fst (run_main fuel args dev)) = Some msg_no_action
        /\ count_ev is_connect (snd (run_main fuel args dev)) = 0%nat).
Proof.
  intros fuel args dev. split.
  - intros Hp Hs.
    assert (Hsr : services_requested args = true).
    { unfold services_requested. destruct Hs as [->|[->| ->]];
        rewrite ?orb_true_r; reflexivity. }
    rewrite (main_rejects_conflict fuel args dev Hp Hsr). repeat split.
  - intros Hp Ht Ha Hb.
    assert (Hsr : services_requested args = false).
    { unfold services_requested. rewrite Ht, Ha, Hb. reflexivity. }
    rewrite (main_rejects_no_action fuel args dev Hp Hsr). repeat split.
Qed.

Lemma argument_validation_before_connect_witness :
  run_main 1 (with_pair (with_sensors false false true (default_args mac0))) mock20 =
    (Raise (SystemExit (ExitMsg msg_pair_conflict)), [])
  /\ run_main 1 (default_args mac0) mock20 =
    (Raise (SystemExit (ExitMsg msg_no_action)), []).
Proof.
  split.
  - refine (proj1 (proj1 (argument_validation_before_connect 1
             (with_pair (with_sensors false false true (default_args mac0))) mock20) _ _)).
    + reflexivity.
    + right. right. reflexivity.
  - refine (proj1 (proj2 (argument_validation_before_connect 1 (default_args mac0) mock20)
                     _ _ _ _)); reflexivity.
Defined.

Lemma connected_prefix_counts args :
  count_ev is_lookup (connected_prefix args) = 0%nat
  /\ count_ev is_setSecurity (connected_prefix args) = 0%nat
  /\ count_ev is_disconnect (connected_prefix args) = 0%nat
  /\ count_ev is_connect (connected_prefix args) = 1%nat.
Proof.
  unfold connected_prefix, debug_prefix. destruct (debug args); repeat split.
Qed.

Lemma set_security_low args dev s tr :
  str_in (security args) ["low"; "no-pairing"] = true ->
  set_security args dev s tr = setSecurityLevel "low" dev s tr.
Proof. intros H. unfold set_security. rewrite H. reflexivity. Qed.

Lemma set_security_medium args dev s tr :
  str_in (security args) ["low"; "no-pairing"] = false ->
  str_in (security args) ["just-works"; "medium"] = true ->
  set_security args dev s tr = setSecurityLevel "medium" dev s tr.
Proof. intros H1 H2. unfold set_security. rewrite H1, H2. reflexivity. Qed.

Lemma set_security_rejects args dev s tr :
  str_in (security args) ["low"; "no-pairing"] = false ->
  str_in (security args) ["just-works"; "medium"] = false ->
  set_security args dev s tr = (Raise (SystemExit (ExitMsg msg_passkey)), s, tr).
Proof. intros H1 H2. unfold set_security. rewrite H1, H2. reflexivity. Qed.

(** A polling run whose connection succeeded, with a supported security
    tier: the level is applied once, right after the connection; if that
    call returns, the guarded block runs and [disconnect] is the last call,
    issued exactly once. *)
Lemma polling_applies_level fuel args dev level :
  polling args -> connects dev args -> enough_fuel fuel args ->
  (forall s tr, set_security args dev s tr = setSecurityLevel level dev s tr) ->
  exists o ext,
    run_main fuel args dev =
      (o, connected_prefix args
          ++ [EPrint "Setting security"; ESetSecurityLevel level] ++ ext)
    /\ count_ev is_setSecurity ext = 0%nat
    /\ (forall r,
          on_setSecurityLevel dev (connected_prefix args ++ [EPrint "Setting security"]) level
            = Returns r ->
          exists body, ext = body ++ [EDisconnect]
                       /\ forallb is_try_event body = true
                       /\ o <> OutOfFuel).
Proof.
  intros Hpoll Hconn Hfuel Hsec.
  rewrite (main_polling fuel args dev Hpoll Hconn).
  rewrite (bind_ok _ _ _ _ _ tt Microbit.init
             (connected_prefix args ++ [EPrint "Setting security"])) by reflexivity.
  rewrite run_bind, Hsec. unfold setSecurityLevel, call.
  destruct (on_setSecurityLevel dev (connected_prefix args ++ [EPrint "Setting security"]) level)
    as [[]|e] eqn:E.
  - destruct (guarded_block_disconnects_once fuel args dev Microbit.init
                ((connected_prefix args ++ [EPrint "Setting security"])
                 ++ [ESetSecurityLevel level]) Hfuel)
      as (o & s' & body & Erun & HF & Ho).
    rewrite Erun. exists o, (body ++ [EDisconnect]).
    split; [rewrite <- !app_assoc; reflexivity|]. split.
    + rewrite count_ev_app.
      rewrite (count_ev_none is_setSecurity is_try_event body); [reflexivity| |exact HF].
      intros [] He; try reflexivity; discriminate.
    + intros _ _. exists body. auto.
  - exists (Raise e), []. split; [rewrite <- !app_assoc; reflexivity|].
    split; [reflexivity|]. intros r Hr. discriminate.
Qed.

(** C7.  A polling invocation with [--security passkey] or [--security
    high] never enables a sensor wrapper and never applies a security level
    (no lookup and no [setSecurityLevel] call in the whole run); once the
    connection is established it exits through [sys.exit] with the
    unsupported-security message, status 1, right after announcing the
    security step.  With [low] or [no-pairing] the level applied is "low",
    with [just-works] or [medium] it is "medium", applied once, directly
    after the connection. *)
Theorem unsupported_security_rejected :
  forall (fuel : nat) (args : Args) (dev : Device),
    polling args ->
    (security args = "passkey" \/ security args = "high" ->
     count_ev is_lookup (snd (run_main fuel args dev)) = 0%nat
     /\ count_ev is_setSecurity (snd (run_main fuel args dev)) = 0%nat
     /\ (connects dev args ->
         run_main fuel args dev =
           (Raise (SystemExit (ExitMsg msg_passkey)),
            connected_prefix args ++ [EPrint "Setting security"])
         /\ exit_status (fst (run_main fuel args dev)) = Some 1
         /\ exit_message (fst (run_main fuel args dev)) = Some msg_passkey))
    /\ (connects dev args -> enough_fuel fuel args ->
        (security args = "low" \/ security args = "no-pairing" ->
         exists o ext,
           run_main fuel args dev =
             (o, connected_prefix args
                 ++ [EPrint "Setting security"; ESetSecurityLevel "low"] ++ ext)
           /\ count_ev is_setSecurity ext = 0%nat)
        /\ (security args = "just-works" \/ security args = "medium" ->
            exists o ext,
              run_main fuel args dev =
                (o, connected_prefix args
                    ++ [EPrint "Setting security"; ESetSecurityLevel "medium"] ++ ext)
              /\ count_ev is_setSecurity ext = 0%nat)).
Proof.
  intros fuel args dev Hpoll. split.
  - intros Hsec.
    assert (Hrej : forall s tr, set_security args dev s tr =
                                (Raise (SystemExit (ExitMsg msg_passkey)), s, tr)).
    { intros s tr. apply set_security_rejects; destruct Hsec as [-> | ->]; reflexivity. }
    assert (Hrun : connects dev args ->
                   run_main fuel args dev =
                     (Raise (SystemExit (ExitMsg msg_passkey)),
                      connected_prefix args ++ [EPrint "Setting security"])).
    { intros Hconn. rewrite (main_polling fuel args dev Hpoll Hconn).
      rewrite (bind_ok _ _ _ _ _ tt Microbit.init
                 (connected_prefix args ++ [EPrint "Setting security"])) by reflexivity.
      rewrite run_bind, Hrej. reflexivity. }
    destruct (connected_prefix_counts args) as (Hl & Hs & _ & _).
    destruct (on_connect dev
                (debug_prefix args ++ [EPrint ("Connecting to " ++ mac_address args)%string])
                (mac_address args) ADDR_TYPE_RANDOM None) as [[]|e] eqn:Hc.
    + rewrite (Hrun Hc). cbn [fst snd]. rewrite !count_ev_app, Hl, Hs.
      repeat split.
    + rewrite (main_polling_unreachable fuel args dev e Hpoll Hc). cbn [snd].
      split; [exact Hl|]. split; [exact Hs|].
      intros Hconn. unfold connects in Hconn. congruence.
  - intros Hconn Hfuel. split; intros Hsec.
    + destruct (polling_applies_level fuel args dev "low" Hpoll Hconn Hfuel)
        as (o & ext & E & Hcount & _).
      { intros s tr. apply set_security_low. destruct Hsec as [-> | ->]; reflexivity. }
      exists o, ext. auto.
    + destruct (polling_applies_level fuel args dev "medium" Hpoll Hconn Hfuel)
        as (o & ext & E & Hcount & _).
      { intros s tr. apply set_security_medium; destruct Hsec as [-> | ->]; reflexivity. }
      exists o, ext. auto.
Qed.

Lemma unsupported_security_rejected_witness :
  run_main 1 (with_security "passkey" (with_sensors true false false (default_args mac0)))
    mock20 =
    (Raise (SystemExit (ExitMsg msg_passkey)),
     [EPrint "Connecting to C0:FF:EE:00:00:01";
      EConnect mac0 ADDR_TYPE_RANDOM None;
      EPrint "Setting security"]).
Proof.
  refine (proj1 (proj2 (proj2 (proj1 (unsupported_security_rejected 1
            (with_security "passkey" (with_sensors true false false (default_args mac0)))
            mock20 _) _)) _)).
  - split; reflexivity.
  - left. reflexivity.
  - reflexivity.
Defined.

(** ** Releasing the connection *)

(** Once the security level has been applied, the polling flow releases the
    connection exactly once, as its last call, whether the guarded block
    returned or raised (failed [enable()], failed read, failed wait). *)
Lemma polling_disconnects_once_after_security fuel args dev level r :
  polling args -> connects dev args -> enough_fuel fuel args ->
  (forall s tr, set_security args dev s tr = setSecurityLevel level dev s tr) ->
  on_setSecurityLevel dev (connected_prefix args ++ [EPrint "Setting security"]) level
    = Returns r ->
  count_ev is_disconnect (snd (run_main fuel args dev)) = 1%nat
  /\ (exists before, snd (run_main fuel args dev) = before ++ [EDisconnect])
  /\ fst (run_main fuel args dev) <> OutOfFuel.
Proof.
  intros Hpoll Hconn Hfuel Hsec Hret.
  destruct (polling_applies_level fuel args dev level Hpoll Hconn Hfuel Hsec)
    as (o & ext & E & _ & Hbody).
  destruct (Hbody r Hret) as (body & -> & HF & Ho).
  rewrite E. cbn [fst snd]. split; [|split; [|exact Ho]].
  - destruct (connected_prefix_counts args) as (_ & _ & Hd & _).
    rewrite !count_ev_app, Hd.
    rewrite (count_ev_none is_disconnect is_try_event body); [reflexivity| |exact HF].
    intros [] He; try reflexivity; discriminate.
  - exists (connected_prefix args
            ++ [EPrint "Setting security"; ESetSecurityLevel level] ++ body).
    rewrite <- !app_assoc. reflexivity.
Qed.

(** C4, where the code falls short.  The [try ... finally] starts after the
    security step, so the two exits of that step leave the established
    connection unreleased: with [--security passkey] the run connects once
    and exits through [sys.exit] without any [disconnect]; so does a run
    whose [setSecurityLevel] raises.  A read that fails in the loop, inside
    the guarded block, is followed by the one [disconnect]. *)
Theorem security_step_exit_skips_disconnect :
  (run_main 1 (with_security "passkey" (with_sensors true false false (default_args mac0)))
     mock20 =
     (Raise (SystemExit (ExitMsg msg_passkey)),
      [EPrint "Connecting to C0:FF:EE:00:00:01";
       EConnect mac0 ADDR_TYPE_RANDOM None;
       EPrint "Setting security"])
   /\ count_ev is_connect
        (snd (run_main 1 (with_security "passkey"
                            (with_sensors true false false (default_args mac0))) mock20))
      = 1%nat
   /\ count_ev is_disconnect
        (snd (run_main 1 (with_security "passkey"
                            (with_sensors true false false (default_args mac0))) mock20))
      = 0%nat)
  /\ (run_main 1 (with_sensors true false false (default_args mac0)) mock_security_raises =
        (Raise (BTLEException 1 "Device disconnected" None),
         [EPrint "Connecting to C0:FF:EE:00:00:01";
          EConnect mac0 ADDR_TYPE_RANDOM None;
          EPrint "Setting security";
          ESetSecurityLevel "low"])
      /\ count_ev is_disconnect
           (snd (run_main 1 (with_sensors true false false (default_args mac0))
                   mock_security_raises))
         = 0%nat)
  /\ count_ev is_disconnect
       (snd (run_main 3 (with_count 3 0 (with_sensors true false false (default_args mac0)))
               (mock_read_fails_after 1)))
     = 1%nat.
Proof. repeat split. Qed.

(** ** The pairing flow *)

Lemma try_unpair_run dev tr :
  try_unpair dev tt tr =
    match on_unpair dev tr with
    | Returns _ => (Ok tt, tt, tr ++ [EUnpair])
    | Raises e =>
        if not_paired_signature dev e
        then (Ok tt, tt, tr ++ [EUnpair; EPrint msg_not_paired])
        else (Raise e, tt, tr ++ [EUnpair])
    end.
Proof.
  unfold try_unpair, try_except_BTLE, unpair, call.
  destruct (on_unpair dev tr) as [[]|e]; [reflexivity|].
  destruct e as [| | | |code msg estat| |]; try reflexivity.
  rewrite run_bind. cbn [BTLEException_DISCONNECTED not_paired_signature].
  destruct estat as [status|]; cbn [opt_eqb].
  - destruct (Z.eqb code (DISCONNECTED dev) && Z.eqb status 6);
      [unfold print; rewrite <- app_assoc|]; reflexivity.
  - rewrite andb_false_r. reflexivity.
Qed.

Lemma pair_flow_connected fuel args dev :
  pairing args ->
  on_connect dev (debug_prefix args) (mac_address args) ADDR_TYPE_RANDOM
    (Some (interface args)) = Returns tt ->
  run_main fuel args dev =
    match (try_unpair ;;;
           disconnect ;;;
           Peripheral_init (mac_address args) ADDR_TYPE_RANDOM (Some (interface args)) ;;;
           pair ;;;
           print "Paired." ;;;
           @sys_exit unit unit (ExitCode 0)) dev tt (pair_connected args) with
    | (o, _, tr) => (o, tr)
    end.
Proof.
  intros [Hp Hs] Hc. unfold run_main.
  rewrite main_enters_flow by (rewrite Hp, Hs; reflexivity).
  rewrite Hp. unfold pair_flow, Peripheral_init at 1.
  rewrite (bind_ok _ _ _ _ _ tt tt (pair_connected args))
    by (apply call_returns; exact Hc).
  match goal with |- context [bind ?m ?k dev ?s ?tr] =>
    destruct (bind m k dev s tr) as [[o s'] tr'] end.
  reflexivity.
Qed.

Lemma pair_tail_run dev args tr :
  tail_succeeds dev args tr ->
  (disconnect ;;;
   Peripheral_init (mac_address args) ADDR_TYPE_RANDOM (Some (interface args)) ;;;
   pair ;;;
   print "Paired." ;;;
   @sys_exit unit unit (ExitCode 0)) dev tt tr =
  (@Raise unit (SystemExit (ExitCode 0)), tt, tr ++ pair_tail args).
Proof.
  intros (Hd & Hc & Hp). unfold disconnect, Peripheral_init, pair.
  rewrite (bind_ok _ _ _ _ _ tt tt (tr ++ [EDisconnect])) by (apply call_returns; exact Hd).
  rewrite (bind_ok _ _ _ _ _ tt tt
             ((tr ++ [EDisconnect])
              ++ [EConnect (mac_address args) ADDR_TYPE_RANDOM (Some (interface args))]))
    by (apply call_returns; exact Hc).
  rewrite <- app_assoc.
  rewrite (bind_ok _ _ _ _ _ tt tt
             ((tr ++ [EDisconnect;
                      EConnect (mac_address args) ADDR_TYPE_RANDOM (Some (interface args))])
              ++ [EPair]))
    by (apply call_returns; exact Hp).
  rewrite run_bind. unfold print, sys_exit, raise, pair_tail.
  rewrite <- !app_assoc. reflexivity.
Qed.

Lemma pair_tail_starts_with_disconnect dev args tr :
  exists o rest,
    (disconnect ;;;
     Peripheral_init (mac_address args) ADDR_TYPE_RANDOM (Some (interface args)) ;;;
     pair ;;;
     print "Paired." ;;;
     @sys_exit unit unit (ExitCode 0)) dev tt tr = (o, tt, tr ++ [EDisconnect] ++ rest).
Proof.
  rewrite run_bind. unfold disconnect at 1, call at 1.
  destruct (on_disconnect dev tr) as [[]|e].
  - assert (H : emits (fun _ => true)
                  (Peripheral_init (mac_address args) ADDR_TYPE_RANDOM (Some (interface args)) ;;;
                   pair ;;; print "Paired." ;;; @sys_exit unit unit (ExitCode 0))).
    { unfold Peripheral_init, pair, sys_exit. emits_steps. }
    destruct (H dev tt (tr ++ [EDisconnect])) as (o & [] & rest & E & _ & _).
    rewrite E. exists o, rest. rewrite <- app_assoc. reflexivity.
  - exists (Raise e), []. reflexivity.
Qed.

(** C8.  In the pairing flow, once connected, a failing [unpair] is
    tolerated exactly when it carries the not-paired signature (a
    [BTLEException] with code DISCONNECTED and status 6): then the flow
    prints the notice and goes on to [disconnect]; any other exception of
    [unpair] escapes from the program unchanged and nothing is called after
    it.  When [unpair] returned or was tolerated and the later calls
    succeed, the flow disconnects, reconnects, pairs, prints "Paired." and
    exits with status 0. *)
Theorem pairing_tolerates_only_not_paired :
  forall (fuel : nat) (args : Args) (dev : Device),
    pairing args ->
    on_connect dev (debug_prefix args) (mac_address args) ADDR_TYPE_RANDOM
      (Some (interface args)) = Returns tt ->
    (forall e, on_unpair dev (pair_connected args) = Raises e ->
       (not_paired_signature dev e = true ->
        exists o rest,
          run_main fuel args dev =
            (o, pair_connected args
                ++ [EUnpair; EPrint msg_not_paired; EDisconnect] ++ rest))
       /\ (not_paired_signature dev e = false ->
           run_main fuel args dev = (Raise e, pair_connected args ++ [EUnpair])))
    /\ (on_unpair dev (pair_connected args) = Returns tt ->
        tail_succeeds dev args (pair_connected args ++ [EUnpair]) ->
        run_main fuel args dev =
          (Raise (SystemExit (ExitCode 0)),
           pair_connected args ++ [EUnpair] ++ pair_tail args)
        /\ exit_status (fst (run_main fuel args dev)) = Some 0)
    /\ (forall e, on_unpair dev (pair_connected args) = Raises e ->
        not_paired_signature dev e = true ->
        tail_succeeds dev args (pair_connected args ++ [EUnpair; EPrint msg_not_paired]) ->
        run_main fuel args dev =
          (Raise (SystemExit (ExitCode 0)),
           pair_connected args ++ [EUnpair; EPrint msg_not_paired] ++ pair_tail args)
        /\ exit_status (fst (run_main fuel args dev)) = Some 0).
Proof.
  intros fuel args dev Hpair Hconn.
  rewrite (pair_flow_connected fuel args dev Hpair Hconn).
  rewrite run_bind, try_unpair_run.
  split; [|split].
  - intros e He. rewrite He. split; intros Hsig; rewrite Hsig.
    + destruct (pair_tail_starts_with_disconnect dev args
                  (pair_connected args ++ [EUnpair; EPrint msg_not_paired]))
        as (o & rest & E).
      rewrite E. exists o, rest. rewrite <- !app_assoc. reflexivity.
    + reflexivity.
  - intros He Htail. rewrite He.
    rewrite (pair_tail_run dev args _ Htail). rewrite <- !app_assoc.
    split; reflexivity.
  - intros e He Hsig Htail. rewrite He, Hsig.
    rewrite (pair_tail_run dev args _ Htail). rewrite <- !app_assoc.
    split; reflexivity.
Qed.

Lemma pairing_tolerates_only_not_paired_witness :
  run_main 1 (with_pair (default_args mac0))
    (mock_unpair_raises (BTLEException 1 "Device disconnected" (Some 6))) =
    (Raise (SystemExit (ExitCode 0)),
     [EConnect mac0 ADDR_TYPE_RANDOM (Some 0); EUnpair; EPrint msg_not_paired;
      EDisconnect; EConnect mac0 ADDR_TYPE_RANDOM (Some 0); EPair; EPrint "Paired."])
  /\ run_main 1 (with_pair (default_args mac0))
       (mock_unpair_raises (BTLEException 1 "Device disconnected" (Some 5))) =
     (Raise (BTLEException 1 "Device disconnected" (Some 5)),
      [EConnect mac0 ADDR_TYPE_RANDOM (Some 0); EUnpair]).
Proof.
  split.
  - refine (proj1 (proj2 (proj2 (pairing_tolerates_only_not_paired 1
             (with_pair (default_args mac0))
             (mock_unpair_raises (BTLEException 1 "Device disconnected" (Some 6))) _ _))
             (BTLEException 1 "Device disconnected" (Some 6)) _ _ _)).
    + split; reflexivity.
    + reflexivity.
    + reflexivity.
    + reflexivity.
    + repeat split.
  - refine (proj2 (proj1 (pairing_tolerates_only_not_paired 1
             (with_pair (default_args mac0))
             (mock_unpair_raises (BTLEException 1 "Device disconnected" (Some 5))) _ _)
             (BTLEException 1 "Device disconnected" (Some 5)) _) _).
    + split; reflexivity.
    + reflexivity.
    + reflexivity.
    + reflexivity.
Defined.

(** ** The polling loop *)

Lemma length_1 {A} (l : list A) : List.length l = 1%nat -> exists a, l = [a].
Proof. destruct l as [|a [|b r]]; try discriminate. eauto. Qed.

Lemma length_6 {A} (l : list A) :
  List.length l = 6%nat -> exists a b c d e f, l = [a; b; c; d; e; f].
Proof.
  destruct l as [|a [|b [|c [|d [|e [|f [|g r]]]]]]]; try discriminate.
  intros _. do 6 eexists. reflexivity.
Qed.

Lemma temperature_read_ok dev self tr c b :
  TemperatureService.data self = Some c ->
  on_read dev tr c = Returns [b] ->
  TemperatureService.read dev self tr = (Ok (Z.of_N (Byte.to_N b)), self, tr ++ [ERead c]).
Proof.
  intros Hdata Hread. unfold TemperatureService.read.
  rewrite (bind_ok _ _ _ _ _ self self tr) by reflexivity.
  rewrite Hdata. cbn [deref].
  rewrite (bind_ok _ _ _ _ _ c self tr) by reflexivity.
  unfold Characteristic_read.
  rewrite (bind_ok _ _ _ _ _ [b] self (tr ++ [ERead c])) by (apply call_returns; exact Hread).
  reflexivity.
Qed.

Lemma accelerator_read_ok dev self tr c p :
  AcceleratorService.data self = Some c ->
  on_read dev tr c = Returns p -> List.length p = 6%nat ->
  exists xyz, AcceleratorService.read dev self tr = (Ok xyz, self, tr ++ [ERead c]).
Proof.
  intros Hdata Hread Hlen. unfold AcceleratorService.read.
  rewrite (bind_ok _ _ _ _ _ self self tr) by reflexivity.
  rewrite Hdata. cbn [deref].
  rewrite (bind_ok _ _ _ _ _ c self tr) by reflexivity.
  unfold Characteristic_read.
  rewrite (bind_ok _ _ _ _ _ p self (tr ++ [ERead c])) by (apply call_returns; exact Hread).
  destruct (length_6 p Hlen) as (x0 & x1 & y0 & y1 & z0 & z1 & ->).
  eexists. reflexivity.
Qed.

Lemma read_btnA_ok dev self tr c b :
  ButtonsService.dataA self = Some c ->
  on_read dev tr c = Returns [b] ->
  ButtonsService.read_btnA dev self tr = (Ok (Z.of_N (Byte.to_N b)), self, tr ++ [ERead c]).
Proof.
  intros Hdata Hread. unfold ButtonsService.read_btnA.
  rewrite (bind_ok _ _ _ _ _ self self tr) by reflexivity.
  rewrite Hdata. cbn [deref].
  rewrite (bind_ok _ _ _ _ _ c self tr) by reflexivity.
  unfold Characteristic_read.
  rewrite (bind_ok _ _ _ _ _ [b] self (tr ++ [ERead c])) by (apply call_returns; exact Hread).
  reflexivity.
Qed.

Lemma read_btnB_ok dev self tr c b :
  ButtonsService.dataB self = Some c ->
  on_read dev tr c = Returns [b] ->
  ButtonsService.read_btnB dev self tr = (Ok (Z.of_N (Byte.to_N b)), self, tr ++ [ERead c]).
Proof.
  intros Hdata Hread. unfold ButtonsService.read_btnB.
  rewrite (bind_ok _ _ _ _ _ self self tr) by reflexivity.
  rewrite Hdata. cbn [deref].
  rewrite (bind_ok _ _ _ _ _ c self tr) by reflexivity.
  unfold Characteristic_read.
  rewrite (bind_ok _ _ _ _ _ [b] self (tr ++ [ERead c])) by (apply call_returns; exact Hread).
  reflexivity.
Qed.

Lemma zoom_temperature_same {A} (m : M TemperatureService.t A) dev mb tr o tr' :
  m dev (Microbit.temperature mb) tr = (o, Microbit.temperature mb, tr') ->
  Microbit.on_temperature m dev mb tr = (o, mb, tr').
Proof.
  intros H. unfold Microbit.on_temperature, zoom. rewrite H. destruct mb; reflexivity.
Qed.

Lemma zoom_accelerator_same {A} (m : M AcceleratorService.t A) dev mb tr o tr' :
  m dev (Microbit.accelerator mb) tr = (o, Microbit.accelerator mb, tr') ->
  Microbit.on_accelerator m dev mb tr = (o, mb, tr').
Proof.
  intros H. unfold Microbit.on_accelerator, zoom. rewrite H. destruct mb; reflexivity.
Qed.

Lemma zoom_buttons_same {A} (m : M ButtonsService.t A) dev mb tr o tr' :
  m dev (Microbit.buttons mb) tr = (o, Microbit.buttons mb, tr') ->
  Microbit.on_buttons m dev mb tr = (o, mb, tr').
Proof.
  intros H. unfold Microbit.on_buttons, zoom. rewrite H. destruct mb; reflexivity.
Qed.

(** The temperature part of a round. *)
Lemma temperature_step_ok dev mb tr c b :
  TemperatureService.data (Microbit.temperature mb) = Some c ->
  on_read dev tr c = Returns [b] ->
  (v <- Microbit.on_temperature TemperatureService.read ;;
   print ("Temperature: " ++ fmt_d v ++ "C")%string) dev mb tr =
  (Ok tt, mb,
   tr ++ [ERead c; EPrint ("Temperature: " ++ fmt_d (Z.of_N (Byte.to_N b)) ++ "C")%string]).
Proof.
  intros Hdata Hread.
  rewrite (bind_ok _ _ _ _ _ (Z.of_N (Byte.to_N b)) mb (tr ++ [ERead c]))
    by (apply zoom_temperature_same, temperature_read_ok; assumption).
  unfold print. rewrite <- app_assoc. reflexivity.
Qed.

Lemma accelerator_step_ok dev mb tr c p :
  AcceleratorService.data (Microbit.accelerator mb) = Some c ->
  on_read dev tr c = Returns p -> List.length p = 6%nat ->
  exists line,
    (xyz <- Microbit.on_accelerator AcceleratorService.read ;;
     let '(x, y, z) := xyz in
     print ("Accelerator: x: " ++ fmt_05d x ++ "   y: " ++ fmt_05d y
            ++ "   z: " ++ fmt_05d z)%string) dev mb tr =
    (Ok tt, mb, tr ++ [ERead c; EPrint line]).
Proof.
  intros Hdata Hread Hlen.
  destruct (accelerator_read_ok dev _ tr c p Hdata Hread Hlen) as ([[x y] z] & E).
  rewrite (bind_ok _ _ _ _ _ (x, y, z) mb (tr ++ [ERead c]))
    by (apply zoom_accelerator_same; exact E).
  eexists. unfold print. rewrite <- app_assoc. reflexivity.
Qed.

Lemma buttons_step_ok dev mb tr ca cb a b :
  ButtonsService.dataA (Microbit.buttons mb) = Some ca ->
  ButtonsService.dataB (Microbit.buttons mb) = Some cb ->
  on_read dev tr ca = Returns [a] ->
  on_read dev (tr ++ [ERead ca]) cb = Returns [b] ->
  exists line,
    (ab <- Microbit.on_buttons ButtonsService.read ;;
     let '(a, b) := ab in
     print ("buttons: A: " ++ fmt_d a ++ "   B: " ++ fmt_d b)%string) dev mb tr =
    (Ok tt, mb, tr ++ [ERead ca; ERead cb; EPrint line]).
Proof.
  intros HA HB Ha Hb.
  assert (E : ButtonsService.read dev (Microbit.buttons mb) tr =
              (Ok (Z.of_N (Byte.to_N a), Z.of_N (Byte.to_N b)), Microbit.buttons mb,
               tr ++ [ERead ca; ERead cb])).
  { unfold ButtonsService.read.
    rewrite (bind_ok _ _ _ _ _ _ _ _ (read_btnA_ok dev _ tr ca a HA Ha)).
    rewrite (bind_ok _ _ _ _ _ _ _ _ (read_btnB_ok dev _ _ cb b HB Hb)).
    unfold ret. rewrite <- app_assoc. reflexivity. }
  rewrite (bind_ok _ _ _ _ _ _ mb _ (zoom_buttons_same _ dev mb tr _ _ E)).
  eexists. unfold print. rewrite <- app_assoc. reflexivity.
Qed.

Lemma when_step_ok (flag : bool) (step : M Microbit.t unit) (n : nat) dev mb tr :
  (flag = true ->
   exists ext line, step dev mb tr = (Ok tt, mb, tr ++ ext ++ [EPrint line])
                    /\ count_ev is_read ext = n /\ count_ev is_wait ext = 0%nat) ->
  exists ext,
    when flag step dev mb tr = (Ok tt, mb, tr ++ ext)
    /\ count_ev is_read ext = (if flag then n else 0)%nat
    /\ count_ev is_wait ext = 0%nat
    /\ (flag = true -> exists ext' line, ext = ext' ++ [EPrint line])
    /\ (flag = false -> ext = []).
Proof.
  intros H. destruct flag.
  - destruct (H eq_refl) as (ext & line & E & Hr & Hw).
    exists (ext ++ [EPrint line]). cbn [when]. rewrite E.
    rewrite !count_ev_app, Hr, Hw.
    split; [reflexivity|].
    split; [cbn; lia|]. split; [reflexivity|].
    split; [intros _; eauto|discriminate].
  - exists []. cbn [when]. unfold ret. rewrite app_nil_r.
    split; [reflexivity|]. split; [reflexivity|]. split; [reflexivity|].
    split; [discriminate|reflexivity].
Qed.

Lemma poll_round_ok dev args mb :
  reads_succeed dev args mb -> forall tr,
  exists ext,
    poll_round args dev mb tr = (Ok tt, mb, tr ++ ext)
    /\ count_ev is_read ext = reads_per_round args
    /\ count_ev is_wait ext = 0%nat
    /\ (services_requested args = true -> exists ext' line, ext = ext' ++ [EPrint line]).
Proof.
  intros (HT & HA & HB) tr. unfold poll_round.
  destruct (when_step_ok (temperature args)
              (v <- Microbit.on_temperature TemperatureService.read ;;
               print ("Temperature: " ++ fmt_d v ++ "C")%string) 1 dev mb tr)
    as (e1 & E1 & R1 & W1 & L1 & N1).
  { intros Hf. destruct (HT Hf) as (c & Hc & Hread).
    destruct (Hread tr) as (p & Hp & Hlen). destruct (length_1 p Hlen) as (b & ->).
    exists [ERead c]. eexists. split; [|split; reflexivity].
    exact (temperature_step_ok dev mb tr c b Hc Hp). }
  rewrite (bind_ok _ _ _ _ _ _ _ _ E1).
  destruct (when_step_ok (accelerator args)
              (xyz <- Microbit.on_accelerator AcceleratorService.read ;;
               let '(x, y, z) := xyz in
               print ("Accelerator: x: " ++ fmt_05d x ++ "   y: " ++ fmt_05d y
                      ++ "   z: " ++ fmt_05d z)%string) 1 dev mb (tr ++ e1))
    as (e2 & E2 & R2 & W2 & L2 & N2).
  { intros Hf. destruct (HA Hf) as (c & Hc & Hread).
    destruct (Hread (tr ++ e1)) as (p & Hp & Hlen).
    destruct (accelerator_step_ok dev mb (tr ++ e1) c p Hc Hp Hlen) as (line & E).
    exists [ERead c], line. split; [exact E|split; reflexivity]. }
  rewrite (bind_ok _ _ _ _ _ _ _ _ E2).
  destruct (when_step_ok (buttons args)
              (ab <- Microbit.on_buttons ButtonsService.read ;;
               let '(a, b) := ab in
               print ("buttons: A: " ++ fmt_d a ++ "   B: " ++ fmt_d b)%string)
              2 dev mb ((tr ++ e1) ++ e2))
    as (e3 & E3 & R3 & W3 & L3 & N3).
  { intros Hf. destruct (HB Hf) as ((ca & Hca & HreadA) & (cb & Hcb & HreadB)).
    destruct (HreadA ((tr ++ e1) ++ e2)) as (pa & Hpa & Hlena).
    destruct (length_1 pa Hlena) as (a & ->).
    destruct (HreadB (((tr ++ e1) ++ e2) ++ [ERead ca])) as (pb & Hpb & Hlenb).
    destruct (length_1 pb Hlenb) as (b & ->).
    destruct (buttons_step_ok dev mb _ ca cb a b Hca Hcb Hpa Hpb) as (line & E).
    exists [ERead ca; ERead cb], line. split; [exact E|split; reflexivity]. }
  rewrite E3. exists (e1 ++ e2 ++ e3).
  split; [rewrite <- !app_assoc; reflexivity|].
  rewrite !count_ev_app, R1, R2, R3, W1, W2, W3.
  split; [unfold reads_per_round; lia|]. split; [reflexivity|].
  unfold services_requested. intros Hsr.
  destruct (buttons args).
  - destruct (L3 eq_refl) as (e3' & line & ->).
    exists (e1 ++ e2 ++ e3'), line. rewrite <- !app_assoc. reflexivity.
  - rewrite (N3 eq_refl), app_nil_r. destruct (accelerator args).
    + destruct (L2 eq_refl) as (e2' & line & ->).
      exists (e1 ++ e2'), line. rewrite <- !app_assoc. reflexivity.
    + rewrite (N2 eq_refl), app_nil_r. destruct (temperature args); [|discriminate].
      exact (L1 eq_refl).
Qed.

Lemma poll_rounds_ok dev args mb :
  reads_succeed dev args mb -> waits_succeed dev args ->
  forall extra tr,
  exists ext,
    poll_rounds args extra dev mb tr = (Ok tt, mb, tr ++ ext)
    /\ count_ev is_read ext = (S extra * reads_per_round args)%nat
    /\ count_ev is_wait ext = extra
    /\ (services_requested args = true -> exists ext' line, ext = ext' ++ [EPrint line]).
Proof.
  intros Hreads Hwaits. induction extra as [|extra IH]; intros tr.
  - destruct (poll_round_ok dev args mb Hreads tr) as (ext & E & R & W & L).
    exists ext. cbn [poll_rounds]. repeat split; try assumption. lia.
  - destruct (poll_round_ok dev args mb Hreads tr) as (e1 & E1 & R1 & W1 & _).
    cbn [poll_rounds]. rewrite (bind_ok _ _ _ _ _ _ _ _ E1).
    destruct (Hwaits (tr ++ e1)) as (b & Hb).
    unfold waitForNotifications.
    rewrite (bind_ok _ _ _ _ _ b mb ((tr ++ e1) ++ [EWaitForNotifications (t args)]))
      by (apply call_returns; exact Hb).
    destruct (IH ((tr ++ e1) ++ [EWaitForNotifications (t args)]))
      as (e2 & E2 & R2 & W2 & L2).
    rewrite E2. exists (e1 ++ [EWaitForNotifications (t args)] ++ e2).
    split; [rewrite <- !app_assoc; reflexivity|].
    rewrite !count_ev_app, R1, R2, W1, W2.
    split; [cbn; lia|]. split; [reflexivity|].
    intros Hsr. destruct (L2 Hsr) as (e2' & line & ->).
    exists (e1 ++ [EWaitForNotifications (t args)] ++ e2'), line.
    rewrite <- !app_assoc. reflexivity.
Qed.

Lemma bind_ret_tt {S} (m : M S unit) dev s tr :
  (m ;;; ret tt) dev s tr = m dev s tr.
Proof.
  rewrite run_bind. destruct (m dev s tr) as [[[[]|e|] s'] tr']; reflexivity.
Qed.

(** The fuelled loop is the unrolled sequence of rounds. *)
Lemma poll_loop_unrolls args fuel :
  forall counter dev mb tr,
    (Z.to_nat (count args - counter) < fuel)%nat ->
    poll_loop fuel args counter dev mb tr =
      poll_rounds args (Z.to_nat (count args - counter)) dev mb tr.
Proof.
  induction fuel as [|fuel IH]; intros counter dev mb tr Hfuel; [lia|].
  cbn [poll_loop]. rewrite Z.geb_leb.
  destruct (Z.leb_spec (count args) counter) as [Hle|Hlt].
  - replace (Z.to_nat (count args - counter)) with 0%nat by lia.
    cbn [poll_rounds]. apply bind_ret_tt.
  - replace (Z.to_nat (count args - counter))
      with (S (Z.to_nat (count args - (counter + 1)))) by lia.
    cbn [poll_rounds]. rewrite !run_bind.
    destruct (poll_round args dev mb tr) as [[[[]|e|] s1] tr1]; try reflexivity.
    rewrite !run_bind.
    destruct (waitForNotifications (t args) dev s1 tr1) as [[[b|e|] s2] tr2];
      try reflexivity.
    apply IH. lia.
Qed.

(** C10.  For every integer [count], with fuel for [max(1, count)] rounds
    the loop is exactly: one round of reads, then [max(1, count) - 1] times
    a wait followed by a round, so the exit test comes after a full round
    and no wait follows the last round.  When all reads and waits succeed
    the loop returns; it has issued [max(1, count)] times the reads of one
    round and [max(1, count) - 1] waits, and, some sensor being requested,
    its last action is a sensor line, not a wait. *)
Theorem poll_loop_round_count :
  forall (args : Args) (fuel : nat) (dev : Device) (mb : Microbit.t) (tr : Trace),
    enough_fuel fuel args ->
    poll_loop fuel args 1 dev mb tr =
      poll_rounds args (Z.to_nat (Z.max 1 (count args)) - 1) dev mb tr
    /\ (reads_succeed dev args mb -> waits_succeed dev args ->
        exists ext,
          poll_loop fuel args 1 dev mb tr = (Ok tt, mb, tr ++ ext)
          /\ count_ev is_read ext
             = (Z.to_nat (Z.max 1 (count args)) * reads_per_round args)%nat
          /\ count_ev is_wait ext = (Z.to_nat (Z.max 1 (count args)) - 1)%nat
          /\ (services_requested args = true ->
              exists ext' line, ext = ext' ++ [EPrint line])).
Proof.
  intros args fuel dev mb tr Hfuel. unfold enough_fuel in Hfuel.
  assert (E : poll_loop fuel args 1 dev mb tr =
              poll_rounds args (Z.to_nat (Z.max 1 (count args)) - 1) dev mb tr).
  { rewrite poll_loop_unrolls by lia. f_equal. lia. }
  split; [exact E|]. intros Hreads Hwaits. rewrite E.
  destruct (poll_rounds_ok dev args mb Hreads Hwaits
              (Z.to_nat (Z.max 1 (count args)) - 1) tr) as (ext & E' & R & W & L).
  exists ext. repeat split; try assumption.
  rewrite R. f_equal. lia.
Qed.

Lemma poll_loop_round_count_witness :
  poll_loop 1 (with_count (-3) 0 (with_sensors true true true (default_args mac0))) 1
    mock20 enabled_microbit [] =
  poll_rounds (with_count (-3) 0 (with_sensors true true true (default_args mac0))) 0
    mock20 enabled_microbit [].
Proof.
  refine (proj1 (poll_loop_round_count
                   (with_count (-3) 0 (with_sensors true true true (default_args mac0)))
                   1 mock20 enabled_microbit [] _)).
  unfold enough_fuel. cbn. lia.
Defined.

(** ** End to end *)

Lemma temperature_enable_fresh dev tr s c r :
  on_getServiceByUUID dev tr TemperatureService.svcUUID = Returns s ->
  on_getCharacteristics dev (tr ++ [EGetServiceByUUID TemperatureService.svcUUID]) s
    TemperatureService.dataUUID = Returns (c :: r) ->
  TemperatureService.enable dev TemperatureService.init tr =
    (Ok tt,
     {| TemperatureService.service := Some s; TemperatureService.data := Some c |},
     tr ++ [EGetServiceByUUID TemperatureService.svcUUID;
            EGetCharacteristics s TemperatureService.dataUUID]).
Proof.
  intros Hs Hc. unfold TemperatureService.enable.
  rewrite (bind_ok _ _ _ _ _ TemperatureService.init TemperatureService.init tr)
    by reflexivity.
  cbn [TemperatureService.service TemperatureService.init is_None when].
  rewrite (bind_ok _ _ _ _ _ tt
             (TemperatureService.set_service s TemperatureService.init)
             (tr ++ [EGetServiceByUUID TemperatureService.svcUUID])).
  2:{ unfold getServiceByUUID.
      rewrite (bind_ok _ _ _ _ _ s TemperatureService.init
                 (tr ++ [EGetServiceByUUID TemperatureService.svcUUID]))
        by (apply call_returns; exact Hs).
      reflexivity. }
  rewrite (bind_ok _ _ _ _ _ (TemperatureService.set_service s TemperatureService.init)
             (TemperatureService.set_service s TemperatureService.init)
             (tr ++ [EGetServiceByUUID TemperatureService.svcUUID])) by reflexivity.
  cbn [TemperatureService.set_service TemperatureService.service TemperatureService.data
       TemperatureService.init is_None when deref].
  rewrite (bind_ok _ _ _ _ _ s _ (tr ++ [EGetServiceByUUID TemperatureService.svcUUID]))
    by reflexivity.
  unfold getCharacteristics.
  rewrite (bind_ok _ _ _ _ _ (c :: r) _
             ((tr ++ [EGetServiceByUUID TemperatureService.svcUUID])
              ++ [EGetCharacteristics s TemperatureService.dataUUID]))
    by (apply call_returns; exact Hc).
  cbn [index0].
  rewrite (bind_ok _ _ _ _ _ c _
             ((tr ++ [EGetServiceByUUID TemperatureService.svcUUID])
              ++ [EGetCharacteristics s TemperatureService.dataUUID])) by reflexivity.
  unfold modify. rewrite <- app_assoc. reflexivity.
Qed.

Lemma poll_round_temperature_only args dev mb tr c b :
  temperature args = true -> accelerator args = false -> buttons args = false ->
  TemperatureService.data (Microbit.temperature mb) = Some c ->
  on_read dev tr c = Returns [b] ->
  poll_round args dev mb tr =
    (Ok tt, mb,
     tr ++ [ERead c; EPrint ("Temperature: " ++ fmt_d (Z.of_N (Byte.to_N b)) ++ "C")%string]).
Proof.
  intros Ht Ha Hb Hdata Hread. unfold poll_round. rewrite Ht, Ha, Hb. cbn [when].
  rewrite (bind_ok _ _ _ _ _ _ _ _ (temperature_step_ok dev mb tr c b Hdata Hread)).
  reflexivity.
Qed.

(** C9.  [-n 2 -t 0 --temperature] against a device whose connection
    succeeds, on which every call succeeds and whose reads return the byte
    20: the run returns normally after exactly this sequence of calls and
    lines.  Standard output holds the three progress lines and then the two
    sensor lines, so exactly two lines "Temperature: 20C" (and two sensor
    reads); one wait separates the two rounds; [disconnect] is called once,
    as the last call, after the loop. *)
Theorem polling_twice_prints_two_readings :
  forall (fuel : nat) (mac : string) (dev : Device),
    (2 <= fuel)%nat ->
    connects dev (args_n2_temperature mac) ->
    returns_20 dev ->
    exists svc chr,
      run_main fuel (args_n2_temperature mac) dev =
        (Ok tt,
         [EPrint ("Connecting to " ++ mac)%string;
          EConnect mac ADDR_TYPE_RANDOM None;
          EPrint "Setting security";
          ESetSecurityLevel "low";
          EPrint "Enabling selected sensors...";
          EGetServiceByUUID TemperatureService.svcUUID;
          EGetCharacteristics svc TemperatureService.dataUUID;
          ERead chr;
          EPrint "Temperature: 20C";
          EWaitForNotifications 0;
          ERead chr;
          EPrint "Temperature: 20C";
          EDisconnect])
      /\ stdout (snd (run_main fuel (args_n2_temperature mac) dev)) =
           [("Connecting to " ++ mac)%string; "Setting security";
            "Enabling selected sensors..."; "Temperature: 20C"; "Temperature: 20C"]
      /\ count_lines "Temperature: 20C" (snd (run_main fuel (args_n2_temperature mac) dev))
         = 2%nat
      /\ count_ev is_disconnect (snd (run_main fuel (args_n2_temperature mac) dev)) = 1%nat
      /\ exit_status (fst (run_main fuel (args_n2_temperature mac) dev)) = Some 0.
Proof.
  intros fuel mac dev Hfuel Hconn (Hsec & Hsvc & Hchr & Hread & Hwait & Hdisc).
  set (A := args_n2_temperature mac) in *.
  set (T1 := connected_prefix A ++ [EPrint "Setting security"]).
  set (T2 := T1 ++ [ESetSecurityLevel "low"]).
  set (T3 := T2 ++ [EPrint "Enabling selected sensors..."]).
  destruct (Hsvc T3 TemperatureService.svcUUID) as [s Hs].
  destruct (Hchr (T3 ++ [EGetServiceByUUID TemperatureService.svcUUID]) s
              TemperatureService.dataUUID) as (c & r & Hc).
  set (T4 := T3 ++ [EGetServiceByUUID TemperatureService.svcUUID;
                    EGetCharacteristics s TemperatureService.dataUUID]).
  set (mb1 := Microbit.upd_temperature Microbit.init
                {| TemperatureService.service := Some s;
                   TemperatureService.data := Some c |}).
  set (T5 := T4 ++ [ERead c; EPrint "Temperature: 20C"]).
  destruct (Hwait T5 0%Q) as [b Hb].
  set (T6 := T5 ++ [EWaitForNotifications 0]).
  assert (Hround : forall tr, poll_round A dev mb1 tr =
                              (Ok tt, mb1, tr ++ [ERead c; EPrint "Temperature: 20C"])).
  { intros tr.
    apply (poll_round_temperature_only A dev mb1 tr c x14); try reflexivity.
    apply Hread. }
  assert (Ebody : try_body fuel A dev Microbit.init T2 =
                  (Ok tt, mb1, T6 ++ [ERead c; EPrint "Temperature: 20C"])).
  { unfold try_body.
    rewrite (bind_ok _ _ _ _ _ tt Microbit.init T3) by reflexivity.
    change (temperature A) with true. change (accelerator A) with false.
    change (buttons A) with false. cbn [when].
    rewrite (bind_ok _ _ _ _ _ tt mb1 T4).
    2:{ unfold Microbit.on_temperature, zoom. cbn [Microbit.temperature Microbit.init].
        rewrite (temperature_enable_fresh dev T3 s c r Hs Hc). reflexivity. }
    rewrite (bind_ok _ _ _ _ _ tt mb1 T4) by reflexivity.
    rewrite (bind_ok _ _ _ _ _ tt mb1 T4) by reflexivity.
    rewrite poll_loop_unrolls by (change (count A) with 2; lia).
    change (Z.to_nat (count A - 1)) with 1%nat. cbn [poll_rounds].
    rewrite (bind_ok _ _ _ _ _ tt mb1 T5) by apply Hround.
    unfold waitForNotifications. change (t A) with 0%Q.
    rewrite (bind_ok _ _ _ _ _ b mb1 T6) by (apply call_returns; exact Hb).
    apply Hround. }
  assert (Erun : run_main fuel A dev =
                 (Ok tt, (T6 ++ [ERead c; EPrint "Temperature: 20C"]) ++ [EDisconnect])).
  { rewrite (main_polling fuel A dev); [|split; reflexivity|exact Hconn].
    rewrite (bind_ok _ _ _ _ _ tt Microbit.init T1) by reflexivity.
    rewrite run_bind, set_security_low by reflexivity.
    unfold setSecurityLevel.
    rewrite (call_returns _ _ _ _ _ tt) by apply Hsec.
    unfold try_finally. fold T2. rewrite Ebody.
    unfold disconnect. rewrite (call_returns _ _ _ _ _ tt) by apply Hdisc.
    reflexivity. }
  exists s, c. rewrite Erun. cbn [fst snd].
  unfold T6, T5, T4, T3, T2, T1, connected_prefix, debug_prefix.
  change (debug A) with false. change (mac_address A) with mac.
  rewrite <- !app_assoc. cbn [app].
  repeat split.
Qed.

Lemma polling_twice_prints_two_readings_witness :
  exists svc chr,
    run_main 2 (args_n2_temperature mac0) (mock (fun _ => [x14])) =
      (Ok tt,
       [EPrint "Connecting to C0:FF:EE:00:00:01";
        EConnect mac0 ADDR_TYPE_RANDOM None;
        EPrint "Setting security";
        ESetSecurityLevel "low";
        EPrint "Enabling selected sensors...";
        EGetServiceByUUID TemperatureService.svcUUID;
        EGetCharacteristics svc TemperatureService.dataUUID;
        ERead chr;
        EPrint "Temperature: 20C";
        EWaitForNotifications 0;
        ERead chr;
        EPrint "Temperature: 20C";
        EDisconnect]).
Proof.
  destruct (polling_twice_prints_two_readings 2 mac0 (mock (fun _ => [x14])))
    as (svc & chr & E & _).
  - lia.
  - reflexivity.
  - unfold returns_20. cbn. repeat split; eauto.
  - exists svc, chr. exact E.
Defined.

(** * Further properties of the code *)

(** ** UUID construction *)

Lemma zrange_complete (n : nat) :
  forall start v, start <= v < start + Z.of_nat n -> In v (zrange n start).
Proof.
  induction n as [|n IH]; intros start v Hv; [lia|].
  cbn [zrange]. destruct (Z.eq_dec start v) as [->|Hne]; [left; reflexivity|].
  right. apply IH. lia.
Qed.

Lemma codes16_complete (v : Z) : 0 <= v < 65536 -> In v codes16.
Proof. intros Hv. apply zrange_complete. lia. Qed.

Lemma int16_values_complete (v : Z) : -32768 <= v < 32768 -> In v int16_values.
Proof. intros Hv. apply zrange_complete. lia. Qed.

Lemma Microbit_UUID_checked :
  forallb (fun v => vendor_uuid_ok "E95D" "-251D-470A-A062-FA1922DFA9A8" (Microbit_UUID v) v)
    codes16 = true.
Proof. vm_cast_no_check (@eq_refl bool true). Qed.

Lemma Nordic_UUID_checked :
  forallb (fun v => vendor_uuid_ok "EF68" "-9B35-4933-9B10-52FFA9740042" (Nordic_UUID v) v)
    codes16 = true.
Proof. vm_cast_no_check (@eq_refl bool true). Qed.

Lemma vendor_uuid_ok_spec prefix suffix u v :
  vendor_uuid_ok prefix suffix u v = true ->
  String.length (uuid_text u) = 36%nat
  /\ substring 0 4 (uuid_text u) = prefix
  /\ substring 8 28 (uuid_text u) = suffix
  /\ code_field u = Some v.
Proof.
  unfold vendor_uuid_ok. intros H.
  apply andb_prop in H. destruct H as [H H4].
  apply andb_prop in H. destruct H as [H H3].
  apply andb_prop in H. destruct H as [H1 H2].
  apply Nat.eqb_eq in H1. apply String.eqb_eq in H2. apply String.eqb_eq in H3.
  destruct (code_field u) as [w|]; [|discriminate].
  apply Z.eqb_eq in H4. subst w. auto.
Qed.

(** For every 16-bit code, both UUID builders give a 36-character string:
    the vendor prefix, the code as four uppercase hexadecimal digits (read
    back, they give the code), and the vendor suffix. *)
Theorem vendor_uuid_canonical :
  forall v : Z, 0 <= v < 65536 ->
    (String.length (uuid_text (Microbit_UUID v)) = 36%nat
     /\ substring 0 4 (uuid_text (Microbit_UUID v)) = "E95D"
     /\ substring 8 28 (uuid_text (Microbit_UUID v)) = "-251D-470A-A062-FA1922DFA9A8"
     /\ code_field (Microbit_UUID v) = Some v)
    /\ (String.length (uuid_text (Nordic_UUID v)) = 36%nat
        /\ substring 0 4 (uuid_text (Nordic_UUID v)) = "EF68"
        /\ substring 8 28 (uuid_text (Nordic_UUID v)) = "-9B35-4933-9B10-52FFA9740042"
        /\ code_field (Nordic_UUID v) = Some v).
Proof.
  intros v Hv. pose proof (codes16_complete v Hv) as Hin. split.
  - apply vendor_uuid_ok_spec.
    exact (proj1 (forallb_forall _ _) Microbit_UUID_checked v Hin).
  - apply vendor_uuid_ok_spec.
    exact (proj1 (forallb_forall _ _) Nordic_UUID_checked v Hin).
Qed.

Lemma vendor_uuid_canonical_witness :
  code_field (Microbit_UUID TEMP_DATA) = Some 0x9250
  /\ uuid_text (Microbit_UUID TEMP_DATA) = "E95D9250-251D-470A-A062-FA1922DFA9A8".
Proof.
  split; [|reflexivity].
  refine (proj2 (proj2 (proj2 (proj1 (vendor_uuid_canonical TEMP_DATA _))))).
  unfold TEMP_DATA. lia.
Defined.

(** Distinct 16-bit codes give distinct UUIDs, and a micro:bit UUID is never
    a Nordic one, whatever the codes. *)
Theorem vendor_uuid_injective :
  forall v w : Z, 0 <= v < 65536 -> 0 <= w < 65536 ->
    (Microbit_UUID v = Microbit_UUID w -> v = w)
    /\ (Nordic_UUID v = Nordic_UUID w -> v = w)
    /\ (forall a b : Z, Microbit_UUID a <> Nordic_UUID b).
Proof.
  intros v w Hv Hw.
  pose proof (codes16_complete v Hv) as Hinv. pose proof (codes16_complete w Hw) as Hinw.
  split; [|split].
  - intros E.
    destruct (vendor_uuid_ok_spec _ _ _ _
                (proj1 (forallb_forall _ _) Microbit_UUID_checked v Hinv)) as (_ & _ & _ & Fv).
    destruct (vendor_uuid_ok_spec _ _ _ _
                (proj1 (forallb_forall _ _) Microbit_UUID_checked w Hinw)) as (_ & _ & _ & Fw).
    rewrite E in Fv. congruence.
  - intros E.
    destruct (vendor_uuid_ok_spec _ _ _ _
                (proj1 (forallb_forall _ _) Nordic_UUID_checked v Hinv)) as (_ & _ & _ & Fv).
    destruct (vendor_uuid_ok_spec _ _ _ _
                (proj1 (forallb_forall _ _) Nordic_UUID_checked w Hinw)) as (_ & _ & _ & Fw).
    rewrite E in Fv. congruence.
  - intros a b E. unfold Microbit_UUID, Nordic_UUID in E. cbn in E. discriminate.
Qed.

Lemma vendor_uuid_injective_witness : TEMP_SERVICE = 0x6100.
Proof.
  refine (proj1 (vendor_uuid_injective TEMP_SERVICE 0x6100 _ _) eq_refl);
    unfold TEMP_SERVICE; lia.
Defined.

(** ** Printed fields *)

Lemma field_05d_checked : forallb field_05d_ok int16_values = true.
Proof. vm_cast_no_check (@eq_refl bool true). Qed.

Lemma field_d_checked : forallb field_d_ok byte_values = true.
Proof. vm_cast_no_check (@eq_refl bool true). Qed.

(** The [{:05d}] field of the accelerometer line, for every signed 16-bit
    value: it reads back to the value, and it is five characters wide except
    below -9999, where the sign makes it six. *)
Theorem accelerator_field_width :
  forall x : Z, -32768 <= x < 32768 ->
    decimal_value (fmt_05d x) = Some x
    /\ String.length (fmt_05d x) = (if (x <? -9999)%Z then 6%nat else 5%nat).
Proof.
  intros x Hx.
  pose proof (proj1 (forallb_forall _ _) field_05d_checked x (int16_values_complete x Hx)) as H.
  unfold field_05d_ok in H. apply andb_prop in H. destruct H as [H1 H2].
  apply Nat.eqb_eq in H2. split; [|exact H2].
  destruct (decimal_value (fmt_05d x)) as [y|]; [|discriminate].
  apply Z.eqb_eq in H1. subst y. reflexivity.
Qed.

Lemma accelerator_field_width_witness :
  decimal_value (fmt_05d (-32768)) = Some (-32768)
  /\ String.length (fmt_05d (-32768)) = 6%nat.
Proof.
  refine (accelerator_field_width (-32768) _). lia.
Defined.

(** The [%d] field of the temperature and button lines, for every byte
    value: it reads back to the value and is printed without padding, in one
    to three digits. *)
Theorem byte_field_plain :
  forall b : byte,
    decimal_value (fmt_d (Z.of_N (Byte.to_N b))) = Some (Z.of_N (Byte.to_N b))
    /\ String.length (fmt_d (Z.of_N (Byte.to_N b))) =
         (if (Z.of_N (Byte.to_N b) <? 10)%Z then 1%nat
          else if (Z.of_N (Byte.to_N b) <? 100)%Z then 2%nat else 3%nat).
Proof.
  intros b. pose proof (byte_range b) as Hb.
  assert (Hin : In (Z.of_N (Byte.to_N b)) byte_values)
    by (apply zrange_complete; lia).
  pose proof (proj1 (forallb_forall _ _) field_d_checked _ Hin) as H.
  unfold field_d_ok in H. apply andb_prop in H. destruct H as [H1 H2].
  apply Nat.eqb_eq in H2. split; [|exact H2].
  destruct (decimal_value (fmt_d (Z.of_N (Byte.to_N b)))) as [y|]; [|discriminate].
  apply Z.eqb_eq in H1. subst y. reflexivity.
Qed.

(** ** Resolution, step by step *)

Ltac close_run :=
  do 2 eexists;
  first
    [ exists (@nil Event); rewrite app_nil_r; split; [reflexivity|]
    | eexists; rewrite <- ?app_assoc; split; [reflexivity|] ].

(** [enable()] talks to the device through lookups only, at most one per
    reference of the wrapper (two, three for the buttons), whatever the state
    of the wrapper and whatever the device answers. *)
Theorem enable_only_looks_up :
  forall (k : Sensor) (dev : Device) (self : wrapper k) (tr : Trace),
    exists o self' ext,
      wrapper_enable k dev self tr = (o, self', tr ++ ext)
      /\ forallb is_lookup ext = true
      /\ (List.length ext <= wrapper_lookups k)%nat
      /\ o <> OutOfFuel.
Proof.
  intros k dev self tr. destruct k; cbn [wrapper wrapper_enable wrapper_lookups] in *.
  - destruct self as [[sv|] [d|]]; unfold_enable; run_cases; close_run;
      (split; [reflexivity|split; [cbn; lia|discriminate]]).
  - destruct self as [[sv|] [d|]]; unfold_enable; run_cases; close_run;
      (split; [reflexivity|split; [cbn; lia|discriminate]]).
  - destruct self as [[sv|] [a|] [b|]]; unfold_enable; run_cases; close_run;
      (split; [reflexivity|split; [cbn; lia|discriminate]]).
Qed.

(** Once the service reference is set, [enable()] never looks the service
    up again: all it issues are characteristic lookups on that service, and
    the reference stays. *)
Theorem enable_reuses_service :
  forall (k : Sensor) (dev : Device) (self : wrapper k) (tr : Trace) (s : SvcRef),
    wrapper_service k self = Some s ->
    exists o self' ext,
      wrapper_enable k dev self tr = (o, self', tr ++ ext)
      /\ forallb (is_char_lookup_on s) ext = true
      /\ wrapper_service k self' = Some s.
Proof.
  intros k dev self tr s Hs.
  destruct k; cbn [wrapper wrapper_enable wrapper_service] in *.
  - destruct self as [sv [d|]]; cbn in Hs; subst sv; unfold_enable; run_cases; close_run;
      (split; [cbn; rewrite ?Z.eqb_refl; reflexivity|reflexivity]).
  - destruct self as [sv [d|]]; cbn in Hs; subst sv; unfold_enable; run_cases; close_run;
      (split; [cbn; rewrite ?Z.eqb_refl; reflexivity|reflexivity]).
  - destruct self as [sv [a|] [b|]]; cbn in Hs; subst sv; unfold_enable; run_cases;
      close_run; (split; [cbn; rewrite ?Z.eqb_refl; reflexivity|reflexivity]).
Qed.

Lemma enable_reuses_service_witness :
  exists o self' ext,
    wrapper_enable Buttons mock20 half_enabled_buttons [] = (o, self', [] ++ ext)
    /\ forallb (is_char_lookup_on 1) ext = true
    /\ wrapper_service Buttons self' = Some 1.
Proof.
  refine (enable_reuses_service Buttons mock20 half_enabled_buttons [] 1 _).
  reflexivity.
Defined.

(** A service lookup that raises leaves the wrapper as it was and the
    exception escapes from [enable()] after that single call. *)
Theorem enable_service_failure :
  forall (k : Sensor) (dev : Device) (self : wrapper k) (tr : Trace) (e : exn),
    wrapper_service k self = None ->
    on_getServiceByUUID dev tr (wrapper_svcUUID k) = Raises e ->
    wrapper_enable k dev self tr =
      (Raise e, self, tr ++ [EGetServiceByUUID (wrapper_svcUUID k)]).
Proof.
  intros k dev self tr e Hs He.
  destruct k; cbn [wrapper wrapper_enable wrapper_service wrapper_svcUUID] in *.
  - unfold TemperatureService.enable.
    rewrite (bind_ok _ _ _ _ _ self self tr) by reflexivity.
    rewrite Hs. cbn [is_None when]. unfold getServiceByUUID.
    rewrite (bind_raise _ _ _ _ _ e self (tr ++ [EGetServiceByUUID TemperatureService.svcUUID]));
      [reflexivity|].
    apply bind_raise, call_raises. exact He.
  - unfold AcceleratorService.enable.
    rewrite (bind_ok _ _ _ _ _ self self tr) by reflexivity.
    rewrite Hs. cbn [is_None when]. unfold getServiceByUUID.
    rewrite (bind_raise _ _ _ _ _ e self (tr ++ [EGetServiceByUUID AcceleratorService.svcUUID]));
      [reflexivity|].
    apply bind_raise, call_raises. exact He.
  - unfold ButtonsService.enable.
    rewrite (bind_ok _ _ _ _ _ self self tr) by reflexivity.
    rewrite Hs. cbn [is_None when]. unfold getServiceByUUID.
    rewrite (bind_raise _ _ _ _ _ e self (tr ++ [EGetServiceByUUID ButtonsService.svcUUID]));
      [reflexivity|].
    apply bind_raise, call_raises. exact He.
Qed.

Lemma enable_service_failure_witness :
  wrapper_enable Accelerometer mock_no_service AcceleratorService.init [] =
    (Raise (BTLEException 4 "Service not found" None), AcceleratorService.init,
     [EGetServiceByUUID AcceleratorService.svcUUID]).
Proof.
  refine (enable_service_failure Accelerometer mock_no_service AcceleratorService.init []
            (BTLEException 4 "Service not found" None) _ _); reflexivity.
Defined.

Lemma accelerator_enable_fresh dev tr s c r :
  on_getServiceByUUID dev tr AcceleratorService.svcUUID = Returns s ->
  on_getCharacteristics dev (tr ++ [EGetServiceByUUID AcceleratorService.svcUUID]) s
    AcceleratorService.dataUUID = Returns (c :: r) ->
  AcceleratorService.enable dev AcceleratorService.init tr =
    (Ok tt,
     {| AcceleratorService.service := Some s; AcceleratorService.data := Some c |},
     tr ++ [EGetServiceByUUID AcceleratorService.svcUUID;
            EGetCharacteristics s AcceleratorService.dataUUID]).
Proof.
  intros Hs Hc. unfold AcceleratorService.enable.
  rewrite (bind_ok _ _ _ _ _ AcceleratorService.init AcceleratorService.init tr)
    by reflexivity.
  cbn [AcceleratorService.service AcceleratorService.init is_None when].
  rewrite (bind_ok _ _ _ _ _ tt
             (AcceleratorService.set_service s AcceleratorService.init)
             (tr ++ [EGetServiceByUUID AcceleratorService.svcUUID])).
  2:{ unfold getServiceByUUID.
      rewrite (bind_ok _ _ _ _ _ s AcceleratorService.init
                 (tr ++ [EGetServiceByUUID AcceleratorService.svcUUID]))
        by (apply call_returns; exact Hs).
      reflexivity. }
  rewrite (bind_ok _ _ _ _ _ (AcceleratorService.set_service s AcceleratorService.init)
             (AcceleratorService.set_service s AcceleratorService.init)
             (tr ++ [EGetServiceByUUID AcceleratorService.svcUUID])) by reflexivity.
  cbn [AcceleratorService.set_service AcceleratorService.service AcceleratorService.data
       AcceleratorService.init is_None when deref].
  rewrite (bind_ok _ _ _ _ _ s _ (tr ++ [EGetServiceByUUID AcceleratorService.svcUUID]))
    by reflexivity.
  unfold getCharacteristics.
  rewrite (bind_ok _ _ _ _ _ (c :: r) _
             ((tr ++ [EGetServiceByUUID AcceleratorService.svcUUID])
              ++ [EGetCharacteristics s AcceleratorService.dataUUID]))
    by (apply call_returns; exact Hc).
  cbn [index0].
  rewrite (bind_ok _ _ _ _ _ c _
             ((tr ++ [EGetServiceByUUID AcceleratorService.svcUUID])
              ++ [EGetCharacteristics s AcceleratorService.dataUUID])) by reflexivity.
  unfold modify. rewrite <- app_assoc. reflexivity.
Qed.

(** One resolution step of the buttons wrapper: [if ref is None: ref =
    self.service.getCharacteristics(uuid)[0]]. *)
Lemma buttons_char_step dev self tr s u c r (set : ChrRef -> ButtonsService.t -> ButtonsService.t) :
  ButtonsService.service self = Some s ->
  on_getCharacteristics dev tr s u = Returns (c :: r) ->
  (svc <- deref (ButtonsService.service self) ;;
   chars <- getCharacteristics svc u ;;
   c <- index0 chars ;;
   modify (set c)) dev self tr =
  (Ok tt, set c self, tr ++ [EGetCharacteristics s u]).
Proof.
  intros Hs Hc. rewrite Hs. cbn [deref].
  rewrite (bind_ok _ _ _ _ _ s self tr) by reflexivity.
  unfold getCharacteristics.
  rewrite (bind_ok _ _ _ _ _ (c :: r) self (tr ++ [EGetCharacteristics s u]))
    by (apply call_returns; exact Hc).
  cbn [index0].
  rewrite (bind_ok _ _ _ _ _ c self (tr ++ [EGetCharacteristics s u])) by reflexivity.
  reflexivity.
Qed.

Lemma buttons_enable_fresh dev tr s ca ra cb rb :
  on_getServiceByUUID dev tr ButtonsService.svcUUID = Returns s ->
  on_getCharacteristics dev (tr ++ [EGetServiceByUUID ButtonsService.svcUUID]) s
    ButtonsService.dataUUID_btnA = Returns (ca :: ra) ->
  on_getCharacteristics dev
    (tr ++ [EGetServiceByUUID ButtonsService.svcUUID;
            EGetCharacteristics s ButtonsService.dataUUID_btnA]) s
    ButtonsService.dataUUID_btnB = Returns (cb :: rb) ->
  ButtonsService.enable dev ButtonsService.init tr =
    (Ok tt,
     {| ButtonsService.service := Some s; ButtonsService.dataA := Some ca;
        ButtonsService.dataB := Some cb |},
     tr ++ [EGetServiceByUUID ButtonsService.svcUUID;
            EGetCharacteristics s ButtonsService.dataUUID_btnA;
            EGetCharacteristics s ButtonsService.dataUUID_btnB]).
Proof.
  intros Hs Ha Hb. unfold ButtonsService.enable.
  rewrite (bind_ok _ _ _ _ _ ButtonsService.init ButtonsService.init tr) by reflexivity.
  cbn [ButtonsService.service ButtonsService.init is_None when].
  rewrite (bind_ok _ _ _ _ _ tt (ButtonsService.set_service s ButtonsService.init)
             (tr ++ [EGetServiceByUUID ButtonsService.svcUUID])).
  2:{ unfold getServiceByUUID.
      rewrite (bind_ok _ _ _ _ _ s ButtonsService.init
                 (tr ++ [EGetServiceByUUID ButtonsService.svcUUID]))
        by (apply call_returns; exact Hs).
      reflexivity. }
  set (s1 := ButtonsService.set_service s ButtonsService.init).
  rewrite (bind_ok _ _ _ _ _ s1 s1 (tr ++ [EGetServiceByUUID ButtonsService.svcUUID]))
    by reflexivity.
  change (is_None (ButtonsService.dataA s1)) with true. cbn [when].
  rewrite (bind_ok _ _ _ _ _ tt (ButtonsService.set_dataA ca s1)
             ((tr ++ [EGetServiceByUUID ButtonsService.svcUUID])
              ++ [EGetCharacteristics s ButtonsService.dataUUID_btnA]))
    by (apply (buttons_char_step dev s1 _ s _ ca ra ButtonsService.set_dataA);
        [reflexivity|exact Ha]).
  set (s2 := ButtonsService.set_dataA ca s1).
  rewrite <- app_assoc.
  change ([EGetServiceByUUID ButtonsService.svcUUID]
          ++ [EGetCharacteristics s ButtonsService.dataUUID_btnA])
    with [EGetServiceByUUID ButtonsService.svcUUID;
          EGetCharacteristics s ButtonsService.dataUUID_btnA].
  rewrite (bind_ok _ _ _ _ _ s2 s2
             (tr ++ [EGetServiceByUUID ButtonsService.svcUUID;
                     EGetCharacteristics s ButtonsService.dataUUID_btnA]))
    by reflexivity.
  change (is_None (ButtonsService.dataB s2)) with true. cbn [when].
  rewrite (buttons_char_step dev s2 _ s _ cb rb ButtonsService.set_dataB);
    [|reflexivity|exact Hb].
  rewrite <- app_assoc. reflexivity.
Qed.

(** A first [enable()] on a device that has the service and the
    characteristics: one service lookup with the wrapper's service UUID, one
    characteristic lookup per characteristic UUID on the service found, in
    source order, and each reference becomes the first entry of the list the
    device returned, further matches being ignored. *)
Theorem enable_resolves_first_match :
  forall (dev : Device) (tr : Trace) (s : SvcRef),
    (forall c r,
        on_getServiceByUUID dev tr TemperatureService.svcUUID = Returns s ->
        on_getCharacteristics dev (tr ++ [EGetServiceByUUID TemperatureService.svcUUID]) s
          TemperatureService.dataUUID = Returns (c :: r) ->
        TemperatureService.enable dev TemperatureService.init tr =
          (Ok tt,
           {| TemperatureService.service := Some s; TemperatureService.data := Some c |},
           tr ++ [EGetServiceByUUID TemperatureService.svcUUID;
                  EGetCharacteristics s TemperatureService.dataUUID]))
    /\ (forall c r,
        on_getServiceByUUID dev tr AcceleratorService.svcUUID = Returns s ->
        on_getCharacteristics dev (tr ++ [EGetServiceByUUID AcceleratorService.svcUUID]) s
          AcceleratorService.dataUUID = Returns (c :: r) ->
        AcceleratorService.enable dev AcceleratorService.init tr =
          (Ok tt,
           {| AcceleratorService.service := Some s; AcceleratorService.data := Some c |},
           tr ++ [EGetServiceByUUID AcceleratorService.svcUUID;
                  EGetCharacteristics s AcceleratorService.dataUUID]))
    /\ (forall ca ra cb rb,
        on_getServiceByUUID dev tr ButtonsService.svcUUID = Returns s ->
        on_getCharacteristics dev (tr ++ [EGetServiceByUUID ButtonsService.svcUUID]) s
          ButtonsService.dataUUID_btnA = Returns (ca :: ra) ->
        on_getCharacteristics dev
          (tr ++ [EGetServiceByUUID ButtonsService.svcUUID;
                  EGetCharacteristics s ButtonsService.dataUUID_btnA]) s
          ButtonsService.dataUUID_btnB = Returns (cb :: rb) ->
        ButtonsService.enable dev ButtonsService.init tr =
          (Ok tt,
           {| ButtonsService.service := Some s; ButtonsService.dataA := Some ca;
              ButtonsService.dataB := Some cb |},
           tr ++ [EGetServiceByUUID ButtonsService.svcUUID;
                  EGetCharacteristics s ButtonsService.dataUUID_btnA;
                  EGetCharacteristics s ButtonsService.dataUUID_btnB])).
Proof.
  intros dev tr s. split; [|split].
  - intros c r. apply temperature_enable_fresh.
  - intros c r. apply accelerator_enable_fresh.
  - intros ca ra cb rb. apply buttons_enable_fresh.
Qed.

Lemma enable_resolves_first_match_witness :
  ButtonsService.enable mock_two_matches ButtonsService.init [] =
    (Ok tt,
     {| ButtonsService.service := Some 1; ButtonsService.dataA := Some 30;
        ButtonsService.dataB := Some 31 |},
     [EGetServiceByUUID ButtonsService.svcUUID;
      EGetCharacteristics 1 ButtonsService.dataUUID_btnA;
      EGetCharacteristics 1 ButtonsService.dataUUID_btnB]).
Proof.
  refine (proj2 (proj2 (enable_resolves_first_match mock_two_matches [] 1))
            30 [99] 31 [99] _ _ _); reflexivity.
Defined.



(** ** Reads *)

Ltac unfold_read :=
  unfold TemperatureService.read, AcceleratorService.read, ButtonsService.read,
    ButtonsService.read_btnA, ButtonsService.read_btnB,
    bind, get, deref, Characteristic_read, call, ord, unpack_hhh, ret, raise in *.

Ltac close_read :=
  eexists;
  first
    [ exists (@nil Event); rewrite app_nil_r; split; [reflexivity|]
    | eexists; rewrite <- ?app_assoc; split; [reflexivity|] ].

(** No read method changes its wrapper or resolves anything: each leaves
    the references as they were and issues characteristic reads only, at most
    one, and at most two for [ButtonsService.read]. *)
Theorem reads_leave_wrapper :
  forall (dev : Device) (tr : Trace),
    (forall self, exists o ext,
        TemperatureService.read dev self tr = (o, self, tr ++ ext)
        /\ forallb is_read ext = true /\ (List.length ext <= 1)%nat /\ o <> OutOfFuel)
    /\ (forall self, exists o ext,
        AcceleratorService.read dev self tr = (o, self, tr ++ ext)
        /\ forallb is_read ext = true /\ (List.length ext <= 1)%nat /\ o <> OutOfFuel)
    /\ (forall self, exists o ext,
        ButtonsService.read_btnA dev self tr = (o, self, tr ++ ext)
        /\ forallb is_read ext = true /\ (List.length ext <= 1)%nat /\ o <> OutOfFuel)
    /\ (forall self, exists o ext,
        ButtonsService.read_btnB dev self tr = (o, self, tr ++ ext)
        /\ forallb is_read ext = true /\ (List.length ext <= 1)%nat /\ o <> OutOfFuel)
    /\ (forall self, exists o ext,
        ButtonsService.read dev self tr = (o, self, tr ++ ext)
        /\ forallb is_read ext = true /\ (List.length ext <= 2)%nat /\ o <> OutOfFuel).
Proof.
  intros dev tr. repeat split; intros self; unfold_read; run_cases; close_read;
    (split; [reflexivity|split; [cbn; lia|discriminate]]).
Qed.

(** The one-byte reads on an enabled wrapper: a payload that is not exactly
    one byte long (empty, or two bytes and more) makes [ord] raise
    [TypeError], after the characteristic read has been issued. *)
Theorem single_byte_reads_reject_other_lengths :
  forall (dev : Device) (tr : Trace) (c : ChrRef) (payload : bytes),
    on_read dev tr c = Returns payload ->
    List.length payload <> 1%nat ->
    (forall self, TemperatureService.data self = Some c ->
        TemperatureService.read dev self tr = (Raise TypeError, self, tr ++ [ERead c]))
    /\ (forall self, ButtonsService.dataA self = Some c ->
        ButtonsService.read_btnA dev self tr = (Raise TypeError, self, tr ++ [ERead c]))
    /\ (forall self, ButtonsService.dataB self = Some c ->
        ButtonsService.read_btnB dev self tr = (Raise TypeError, self, tr ++ [ERead c])).
Proof.
  intros dev tr c payload Hread Hlen.
  assert (Hord : forall S (s : S) t, @ord S payload dev s t = (Raise TypeError, s, t)).
  { intros S s t. destruct payload as [|b [|b' r]]; try reflexivity.
    exfalso. apply Hlen. reflexivity. }
  split; [|split]; intros self Hdata.
  - unfold TemperatureService.read.
    rewrite (bind_ok _ _ _ _ _ self self tr) by reflexivity.
    rewrite Hdata. cbn [deref].
    rewrite (bind_ok _ _ _ _ _ c self tr) by reflexivity.
    unfold Characteristic_read.
    rewrite (bind_ok _ _ _ _ _ payload self (tr ++ [ERead c]))
      by (apply call_returns; exact Hread).
    rewrite run_bind, Hord. reflexivity.
  - unfold ButtonsService.read_btnA.
    rewrite (bind_ok _ _ _ _ _ self self tr) by reflexivity.
    rewrite Hdata. cbn [deref].
    rewrite (bind_ok _ _ _ _ _ c self tr) by reflexivity.
    unfold Characteristic_read.
    rewrite (bind_ok _ _ _ _ _ payload self (tr ++ [ERead c]))
      by (apply call_returns; exact Hread).
    apply Hord.
  - unfold ButtonsService.read_btnB.
    rewrite (bind_ok _ _ _ _ _ self self tr) by reflexivity.
    rewrite Hdata. cbn [deref].
    rewrite (bind_ok _ _ _ _ _ c self tr) by reflexivity.
    unfold Characteristic_read.
    rewrite (bind_ok _ _ _ _ _ payload self (tr ++ [ERead c]))
      by (apply call_returns; exact Hread).
    apply Hord.
Qed.

Lemma single_byte_reads_reject_other_lengths_witness :
  TemperatureService.read (mock (fun _ => []))
    (TemperatureService.set_data 10 TemperatureService.init) [] =
    (Raise TypeError, TemperatureService.set_data 10 TemperatureService.init, [ERead 10]).
Proof.
  refine (proj1 (single_byte_reads_reject_other_lengths (mock (fun _ => [])) [] 10 [] _ _)
            (TemperatureService.set_data 10 TemperatureService.init) _).
  - reflexivity.
  - discriminate.
  - reflexivity.
Defined.

Lemma read_btnA_raises dev self tr c e :
  ButtonsService.dataA self = Some c ->
  on_read dev tr c = Raises e ->
  ButtonsService.read_btnA dev self tr = (Raise e, self, tr ++ [ERead c]).
Proof.
  intros Hdata Hread. unfold ButtonsService.read_btnA.
  rewrite (bind_ok _ _ _ _ _ self self tr) by reflexivity.
  rewrite Hdata. cbn [deref].
  rewrite (bind_ok _ _ _ _ _ c self tr) by reflexivity.
  unfold Characteristic_read.
  apply bind_raise, call_raises. exact Hread.
Qed.

Lemma read_btnB_raises dev self tr c e :
  ButtonsService.dataB self = Some c ->
  on_read dev tr c = Raises e ->
  ButtonsService.read_btnB dev self tr = (Raise e, self, tr ++ [ERead c]).
Proof.
  intros Hdata Hread. unfold ButtonsService.read_btnB.
  rewrite (bind_ok _ _ _ _ _ self self tr) by reflexivity.
  rewrite Hdata. cbn [deref].
  rewrite (bind_ok _ _ _ _ _ c self tr) by reflexivity.
  unfold Characteristic_read.
  apply bind_raise, call_raises. exact Hread.
Qed.

(** [ButtonsService.read] on an enabled wrapper reads button A, then button
    B, the second read being answered after the first one, and returns the
    two byte values as a pair.  If the read of A fails, B is not read; if
    the read of B fails, the value of A is dropped with the exception. *)
Theorem buttons_read_sequential :
  forall (dev : Device) (self : ButtonsService.t) (tr : Trace) (ca cb : ChrRef),
    ButtonsService.dataA self = Some ca ->
    ButtonsService.dataB self = Some cb ->
    (forall a b,
        on_read dev tr ca = Returns [a] ->
        on_read dev (tr ++ [ERead ca]) cb = Returns [b] ->
        ButtonsService.read dev self tr =
          (Ok (Z.of_N (Byte.to_N a), Z.of_N (Byte.to_N b)), self,
           tr ++ [ERead ca; ERead cb]))
    /\ (forall e,
        on_read dev tr ca = Raises e ->
        ButtonsService.read dev self tr = (Raise e, self, tr ++ [ERead ca]))
    /\ (forall a e,
        on_read dev tr ca = Returns [a] ->
        on_read dev (tr ++ [ERead ca]) cb = Raises e ->
        ButtonsService.read dev self tr = (Raise e, self, tr ++ [ERead ca; ERead cb])).
Proof.
  intros dev self tr ca cb HA HB. split; [|split].
  - intros a b Ha Hb. unfold ButtonsService.read.
    rewrite (bind_ok _ _ _ _ _ _ _ _ (read_btnA_ok dev self tr ca a HA Ha)).
    rewrite (bind_ok _ _ _ _ _ _ _ _ (read_btnB_ok dev self _ cb b HB Hb)).
    unfold ret. rewrite <- app_assoc. reflexivity.
  - intros e He. unfold ButtonsService.read.
    apply bind_raise, read_btnA_raises; assumption.
  - intros a e Ha He. unfold ButtonsService.read.
    rewrite (bind_ok _ _ _ _ _ _ _ _ (read_btnA_ok dev self tr ca a HA Ha)).
    rewrite (bind_raise _ _ _ _ _ _ _ _ (read_btnB_raises dev self _ cb e HB He)).
    rewrite <- app_assoc. reflexivity.
Qed.

Lemma buttons_read_sequential_witness :
  ButtonsService.read mock20 (Microbit.buttons enabled_microbit) [] =
    (Ok (1, 0), Microbit.buttons enabled_microbit, [ERead 30; ERead 31]).
Proof.
  refine (proj1 (buttons_read_sequential mock20 (Microbit.buttons enabled_microbit) []
                   30 31 _ _) x01 x00 _ _); reflexivity.
Defined.

(** ** One round of the loop *)

Lemma accelerator_read_exact dev self tr c x0 x1 y0 y1 z0 z1 :
  AcceleratorService.data self = Some c ->
  on_read dev tr c = Returns [x0; x1; y0; y1; z0; z1] ->
  AcceleratorService.read dev self tr =
    (Ok (le_int16_spec x0 x1, le_int16_spec y0 y1, le_int16_spec z0 z1), self,
     tr ++ [ERead c]).
Proof.
  intros Hdata Hread. unfold AcceleratorService.read.
  rewrite (bind_ok _ _ _ _ _ self self tr) by reflexivity.
  rewrite Hdata. cbn [deref].
  rewrite (bind_ok _ _ _ _ _ c self tr) by reflexivity.
  unfold Characteristic_read.
  rewrite (bind_ok _ _ _ _ _ [x0; x1; y0; y1; z0; z1] self (tr ++ [ERead c]))
    by (apply call_returns; exact Hread).
  cbn [unpack_hhh]. rewrite !int16_le_refines. reflexivity.
Qed.

Lemma accelerator_step_exact dev mb tr c x0 x1 y0 y1 z0 z1 :
  AcceleratorService.data (Microbit.accelerator mb) = Some c ->
  on_read dev tr c = Returns [x0; x1; y0; y1; z0; z1] ->
  (xyz <- Microbit.on_accelerator AcceleratorService.read ;;
   let '(x, y, z) := xyz in
   print ("Accelerator: x: " ++ fmt_05d x ++ "   y: " ++ fmt_05d y
          ++ "   z: " ++ fmt_05d z)%string) dev mb tr =
  (Ok tt, mb,
   tr ++ [ERead c;
          EPrint (accelerator_line (le_int16_spec x0 x1) (le_int16_spec y0 y1)
                    (le_int16_spec z0 z1))]).
Proof.
  intros Hdata Hread.
  rewrite (bind_ok _ _ _ _ _ _ mb _
             (zoom_accelerator_same _ dev mb tr _ _
                (accelerator_read_exact dev _ tr c x0 x1 y0 y1 z0 z1 Hdata Hread))).
  unfold print, accelerator_line. rewrite <- app_assoc. reflexivity.
Qed.

Lemma buttons_step_exact dev mb tr ca cb a b :
  ButtonsService.dataA (Microbit.buttons mb) = Some ca ->
  ButtonsService.dataB (Microbit.buttons mb) = Some cb ->
  on_read dev tr ca = Returns [a] ->
  on_read dev (tr ++ [ERead ca]) cb = Returns [b] ->
  (ab <- Microbit.on_buttons ButtonsService.read ;;
   let '(a, b) := ab in
   print ("buttons: A: " ++ fmt_d a ++ "   B: " ++ fmt_d b)%string) dev mb tr =
  (Ok tt, mb,
   tr ++ [ERead ca; ERead cb;
          EPrint (buttons_line (Z.of_N (Byte.to_N a)) (Z.of_N (Byte.to_N b)))]).
Proof.
  intros HA HB Ha Hb.
  assert (E : ButtonsService.read dev (Microbit.buttons mb) tr =
              (Ok (Z.of_N (Byte.to_N a), Z.of_N (Byte.to_N b)), Microbit.buttons mb,
               tr ++ [ERead ca; ERead cb])).
  { unfold ButtonsService.read.
    rewrite (bind_ok _ _ _ _ _ _ _ _ (read_btnA_ok dev _ tr ca a HA Ha)).
    rewrite (bind_ok _ _ _ _ _ _ _ _ (read_btnB_ok dev _ _ cb b HB Hb)).
    unfold ret. rewrite <- app_assoc. reflexivity. }
  rewrite (bind_ok _ _ _ _ _ _ mb _ (zoom_buttons_same _ dev mb tr _ _ E)).
  unfold print, buttons_line. rewrite <- app_assoc. reflexivity.
Qed.

(** One round on a healthy device, for any choice of sensors: the
    requested sensors are read in the order temperature, accelerometer,
    button A, button B, and each sensor's line is printed right after its
    read(s), in the formats [Temperature: <v>C], [Accelerator: x: .. y: ..
    z: ..] with the three decoded axes, and [buttons: A: <a>   B: <b>]. *)
Theorem poll_round_order_and_lines :
  forall (args : Args) (dev : Device) (mb : Microbit.t) (tr : Trace)
         (ct ca cA cB : ChrRef) (bt a b x0 x1 y0 y1 z0 z1 : byte),
    (temperature args = true ->
     TemperatureService.data (Microbit.temperature mb) = Some ct
     /\ forall t, on_read dev t ct = Returns [bt]) ->
    (accelerator args = true ->
     AcceleratorService.data (Microbit.accelerator mb) = Some ca
     /\ forall t, on_read dev t ca = Returns [x0; x1; y0; y1; z0; z1]) ->
    (buttons args = true ->
     ButtonsService.dataA (Microbit.buttons mb) = Some cA
     /\ ButtonsService.dataB (Microbit.buttons mb) = Some cB
     /\ (forall t, on_read dev t cA = Returns [a])
     /\ (forall t, on_read dev t cB = Returns [b])) ->
    poll_round args dev mb tr =
      (Ok tt, mb,
       tr ++ (if temperature args
              then [ERead ct; EPrint (temperature_line (Z.of_N (Byte.to_N bt)))]
              else [])
          ++ (if accelerator args
              then [ERead ca;
                    EPrint (accelerator_line (le_int16_spec x0 x1) (le_int16_spec y0 y1)
                              (le_int16_spec z0 z1))]
              else [])
          ++ (if buttons args
              then [ERead cA; ERead cB;
                    EPrint (buttons_line (Z.of_N (Byte.to_N a)) (Z.of_N (Byte.to_N b)))]
              else [])).
Proof.
  intros args dev mb tr ct ca cA cB bt a b x0 x1 y0 y1 z0 z1 HT HA HB.
  unfold poll_round.
  set (e1 := if temperature args
             then [ERead ct; EPrint (temperature_line (Z.of_N (Byte.to_N bt)))] else []).
  set (e2 := if accelerator args
             then [ERead ca;
                   EPrint (accelerator_line (le_int16_spec x0 x1) (le_int16_spec y0 y1)
                             (le_int16_spec z0 z1))] else []).
  rewrite (bind_ok _ _ _ _ _ tt mb (tr ++ e1)).
  2:{ unfold e1. destruct (temperature args); cbn [when].
      - destruct (HT eq_refl) as [Hd Hr].
        exact (temperature_step_ok dev mb tr ct bt Hd (Hr tr)).
      - unfold ret. rewrite app_nil_r. reflexivity. }
  rewrite (bind_ok _ _ _ _ _ tt mb ((tr ++ e1) ++ e2)).
  2:{ unfold e2. destruct (accelerator args); cbn [when].
      - destruct (HA eq_refl) as [Hd Hr].
        exact (accelerator_step_exact dev mb _ ca x0 x1 y0 y1 z0 z1 Hd (Hr _)).
      - unfold ret. rewrite app_nil_r. reflexivity. }
  destruct (buttons args); cbn [when].
  - destruct (HB eq_refl) as (HdA & HdB & HrA & HrB).
    rewrite (buttons_step_exact dev mb _ cA cB a b HdA HdB (HrA _) (HrB _)).
    rewrite <- !app_assoc. reflexivity.
  - unfold ret. rewrite app_nil_r, <- !app_assoc. reflexivity.
Qed.

Lemma poll_round_order_and_lines_witness :
  poll_round (with_sensors true true true (default_args mac0)) mock20 enabled_microbit [] =
    (Ok tt, enabled_microbit,
     [ERead 10; EPrint "Temperature: 20C";
      ERead 20; EPrint "Accelerator: x: 00001   y: -0002   z: -32768";
      ERead 30; ERead 31; EPrint "buttons: A: 1   B: 0"]).
Proof.
  refine (poll_round_order_and_lines (with_sensors true true true (default_args mac0))
            mock20 enabled_microbit [] 10 20 30 31 x14 x01 x00 x01 x00 xfe xff x00 x80
            _ _ _); intros _; repeat split.
Defined.

Lemma temperature_read_raises dev self tr c e :
  TemperatureService.data self = Some c ->
  on_read dev tr c = Raises e ->
  TemperatureService.read dev self tr = (Raise e, self, tr ++ [ERead c]).
Proof.
  intros Hdata Hread. unfold TemperatureService.read.
  rewrite (bind_ok _ _ _ _ _ self self tr) by reflexivity.
  rewrite Hdata. cbn [deref].
  rewrite (bind_ok _ _ _ _ _ c self tr) by reflexivity.
  unfold Characteristic_read.
  apply bind_raise, call_raises. exact Hread.
Qed.

Lemma accelerator_read_raises dev self tr c e :
  AcceleratorService.data self = Some c ->
  on_read dev tr c = Raises e ->
  AcceleratorService.read dev self tr = (Raise e, self, tr ++ [ERead c]).
Proof.
  intros Hdata Hread. unfold AcceleratorService.read.
  rewrite (bind_ok _ _ _ _ _ self self tr) by reflexivity.
  rewrite Hdata. cbn [deref].
  rewrite (bind_ok _ _ _ _ _ c self tr) by reflexivity.
  unfold Characteristic_read.
  apply bind_raise, call_raises. exact Hread.
Qed.

(** A read that fails aborts the round at once.  When the temperature read
    raises, nothing is printed and the accelerometer and the buttons are not
    read.  When the temperature was read and the accelerometer read raises,
    the temperature line has already been printed, and the buttons are not
    read. *)
Theorem poll_round_stops_at_failed_read :
  forall (args : Args) (dev : Device) (mb : Microbit.t) (tr : Trace) (e : exn),
    (forall ct,
        temperature args = true ->
        TemperatureService.data (Microbit.temperature mb) = Some ct ->
        on_read dev tr ct = Raises e ->
        poll_round args dev mb tr = (Raise e, mb, tr ++ [ERead ct]))
    /\ (forall ct bt ca,
        temperature args = true -> accelerator args = true ->
        TemperatureService.data (Microbit.temperature mb) = Some ct ->
        AcceleratorService.data (Microbit.accelerator mb) = Some ca ->
        on_read dev tr ct = Returns [bt] ->
        on_read dev (tr ++ [ERead ct; EPrint (temperature_line (Z.of_N (Byte.to_N bt)))]) ca
          = Raises e ->
        poll_round args dev mb tr =
          (Raise e, mb,
           tr ++ [ERead ct; EPrint (temperature_line (Z.of_N (Byte.to_N bt))); ERead ca])).
Proof.
  intros args dev mb tr e. split.
  - intros ct Ht Hd Hr. unfold poll_round. rewrite Ht. cbn [when].
    apply bind_raise, bind_raise, zoom_temperature_same, temperature_read_raises; assumption.
  - intros ct bt ca Ht Ha HdT HdA HrT HrA. unfold poll_round. rewrite Ht, Ha. cbn [when].
    rewrite (bind_ok _ _ _ _ _ _ _ _ (temperature_step_ok dev mb tr ct bt HdT HrT)).
    rewrite (bind_raise _ _ _ _ _ e mb
               ((tr ++ [ERead ct; EPrint (temperature_line (Z.of_N (Byte.to_N bt)))])
                ++ [ERead ca])).
    + rewrite <- app_assoc. reflexivity.
    + apply bind_raise, zoom_accelerator_same, accelerator_read_raises; assumption.
Qed.

Lemma poll_round_stops_at_failed_read_witness :
  poll_round (with_sensors true true true (default_args mac0))
    (mock_read_fails_after 1) enabled_microbit [] =
    (Raise (BTLEException 1 "Device disconnected" None), enabled_microbit,
     [ERead 10; EPrint "Temperature: 20C"; ERead 20]).
Proof.
  refine (proj2 (poll_round_stops_at_failed_read
                   (with_sensors true true true (default_args mac0))
                   (mock_read_fails_after 1) enabled_microbit []
                   (BTLEException 1 "Device disconnected" None))
            10 x14 20 _ _ _ _ _ _); reflexivity.
Defined.

(** ** The polling flow as a whole *)

Lemma bind_ext {S A B} (m : M S A) (k k' : A -> M S B) :
  (forall a dev s tr, k a dev s tr = k' a dev s tr) ->
  forall dev s tr, bind m k dev s tr = bind m k' dev s tr.
Proof.
  intros H dev s tr. rewrite !run_bind.
  destruct (m dev s tr) as [[[a|e|] s'] tr']; auto.
Qed.

Lemma poll_loop_ignores_interface fuel args i :
  forall counter dev mb tr,
    poll_loop fuel (with_interface i args) counter dev mb tr =
      poll_loop fuel args counter dev mb tr.
Proof.
  induction fuel as [|fuel IH]; intros counter dev mb tr; [reflexivity|].
  cbn [poll_loop].
  change (poll_round (with_interface i args)) with (poll_round args).
  change (count (with_interface i args)) with (count args).
  change (t (with_interface i args)) with (t args).
  apply bind_ext. intros _ dev1 s1 tr1.
  destruct (counter >=? count args); [reflexivity|].
  apply bind_ext. intros _ dev2 s2 tr2. apply IH.
Qed.

(** The polling flow never looks at [--interface]: the connection is made
    with no interface whatever the option says, and the whole run (outcome
    and trace) is the same for every value of it. *)
Theorem polling_ignores_interface :
  forall (fuel : nat) (args : Args) (dev : Device) (i : Z),
    pair_flag args = false ->
    run_main fuel (with_interface i args) dev = run_main fuel args dev.
Proof.
  intros fuel args dev i Hp. unfold run_main.
  assert (E : main fuel (with_interface i args) dev tt [] = main fuel args dev tt []).
  { unfold main.
    change (pair_flag (with_interface i args)) with (pair_flag args).
    change (services_requested (with_interface i args)) with (services_requested args).
    change (debug (with_interface i args)) with (debug args).
    rewrite Hp.
    apply bind_ext. intros _ d1 s1 t1.
    apply bind_ext. intros _ d2 s2 t2.
    apply bind_ext. intros _ d3 s3 t3.
    unfold poll_flow.
    change (mac_address (with_interface i args)) with (mac_address args).
    apply bind_ext. intros _ d4 s4 t4.
    apply bind_ext. intros _ d5 s5 t5.
    unfold with_object.
    assert (E : forall d s tr,
               (print "Setting security" ;;; set_security (with_interface i args) ;;;
                try_finally (try_body fuel (with_interface i args)) disconnect) d s tr =
               (print "Setting security" ;;; set_security args ;;;
                try_finally (try_body fuel args) disconnect) d s tr).
    { apply bind_ext. intros _ d6 s6 t6.
      change (set_security (with_interface i args)) with (set_security args).
      apply bind_ext. intros _ d7 s7 t7.
      unfold try_finally.
      assert (Eb : try_body fuel (with_interface i args) d7 s7 t7 =
                   try_body fuel args d7 s7 t7).
      { unfold try_body.
        change (temperature (with_interface i args)) with (temperature args).
        change (accelerator (with_interface i args)) with (accelerator args).
        change (buttons (with_interface i args)) with (buttons args).
        apply bind_ext. intros _ d8 s8 t8.
        apply bind_ext. intros _ d9 s9 t9.
        apply bind_ext. intros _ d10 s10 t10.
        apply bind_ext. intros _ d11 s11 t11.
        apply poll_loop_ignores_interface. }
      rewrite Eb. reflexivity. }
    rewrite E. reflexivity. }
  rewrite E. reflexivity.
Qed.

Lemma polling_ignores_interface_witness :
  run_main 2 (with_interface 7 (args_n2_temperature mac0)) mock20 =
    run_main 2 (args_n2_temperature mac0) mock20.
Proof.
  refine (polling_ignores_interface 2 (args_n2_temperature mac0) mock20 7 _).
  reflexivity.
Defined.

Lemma supported_security_level args dev :
  supported_security args = true ->
  exists level,
    (level = "low" \/ level = "medium")
    /\ forall s tr, set_security args dev s tr = setSecurityLevel level dev s tr.
Proof.
  unfold supported_security, set_security, str_in. cbn [existsb]. intros H.
  destruct (String.eqb (security args) "low"); cbn [orb];
    [exists "low"; split; [left; reflexivity|reflexivity]|].
  destruct (String.eqb (security args) "no-pairing"); cbn [orb];
    [exists "low"; split; [left; reflexivity|reflexivity]|].
  destruct (String.eqb (security args) "just-works"); cbn [orb];
    [exists "medium"; split; [right; reflexivity|reflexivity]|].
  destruct (String.eqb (security args) "medium"); cbn [orb];
    [exists "medium"; split; [right; reflexivity|reflexivity]|].
  cbn in H. discriminate.
Qed.

(** The run of the guarded block and of its finaliser, from the trace at
    which the block is entered. *)
Lemma guarded_block_run fuel args dev s tr :
  enough_fuel fuel args ->
  exists o s' ext,
    try_body fuel args dev s tr = (o, s', tr ++ ext)
    /\ forallb is_try_event ext = true
    /\ o <> OutOfFuel
    /\ try_finally (try_body fuel args) disconnect dev s tr =
         (match on_disconnect dev (tr ++ ext) with
          | Returns _ => o
          | Raises e' => Raise e'
          end, s', (tr ++ ext) ++ [EDisconnect]).
Proof.
  intros Hfuel.
  destruct (try_body_emits fuel args Hfuel dev s tr) as (o & s' & ext & E & HF & Ho).
  exists o, s', ext. repeat split; try assumption.
  unfold try_finally. rewrite E. unfold disconnect, call.
  destruct o as [[]|e|]; [| |congruence];
    destruct (on_disconnect dev (tr ++ ext)) as [[]|e']; reflexivity.
Qed.

(** A failing [disconnect] decides how a polling run ends: when the
    connection and the security step succeeded, the exception of the
    finaliser is the outcome of the program, whether the loop had completed
    or a sensor call had failed before (whose exception is then lost). *)
Theorem failing_disconnect_decides_outcome :
  forall (fuel : nat) (args : Args) (dev : Device) (e' : exn),
    polling args -> connects dev args -> enough_fuel fuel args ->
    supported_security args = true ->
    (forall tr level, on_setSecurityLevel dev tr level = Returns tt) ->
    (forall tr, on_disconnect dev tr = Raises e') ->
    fst (run_main fuel args dev) = Raise e'
    /\ count_ev is_disconnect (snd (run_main fuel args dev)) = 1%nat.
Proof.
  intros fuel args dev e' Hpoll Hconn Hfuel Hsup Hsec Hdisc.
  destruct (supported_security_level args dev Hsup) as (level & _ & Hlevel).
  rewrite (main_polling fuel args dev Hpoll Hconn).
  rewrite (bind_ok _ _ _ _ _ tt Microbit.init
             (connected_prefix args ++ [EPrint "Setting security"])) by reflexivity.
  rewrite run_bind, Hlevel. unfold setSecurityLevel.
  rewrite (call_returns _ _ _ _ _ tt) by apply Hsec.
  destruct (guarded_block_run fuel args dev Microbit.init
              ((connected_prefix args ++ [EPrint "Setting security"])
               ++ [ESetSecurityLevel level]) Hfuel)
    as (o & s' & ext & _ & HF & _ & E).
  rewrite E, Hdisc. cbn [fst snd]. split; [reflexivity|].
  destruct (connected_prefix_counts args) as (_ & _ & Hd & _).
  rewrite !count_ev_app, Hd.
  rewrite (count_ev_none is_disconnect is_try_event ext); [reflexivity| |exact HF].
  intros [] He; try reflexivity; discriminate.
Qed.

Lemma failing_disconnect_decides_outcome_witness :
  fst (run_main 2 (args_n2_temperature mac0) mock_disconnect_raises) =
    Raise (BTLEException 2 "Helper exited" None).
Proof.
  refine (proj1 (failing_disconnect_decides_outcome 2 (args_n2_temperature mac0)
                   mock_disconnect_raises (BTLEException 2 "Helper exited" None)
                   _ _ _ _ _ _)).
  - split; reflexivity.
  - reflexivity.
  - unfold enough_fuel. cbn. lia.
  - reflexivity.
  - reflexivity.
  - reflexivity.
Defined.

(** ** What a run may do *)

Lemma emits_when_flag {S} Q (c : bool) (body : M S unit) :
  (c = true -> emits Q body) -> emits Q (when c body).
Proof. intros H. destruct c; [exact (H eq_refl)|apply emits_ret]. Qed.

Lemma emits_with_object {S T A} Q (init : T) (m : M T A) :
  emits Q m -> emits Q (@with_object S T A init m).
Proof.
  intros Hm dev s tr. unfold with_object.
  destruct (Hm dev init tr) as (o & t' & ext & E & HF & Ho). rewrite E.
  exists o, s, ext. auto.
Qed.

Lemma emits_try_finally {S A} Q (body : M S A) (fin : M S unit) :
  emits Q body -> emits Q fin -> emits Q (try_finally body fin).
Proof.
  intros Hb Hf dev s tr. unfold try_finally.
  destruct (Hb dev s tr) as (o & s' & ext & E & HF & Ho). rewrite E.
  destruct (Hf dev s' (tr ++ ext)) as (o2 & s2 & ext2 & E2 & HF2 & Ho2).
  destruct o as [a|e|]; [| |congruence]; rewrite E2;
    destruct o2 as [[]|e2|]; try congruence;
    eexists _, s2, (ext ++ ext2);
    rewrite app_assoc, forallb_app, HF, HF2;
    (split; [reflexivity|split; [reflexivity|discriminate]]).
Qed.

Lemma emits_try_except_BTLE {S A} Q (body : M S A) handler :
  emits Q body -> (forall code msg estat, emits Q (handler code msg estat)) ->
  emits Q (try_except_BTLE body handler).
Proof.
  intros Hb Hh dev s tr. unfold try_except_BTLE.
  destruct (Hb dev s tr) as (o & s' & ext & E & HF & Ho). rewrite E.
  destruct o as [a|e|]; [exists (Ok a), s', ext; auto| |congruence].
  destruct e as [| | | |code msg estat| |];
    try (eexists _, s', ext; split; [reflexivity|split; [exact HF|discriminate]]).
  destruct (Hh code msg estat dev s' (tr ++ ext)) as (o2 & s2 & ext2 & E2 & HF2 & Ho2).
  rewrite E2. exists o2, s2, (ext ++ ext2).
  rewrite app_assoc, forallb_app, HF, HF2. auto.
Qed.

Lemma uuid_eqb_refl u : uuid_eqb u u = true.
Proof. unfold uuid_eqb. apply String.eqb_refl. Qed.

Lemma uuid_in_app u l1 l2 : uuid_in u (l1 ++ l2) = uuid_in u l1 || uuid_in u l2.
Proof. unfold uuid_in. apply existsb_app. Qed.

Lemma uuid_in_head u l : uuid_in u (u :: l) = true.
Proof. unfold uuid_in. cbn [existsb]. rewrite uuid_eqb_refl. reflexivity. Qed.

Lemma uuid_in_second u v l : uuid_in u (v :: u :: l) = true.
Proof.
  unfold uuid_in. cbn [existsb]. rewrite uuid_eqb_refl, orb_true_r. reflexivity.
Qed.

Ltac emits_steps_by tac :=
  repeat first
    [ apply emits_ret | apply emits_raise | apply emits_get | apply emits_modify
    | apply emits_deref | apply emits_index0 | apply emits_ord | apply emits_unpack_hhh
    | apply emits_when | apply emits_zoom
    | apply emits_call; tac
    | apply emits_print; tac
    | apply emits_bind; [|intros ?] ].

Lemma temperature_enable_polling args :
  temperature args = true ->
  emits (polling_event args) (Microbit.on_temperature TemperatureService.enable).
Proof.
  intros Hf.
  unfold Microbit.on_temperature, TemperatureService.enable, getServiceByUUID,
    getCharacteristics.
  emits_steps_by
    ltac:(cbn [polling_event]; unfold requested_services, requested_characteristics;
          rewrite Hf; apply uuid_in_head).
Qed.

Lemma accelerator_enable_polling args :
  accelerator args = true ->
  emits (polling_event args) (Microbit.on_accelerator AcceleratorService.enable).
Proof.
  intros Hf.
  unfold Microbit.on_accelerator, AcceleratorService.enable, getServiceByUUID,
    getCharacteristics.
  emits_steps_by
    ltac:(cbn [polling_event]; unfold requested_services, requested_characteristics;
          rewrite Hf, !uuid_in_app, uuid_in_head, ?orb_true_r; reflexivity).
Qed.

Lemma buttons_enable_polling args :
  buttons args = true ->
  emits (polling_event args) (Microbit.on_buttons ButtonsService.enable).
Proof.
  intros Hf.
  unfold Microbit.on_buttons, ButtonsService.enable, getServiceByUUID,
    getCharacteristics.
  emits_steps_by
    ltac:(cbn [polling_event]; unfold requested_services, requested_characteristics;
          rewrite Hf, !uuid_in_app;
          first [rewrite uuid_in_head|rewrite uuid_in_second];
          rewrite ?orb_true_r; reflexivity).
Qed.

Lemma try_body_polling_events fuel args :
  enough_fuel fuel args -> emits (polling_event args) (try_body fuel args).
Proof.
  intros Hfuel. unfold try_body.
  apply emits_bind; [apply emits_print; reflexivity|intros _].
  apply emits_bind;
    [apply emits_when_flag, temperature_enable_polling|intros _].
  apply emits_bind;
    [apply emits_when_flag, accelerator_enable_polling|intros _].
  apply emits_bind;
    [apply emits_when_flag, buttons_enable_polling|intros _].
  apply (emits_weaken is_poll_event).
  - intros [] He; try discriminate; reflexivity.
  - apply poll_loop_emits. unfold enough_fuel in Hfuel. lia.
Qed.

Lemma set_security_polling_events args : emits (polling_event args) (set_security args).
Proof.
  unfold set_security, setSecurityLevel, sys_exit.
  repeat apply emits_if; first [apply emits_call; reflexivity|apply emits_raise].
Qed.

Lemma poll_flow_polling_events fuel args :
  enough_fuel fuel args -> emits (polling_event args) (poll_flow fuel args).
Proof.
  intros Hfuel. unfold poll_flow, Peripheral_init.
  apply emits_bind; [apply emits_print; reflexivity|intros _].
  apply emits_bind;
    [apply emits_call; cbn [polling_event]; apply String.eqb_refl|intros _].
  apply emits_with_object.
  apply emits_bind; [apply emits_print; reflexivity|intros _].
  apply emits_bind; [apply set_security_polling_events|intros _].
  apply emits_try_finally; [apply try_body_polling_events; exact Hfuel|].
  unfold disconnect. apply emits_call. reflexivity.
Qed.

(** A polling run, beyond the debug switch that comes first when [--debug]
    is given, only does this: it connects to the given address with the
    random address type and no interface, looks up services and
    characteristics of the requested sensors only, applies the level "low"
    or "medium", reads, prints, waits and disconnects.  It never pairs or
    unpairs and never touches a sensor that was not requested. *)
Theorem polling_run_events :
  forall (fuel : nat) (args : Args) (dev : Device),
    polling args -> enough_fuel fuel args ->
    exists rest,
      snd (run_main fuel args dev) = debug_prefix args ++ rest
      /\ forallb (polling_event args) rest = true.
Proof.
  intros fuel args dev [Hp Hs] Hfuel. unfold run_main.
  rewrite main_enters_flow by (rewrite Hp, Hs; reflexivity).
  rewrite Hp.
  destruct (poll_flow_polling_events fuel args Hfuel dev tt (debug_prefix args))
    as (o & s' & ext & E & HF & _).
  rewrite E. exists ext. auto.
Qed.

Lemma polling_run_events_witness :
  exists rest,
    snd (run_main 2 (args_n2_temperature mac0) mock20) =
      debug_prefix (args_n2_temperature mac0) ++ rest
    /\ forallb (polling_event (args_n2_temperature mac0)) rest = true.
Proof.
  refine (polling_run_events 2 (args_n2_temperature mac0) mock20 _ _).
  - split; reflexivity.
  - unfold enough_fuel. cbn. lia.
Defined.

Lemma pair_flow_pairing_events args : emits (pairing_event args) (pair_flow args).
Proof.
  assert (Hc : pairing_event args
                 (EConnect (mac_address args) ADDR_TYPE_RANDOM (Some (interface args)))
               = true).
  { cbn [pairing_event]. rewrite String.eqb_refl, Z.eqb_refl. reflexivity. }
  unfold pair_flow, Peripheral_init, try_unpair, disconnect, pair, sys_exit.
  apply emits_bind; [apply emits_call; exact Hc|intros _].
  apply emits_bind; [|intros _].
  { apply emits_try_except_BTLE; [unfold unpair; apply emits_call; reflexivity|].
    intros code msg estat. apply emits_bind; [|intros d].
    - intros dev s tr. exists (Ok (DISCONNECTED dev)), s, [].
      rewrite app_nil_r. repeat split. discriminate.
    - apply emits_if; [apply emits_print; reflexivity|apply emits_raise]. }
  apply emits_bind; [apply emits_call; reflexivity|intros _].
  apply emits_bind; [apply emits_call; exact Hc|intros _].
  apply emits_bind; [apply emits_call; reflexivity|intros _].
  apply emits_bind; [apply emits_print; reflexivity|intros _].
  apply emits_raise.
Qed.

(** A pairing run, beyond the debug switch, only connects (to the given
    address, random address type, the interface of [--interface]), unpairs,
    pairs, disconnects and prints.  It resolves and reads no sensor, applies
    no security level and never waits; and it never returns normally: it
    ends in [sys.exit] or in an exception. *)
Theorem pairing_run_events :
  forall (fuel : nat) (args : Args) (dev : Device),
    pairing args ->
    (exists rest,
        snd (run_main fuel args dev) = debug_prefix args ++ rest
        /\ forallb (pairing_event args) rest = true)
    /\ exists e, fst (run_main fuel args dev) = Raise e.
Proof.
  intros fuel args dev [Hp Hs]. unfold run_main.
  rewrite main_enters_flow by (rewrite Hp, Hs; reflexivity).
  rewrite Hp.
  destruct (pair_flow_pairing_events args dev tt (debug_prefix args))
    as (o & s' & ext & E & HF & Ho).
  rewrite E. cbn [fst snd]. split; [exists ext; auto|].
  assert (Hnot : forall tr, fst (fst (pair_flow args dev tt tr)) <> Ok tt).
  { intros tr. unfold pair_flow, bind.
    repeat match goal with
           | |- context [match ?x with _ => _ end] => destruct x; cbn [fst]
           end; discriminate. }
  specialize (Hnot (debug_prefix args)). rewrite E in Hnot. cbn [fst] in Hnot.
  destruct o as [[]|e|]; [congruence|eauto|congruence].
Qed.

Lemma pairing_run_events_witness :
  exists e, fst (run_main 1 (with_pair (default_args mac0)) mock20) = Raise e.
Proof.
  refine (proj2 (pairing_run_events 1 (with_pair (default_args mac0)) mock20 _)).
  split; reflexivity.
Defined.

(** ** A failed read is final *)

Lemma steady_silent {S A} (m : M S A) :
  (forall dev s tr, exists o s', m dev s tr = (o, s', tr) /\ o <> OutOfFuel) ->
  steady m.
Proof.
  intros H dev s tr. destruct (H dev s tr) as (o & s' & E & Ho).
  exists o, s', []. rewrite app_nil_r. split; [exact E|split; [exact Ho|]].
  intros pre c post e Hsplit _. destruct pre; discriminate.
Qed.

Lemma steady_ret {S A} (a : A) : steady (@ret S A a).
Proof. apply steady_silent. intros dev s tr. exists (Ok a), s. split; [reflexivity|discriminate]. Qed.

Lemma steady_raise {S A} e : steady (@raise S A e).
Proof. apply steady_silent. intros dev s tr. exists (Raise e), s. split; [reflexivity|discriminate]. Qed.

Lemma steady_get {S} : steady (@get S).
Proof. apply steady_silent. intros dev s tr. exists (Ok s), s. split; [reflexivity|discriminate]. Qed.

Lemma steady_deref {S A} (r : option A) : steady (@deref S A r).
Proof. destruct r; [apply steady_ret|apply steady_raise]. Qed.

Lemma steady_ord {S} (p : bytes) : steady (@ord S p).
Proof. destruct p as [|b [|c r]]; first [apply steady_ret|apply steady_raise]. Qed.

Lemma steady_unpack_hhh {S} (p : bytes) : steady (@unpack_hhh S p).
Proof.
  destruct p as [|x0 [|x1 [|y0 [|y1 [|z0 [|z1 [|w r]]]]]]];
    first [apply steady_ret|apply steady_raise].
Qed.

Lemma steady_call {S A} ev (answer : Device -> Trace -> reply A) :
  is_read ev = false -> steady (@call S A ev answer).
Proof.
  intros Hev dev s tr. unfold call.
  assert (F : forall o : outcome A, read_failfast dev tr [ev] o).
  { intros o pre c post e Hsplit _.
    destruct pre as [|x [|y pre']]; try discriminate.
    injection Hsplit as -> _. discriminate. }
  destruct (answer dev tr) as [a|e];
    [exists (Ok a), s, [ev]|exists (Raise e), s, [ev]];
    (split; [reflexivity|split; [discriminate|apply F]]).
Qed.

Lemma steady_print {S} line : steady (@print S line).
Proof.
  intros dev s tr. exists (Ok tt), s, [EPrint line].
  split; [reflexivity|split; [discriminate|]].
  intros pre c post e Hsplit _.
  destruct pre as [|x [|y pre']]; discriminate.
Qed.

Lemma steady_read {S} (c : ChrRef) : steady (@Characteristic_read S c).
Proof.
  intros dev s tr. unfold Characteristic_read, call.
  destruct (on_read dev tr c) as [p|e0] eqn:E.
  - exists (Ok p), s, [ERead c]. split; [reflexivity|split; [discriminate|]].
    intros pre c' post e Hsplit Hraise.
    destruct pre as [|x [|y pre']]; try discriminate.
    injection Hsplit as <- <-. rewrite app_nil_r in Hraise. congruence.
  - exists (Raise e0), s, [ERead c]. split; [reflexivity|split; [discriminate|]].
    intros pre c' post e Hsplit Hraise.
    destruct pre as [|x [|y pre']]; try discriminate.
    injection Hsplit as <- <-. rewrite app_nil_r in Hraise.
    split; [reflexivity|]. cbn. congruence.
Qed.

Lemma steady_bind {S A B} (m : M S A) (k : A -> M S B) :
  steady m -> (forall a, steady (k a)) -> steady (bind m k).
Proof.
  intros Hm Hk dev s tr. rewrite run_bind.
  destruct (Hm dev s tr) as (o1 & s1 & ext1 & E1 & Ho1 & F1). rewrite E1.
  destruct o1 as [a|e1|]; [| |congruence].
  - destruct (Hk a dev s1 (tr ++ ext1)) as (o2 & s2 & ext2 & E2 & Ho2 & F2).
    exists o2, s2, (ext1 ++ ext2).
    split; [rewrite E2, app_assoc; reflexivity|]. split; [exact Ho2|].
    intros pre c post e Hsplit Hraise.
    apply app_eq_app in Hsplit. destruct Hsplit as [l [[H1 H2]|[H1 H2]]].
    + destruct l as [|x l].
      * rewrite app_nil_r in H1. subst pre. cbn in H2.
        apply (F2 [] c post e); [symmetry; exact H2|].
        rewrite app_nil_r. exact Hraise.
      * injection H2 as <- ->.
        destruct (F1 pre c l e H1 Hraise) as [_ Habs]. discriminate.
    + subst pre. apply (F2 l c post e H2). rewrite <- app_assoc. exact Hraise.
  - exists (Raise e1), s1, ext1. split; [reflexivity|split; [discriminate|]].
    intros pre c post e Hsplit Hraise. exact (F1 pre c post e Hsplit Hraise).
Qed.

Lemma steady_when {S} (c : bool) (body : M S unit) : steady body -> steady (when c body).
Proof. intros H. destruct c; [exact H|apply steady_ret]. Qed.

Lemma steady_zoom {S T A} (proj : S -> T) upd (m : M T A) :
  steady m -> steady (zoom proj upd m).
Proof.
  intros Hm dev s tr. unfold zoom.
  destruct (Hm dev (proj s) tr) as (o & t' & ext & E & Ho & F). rewrite E.
  exists o, (upd s t'), ext. auto.
Qed.

Lemma steady_of_lookups {S A} (m : M S A) : emits is_lookup m -> steady m.
Proof.
  intros Hm dev s tr. destruct (Hm dev s tr) as (o & s' & ext & E & HF & Ho).
  exists o, s', ext. split; [exact E|split; [exact Ho|]].
  intros pre c post e Hsplit _. subst ext.
  rewrite forallb_app in HF. apply andb_prop in HF. destruct HF as [_ HF].
  cbn in HF. discriminate.
Qed.

Ltac steady_steps :=
  repeat first
    [ apply steady_ret | apply steady_raise | apply steady_get
    | apply steady_deref | apply steady_ord | apply steady_unpack_hhh
    | apply steady_when | apply steady_zoom
    | apply steady_read | apply steady_print
    | apply steady_bind; [|intros ?] ].

Lemma poll_round_steady args : steady (poll_round args).
Proof.
  unfold poll_round, Microbit.on_temperature, Microbit.on_accelerator, Microbit.on_buttons,
    TemperatureService.read, AcceleratorService.read, ButtonsService.read,
    ButtonsService.read_btnA, ButtonsService.read_btnB.
  steady_steps.
  all: repeat match goal with p : (_ * _)%type |- _ => destruct p end.
  all: steady_steps.
Qed.

Lemma poll_loop_steady args fuel :
  forall counter, (Z.to_nat (count args - counter) < fuel)%nat ->
    steady (poll_loop fuel args counter).
Proof.
  induction fuel as [|fuel IH]; intros counter Hfuel; [lia|].
  cbn [poll_loop]. apply steady_bind; [apply poll_round_steady|intros _].
  rewrite Z.geb_leb. destruct (Z.leb_spec (count args) counter) as [Hle|Hlt].
  - apply steady_ret.
  - apply steady_bind; [apply steady_call; reflexivity|intros _].
    apply IH. lia.
Qed.

Lemma try_body_steady fuel args : enough_fuel fuel args -> steady (try_body fuel args).
Proof.
  intros Hfuel. unfold try_body.
  apply steady_bind; [apply steady_print|intros _].
  apply steady_bind;
    [apply steady_when, steady_of_lookups, emits_zoom, temperature_enable_emits|intros _].
  apply steady_bind;
    [apply steady_when, steady_of_lookups, emits_zoom, accelerator_enable_emits|intros _].
  apply steady_bind;
    [apply steady_when, steady_of_lookups, emits_zoom, buttons_enable_emits|intros _].
  apply poll_loop_steady. unfold enough_fuel in Hfuel. lia.
Qed.

Lemma no_read_split (P X pre : Trace) c post :
  forallb no_read P = true ->
  P ++ X = pre ++ ERead c :: post ->
  exists pre', pre = P ++ pre' /\ X = pre' ++ ERead c :: post.
Proof.
  revert pre. induction P as [|x P IH]; intros pre HP H.
  - exists pre. auto.
  - cbn in HP. apply andb_prop in HP. destruct HP as [Hx HP].
    destruct pre as [|y pre0].
    + cbn in H. injection H as -> _. discriminate.
    + cbn in H. injection H as -> H.
      destruct (IH pre0 HP H) as (pre' & -> & HX). exists pre'. auto.
Qed.

Lemma no_read_absent (P pre : Trace) c post :
  forallb no_read P = true -> P <> pre ++ ERead c :: post.
Proof.
  intros HP H. rewrite <- (app_nil_r P) in H.
  destruct (no_read_split P [] pre c post HP H) as (pre' & _ & Habs).
  destruct pre'; discriminate.
Qed.

Lemma split_before_disconnect (ext pre : Trace) c post :
  ext ++ [EDisconnect] = pre ++ ERead c :: post ->
  exists post', ext = pre ++ ERead c :: post' /\ post = post' ++ [EDisconnect].
Proof.
  intros H. apply app_eq_app in H. destruct H as [l [[H1 H2]|[H1 H2]]].
  - destruct l as [|x l]; [discriminate|].
    injection H2 as <- ->. exists l. auto.
  - destruct l as [|x [|y l]]; discriminate.
Qed.

Lemma forallb_weaken (Q Q' : Event -> bool) (l : Trace) :
  (forall e, Q e = true -> Q' e = true) -> forallb Q l = true -> forallb Q' l = true.
Proof. intros H. rewrite !forallb_forall. auto. Qed.

Lemma debug_prefix_no_read args : forallb no_read (debug_prefix args) = true.
Proof. unfold debug_prefix. destruct (debug args); reflexivity. Qed.

Lemma connected_prefix_no_read args : forallb no_read (connected_prefix args) = true.
Proof.
  unfold connected_prefix. rewrite forallb_app, debug_prefix_no_read. reflexivity.
Qed.

Lemma set_security_emits args : emits is_setSecurity (set_security args).
Proof.
  unfold set_security, setSecurityLevel, sys_exit.
  repeat apply emits_if; first [apply emits_call; reflexivity|apply emits_raise].
Qed.

(** No retry, in any run: after a characteristic read on which the device
    raised, the program makes exactly one more call, [disconnect], and
    nothing else (no further read, no line, no wait); it ends with the
    exception of that read, unless [disconnect] raises as well, whose
    exception then takes its place. *)
Theorem failed_read_is_final :
  forall (fuel : nat) (args : Args) (dev : Device),
    enough_fuel fuel args ->
    forall pre c post e,
      snd (run_main fuel args dev) = pre ++ ERead c :: post ->
      on_read dev pre c = Raises e ->
      post = [EDisconnect]
      /\ (fst (run_main fuel args dev) = Raise e
          \/ exists e', on_disconnect dev (pre ++ [ERead c]) = Raises e'
                        /\ fst (run_main fuel args dev) = Raise e').
Proof.
  intros fuel args dev Hfuel pre c post e Htrace Hraise.
  destruct (pair_flag args) eqn:Hp; destruct (services_requested args) eqn:Hs.
  - rewrite (main_rejects_conflict fuel args dev Hp Hs) in Htrace.
    destruct pre; discriminate.
  - exfalso. revert Htrace. unfold run_main.
    rewrite main_enters_flow by (rewrite Hp, Hs; reflexivity).
    rewrite Hp.
    destruct (pair_flow_pairing_events args dev tt (debug_prefix args))
      as (o & s' & ext & E & HF & _).
    rewrite E. cbn [snd]. apply no_read_absent.
    rewrite forallb_app, debug_prefix_no_read.
    apply (forallb_weaken (pairing_event args)); [|exact HF].
    intros [] He; try reflexivity; discriminate.
  - assert (Hpoll : polling args) by (split; assumption).
    destruct (on_connect dev
                (debug_prefix args ++ [EPrint ("Connecting to " ++ mac_address args)%string])
                (mac_address args) ADDR_TYPE_RANDOM None) as [[]|e0] eqn:Hc.
    2:{ exfalso. revert Htrace.
        rewrite (main_polling_unreachable fuel args dev e0 Hpoll Hc). cbn [snd].
        apply no_read_absent, connected_prefix_no_read. }
    revert Htrace. rewrite (main_polling fuel args dev Hpoll Hc).
    rewrite (bind_ok _ _ _ _ _ tt Microbit.init
               (connected_prefix args ++ [EPrint "Setting security"])) by reflexivity.
    rewrite run_bind.
    destruct (set_security_emits args dev Microbit.init
                (connected_prefix args ++ [EPrint "Setting security"]))
      as (os & ss & exts & Es & HFs & Hos).
    rewrite Es.
    assert (HP : forallb no_read
                   ((connected_prefix args ++ [EPrint "Setting security"]) ++ exts) = true).
    { rewrite !forallb_app, connected_prefix_no_read. cbn [forallb no_read is_read negb andb].
      apply (forallb_weaken is_setSecurity); [|exact HFs].
      intros [] He; try reflexivity; discriminate. }
    destruct os as [[]|es|]; [| |congruence].
    2:{ cbn [snd]. intros Htrace. exfalso. exact (no_read_absent _ _ _ _ HP Htrace). }
    set (T2 := (connected_prefix args ++ [EPrint "Setting security"]) ++ exts) in *.
    destruct (try_body_steady fuel args Hfuel dev ss T2) as (o & s' & ext & E & Ho & F).
    unfold try_finally. rewrite E. unfold disconnect, call.
    assert (Hshape :
              forall Htr : (T2 ++ ext) ++ [EDisconnect] = pre ++ ERead c :: post,
                post = [EDisconnect] /\ raised o = Some e /\ T2 ++ ext = pre ++ [ERead c]).
    { intros Htr. rewrite <- app_assoc in Htr.
      destruct (no_read_split T2 _ pre c post HP Htr) as (pre' & -> & Hext).
      destruct (split_before_disconnect ext pre' c post Hext) as (post' & -> & ->).
      destruct (F pre' c post' e eq_refl Hraise) as [-> Hr].
      rewrite <- app_assoc. auto. }
    destruct o as [[]|eo|]; [| |congruence];
      destruct (on_disconnect dev (T2 ++ ext)) as [[]|e'] eqn:Hd; cbn [fst snd];
      intros Htr; destruct (Hshape Htr) as (Hpost & Hr & HT);
      (split; [exact Hpost|]); cbn in Hr; try discriminate.
    + left. congruence.
    + right. exists e'. rewrite <- HT. auto.
  - rewrite (main_rejects_no_action fuel args dev Hp Hs) in Htrace.
    destruct pre; discriminate.
Qed.

Lemma failed_read_is_final_witness :
  snd (run_main 3 (with_count 3 0 (with_sensors true false false (default_args mac0)))
         (mock_read_fails_after 1)) =
    [EPrint "Connecting to C0:FF:EE:00:00:01";
     EConnect mac0 ADDR_TYPE_RANDOM None;
     EPrint "Setting security"; ESetSecurityLevel "low";
     EPrint "Enabling selected sensors...";
     EGetServiceByUUID TemperatureService.svcUUID;
     EGetCharacteristics 1 TemperatureService.dataUUID;
     ERead 10; EPrint "Temperature: 20C"; EWaitForNotifications 0]
    ++ ERead 10 :: [EDisconnect]
  /\ fst (run_main 3 (with_count 3 0 (with_sensors true false false (default_args mac0)))
            (mock_read_fails_after 1)) =
     Raise (BTLEException 1 "Device disconnected" None).
Proof.
  split; [reflexivity|].
  destruct (failed_read_is_final 3
              (with_count 3 0 (with_sensors true false false (default_args mac0)))
              (mock_read_fails_after 1))
    with (pre := [EPrint "Connecting to C0:FF:EE:00:00:01";
                  EConnect mac0 ADDR_TYPE_RANDOM None;
                  EPrint "Setting security"; ESetSecurityLevel "low";
                  EPrint "Enabling selected sensors...";
                  EGetServiceByUUID TemperatureService.svcUUID;
                  EGetCharacteristics 1 TemperatureService.dataUUID;
                  ERead 10; EPrint "Temperature: 20C"; EWaitForNotifications 0])
         (c := 10) (post := [EDisconnect])
         (e := BTLEException 1 "Device disconnected" None)
    as [_ [H|(e' & Habs & _)]].
  - unfold enough_fuel. cbn. lia.
  - reflexivity.
  - reflexivity.
  - exact H.
  - discriminate.
Defined.

(** ** The connection of the pairing flow *)

Lemma pair_connected_counts args :
  count_ev is_connect (pair_connected args) = 1%nat
  /\ count_ev is_disconnect (pair_connected args) = 0%nat.
Proof. unfold pair_connected, debug_prefix. destruct (debug args); split; reflexivity. Qed.

(** The pairing flow never gives its connection back.  On a device whose
    connection attempts and [disconnect] calls succeed, every pairing run,
    successful or failed, ends with one connection more than it has
    released: after a fatal [unpair] the first connection stays open, and
    otherwise the second one does, also past the final [sys.exit(0)]. *)
Theorem pairing_leaves_connection_open :
  forall (fuel : nat) (args : Args) (dev : Device),
    pairing args ->
    (forall tr addr ty iface, on_connect dev tr addr ty iface = Returns tt) ->
    (forall tr, on_disconnect dev tr = Returns tt) ->
    count_ev is_connect (snd (run_main fuel args dev))
    = S (count_ev is_disconnect (snd (run_main fuel args dev))).
Proof.
  intros fuel args dev Hpair Hconn Hdisc.
  rewrite (pair_flow_connected fuel args dev Hpair (Hconn _ _ _ _)).
  destruct (pair_connected_counts args) as [Hc Hd].
  assert (Htail : forall tr,
             count_ev is_connect tr = 1%nat -> count_ev is_disconnect tr = 0%nat ->
             forall o s' tr',
               (disconnect ;;;
                Peripheral_init (mac_address args) ADDR_TYPE_RANDOM (Some (interface args)) ;;;
                pair ;;; print "Paired." ;;; @sys_exit unit unit (ExitCode 0)) dev tt tr
               = (o, s', tr') ->
               count_ev is_connect tr' = S (count_ev is_disconnect tr')).
  { intros tr H1 H0 o s' tr'. unfold disconnect, Peripheral_init.
    rewrite (bind_ok _ _ _ _ _ tt tt (tr ++ [EDisconnect]))
      by (apply call_returns, Hdisc).
    rewrite (bind_ok _ _ _ _ _ tt tt
               ((tr ++ [EDisconnect])
                ++ [EConnect (mac_address args) ADDR_TYPE_RANDOM (Some (interface args))]))
      by (apply call_returns, Hconn).
    rewrite run_bind. unfold pair, call.
    destruct (on_pair dev _) as [[]|e]; intros E; injection E as _ _ <-;
      rewrite !count_ev_app, H1, H0; reflexivity. }
  rewrite run_bind, try_unpair_run.
  destruct (on_unpair dev (pair_connected args)) as [[]|e].
  - match goal with |- context [bind ?m ?k dev tt ?tr] =>
      destruct (bind m k dev tt tr) as [[o s'] tr'] eqn:E end.
    cbn [snd]. refine (Htail _ _ _ _ _ _ E).
    + rewrite count_ev_app, Hc. reflexivity.
    + rewrite count_ev_app, Hd. reflexivity.
  - destruct (not_paired_signature dev e).
    + match goal with |- context [bind ?m ?k dev tt ?tr] =>
        destruct (bind m k dev tt tr) as [[o s'] tr'] eqn:E end.
      cbn [snd]. refine (Htail _ _ _ _ _ _ E).
      * rewrite count_ev_app, Hc. reflexivity.
      * rewrite count_ev_app, Hd. reflexivity.
    + cbn [snd]. rewrite !count_ev_app, Hc, Hd. reflexivity.
Qed.

Lemma pairing_leaves_connection_open_witness :
  count_ev is_connect (snd (run_main 1 (with_pair (default_args mac0)) mock20)) = 2%nat
  /\ count_ev is_disconnect (snd (run_main 1 (with_pair (default_args mac0)) mock20)) = 1%nat.
Proof.
  assert (H := pairing_leaves_connection_open 1 (with_pair (default_args mac0)) mock20).
  split; [|reflexivity]. rewrite H.
  - reflexivity.
  - split; reflexivity.
  - reflexivity.
  - reflexivity.
Defined.
